(** * The conversational state engine of the TinRed invoicing agent

    A shallow embedding of the Python sources under [backend/app]:
    the session model ([models/schemas.py]), the slot extractor
    ([agents/data_extractor.py]), the intent classifier
    ([agents/intent_classifier.py]), the issuing-service client
    ([services/tinred_client.py]), the session manager
    ([services/session_manager.py]), the emission agent
    ([agents/emission_agent.py]) and, in the last part, the session store
    and the orchestrator ([agents/orchestrator.py]), which works with the
    conversation agent and the transcription of audio as collaborators it
    is given.

    Python [str] values are sequences of code points; the regular
    expressions of the sources are kept as the pattern texts written there
    and run by a backtracking matcher with the priorities of Python's [re]. *)

From Stdlib Require Import String Ascii NArith ZArith Bool Lia List.
Import ListNotations.

(* ================================================================= *)
(** ** Python strings *)

Module PyStr.

(** A [str] is a list of Unicode code points. *)
Definition pystr := list N.

Definition code (a : ascii) : N := N_of_ascii a.

(** Source literals are written as Rocq strings (UTF-8 bytes) and decoded. *)
Fixpoint utf8_decode (bs : list N) : pystr :=
  match bs with
  | [] => []
  | b0 :: t0 =>
    if (b0 <? 128)%N then b0 :: utf8_decode t0
    else if (b0 <? 224)%N then
      match t0 with
      | b1 :: t1 => ((b0 - 192) * 64 + (b1 - 128))%N :: utf8_decode t1
      | [] => [b0]
      end
    else if (b0 <? 240)%N then
      match t0 with
      | b1 :: b2 :: t2 =>
          ((b0 - 224) * 4096 + (b1 - 128) * 64 + (b2 - 128))%N :: utf8_decode t2
      | _ => [b0]
      end
    else
      match t0 with
      | b1 :: b2 :: b3 :: t3 =>
          ((b0 - 240) * 262144 + (b1 - 128) * 4096 + (b2 - 128) * 64 + (b3 - 128))%N
            :: utf8_decode t3
      | _ => [b0]
      end
  end.

Definition u (s : string) : pystr :=
  utf8_decode (map code (list_ascii_of_string s)).

Fixpoint str_eqb (a b : pystr) : bool :=
  match a, b with
  | [], [] => true
  | x :: a', y :: b' => (x =? y)%N && str_eqb a' b'
  | _, _ => false
  end.

(** [s in l] for a list of strings. *)
Definition str_mem (s : pystr) (l : list pystr) : bool := existsb (str_eqb s) l.

(** [t.startswith(p)] *)
Fixpoint startswith (p t : pystr) : bool :=
  match p, t with
  | [], _ => true
  | x :: p', y :: t' => (x =? y)%N && startswith p' t'
  | _ :: _, [] => false
  end.

(** [p in t] for strings: [p] occurs as a contiguous run of [t]. *)
Fixpoint contains (p t : pystr) : bool :=
  startswith p t ||
  match t with
  | [] => false
  | _ :: t' => contains p t'
  end.

(** [t.replace(old, new)] for a non-empty [old]: left to right, without
    overlap. The fuel is the length of [t], one unit per step. *)
Fixpoint replace_fuel (fuel : nat) (old new t : pystr) : pystr :=
  match fuel with
  | O => t
  | S f =>
    match t with
    | [] => []
    | c :: t' =>
      if startswith old t
      then new ++ replace_fuel f old new (skipn (length old) t)
      else c :: replace_fuel f old new t'
    end
  end.

Definition replace (old new t : pystr) : pystr :=
  match old with
  | [] => t
  | _ => replace_fuel (length t) old new t
  end.

(** [t.split(sep)[0]] for a one-character separator. *)
Fixpoint split_first (sep : N) (t : pystr) : pystr :=
  match t with
  | [] => []
  | c :: t' => if (c =? sep)%N then [] else c :: split_first sep t'
  end.

(** Character tables. White space is the set of [str.isspace]; digits,
    word characters and the case maps are those of Python on Basic Latin
    and the Latin-1 Supplement, which holds the Spanish alphabet of the
    dialogue. A character beyond U+00FF is taken as no digit, no word
    character and without case: so Python has punctuation, symbols and
    pictographs, and not the letters and digits of other scripts (the
    fullwidth digits, the Kelvin sign). What is proved of the shape of
    numbers is stated for texts whose only decimal digits are 0 to 9
    ([ascii_digits] below). *)
Definition in_range (lo hi c : N) : bool := (lo <=? c)%N && (c <=? hi)%N.

Definition is_space (c : N) : bool :=
  in_range 9 13 c || in_range 28 32 c || (c =? 133)%N || (c =? 160)%N
  || (c =? 5760)%N || in_range 8192 8202 c || in_range 8232 8233 c
  || (c =? 8239)%N || (c =? 8287)%N || (c =? 12288)%N.

Definition is_digit (c : N) : bool := in_range 48 57 c.

Definition is_word (c : N) : bool :=
  in_range 48 57 c || in_range 65 90 c || (c =? 95)%N || in_range 97 122 c
  || (c =? 170)%N || in_range 178 179 c || (c =? 181)%N || in_range 185 186 c
  || in_range 188 190 c || in_range 192 214 c || in_range 216 246 c
  || in_range 248 255 c.

Definition lower_char (c : N) : N :=
  if in_range 65 90 c then (c + 32)%N
  else if in_range 192 222 c && negb (c =? 215)%N then (c + 32)%N
  else c.

Definition upper_char (c : N) : pystr :=
  if in_range 97 122 c then [(c - 32)%N]
  else if (c =? 223)%N then [83; 83]%N
  else if (c =? 181)%N then [924]%N
  else if (c =? 255)%N then [376]%N
  else if in_range 224 254 c && negb (c =? 247)%N then [(c - 32)%N]
  else [c].

Definition lower (t : pystr) : pystr := map lower_char t.
Definition upper (t : pystr) : pystr := flat_map upper_char t.

(** [t.strip()] *)
Fixpoint lstrip (t : pystr) : pystr :=
  match t with
  | c :: t' => if is_space c then lstrip t' else t
  | [] => []
  end.

Definition strip (t : pystr) : pystr := rev (lstrip (rev (lstrip t))).

(** [int(t)] for a string of the digits 0 to 9. *)
Definition int_of_digits (t : pystr) : N :=
  fold_left (fun acc c => (acc * 10 + (c - 48))%N) t 0%N.

(** [str(n)] for a natural number below one hundred. *)
Definition str_of_small (n : nat) : pystr :=
  if Nat.ltb n 10 then [(48 + N.of_nat n)%N]
  else [(48 + N.of_nat (n / 10))%N; (48 + N.of_nat (n mod 10))%N].

(** Truth value of a string: the empty string is false. *)
Definition nonempty (t : pystr) : bool :=
  match t with [] => false | _ => true end.

(** Truth value of an [Optional[str]]: [None] and [""] are false. *)
Definition truthy (o : option pystr) : bool :=
  match o with Some (_ :: _) => true | _ => false end.

End PyStr.
Export PyStr.

(* ================================================================= *)
(** ** Regular expressions, as Python's [re] runs them *)

Module Re.

Inductive citem :=
| IChar (c : N)
| IRange (lo hi : N)
| IDigit
| ISpace
| IWord.

Inductive re :=
| Eps
| Any
| Cls (neg : bool) (items : list citem)
| Bol
| Eol
| WordB
| Cat (a b : re)
| Alt (a b : re)
| Rep (a : re) (lo : nat) (hi : option nat) (greedy : bool)
| Group (n : nat) (a : re)
| Look (a : re).

(** *** Parsing a pattern text *)

Definition chr_is (a : ascii) (c : N) : bool := (c =? code a)%N.

Definition escape_item (e : N) : citem :=
  if chr_is "d" e then IDigit
  else if chr_is "s" e then ISpace
  else if chr_is "w" e then IWord
  else if chr_is "n" e then IChar 10
  else if chr_is "t" e then IChar 9
  else IChar e.

Fixpoint parse_class (p : pystr) : option (list citem * pystr) :=
  match p with
  | [] => None
  | c :: tl =>
    if chr_is "]" c then Some ([], tl)
    else if chr_is "\" c then
      match tl with
      | e :: tl2 =>
        match parse_class tl2 with
        | Some (its, r) => Some (escape_item e :: its, r)
        | None => None
        end
      | [] => None
      end
    else
      let single :=
        match parse_class tl with
        | Some (its, r) => Some (IChar c :: its, r)
        | None => None
        end in
      match tl with
      | d :: e :: tl3 =>
        if chr_is "-" d && negb (chr_is "]" e) then
          match parse_class tl3 with
          | Some (its, r) => Some (IRange c e :: its, r)
          | None => None
          end
        else single
      | _ => single
      end
  end.

Fixpoint parse_nat_acc (p : pystr) (acc : nat) : nat * pystr :=
  match p with
  | c :: tl =>
    if is_digit c then parse_nat_acc tl (acc * 10 + N.to_nat (c - 48))
    else (acc, p)
  | [] => (acc, p)
  end.

(** The braces of a counted repetition: [{m}], [{m,n}] or [{m,}]. *)
Definition parse_bounds (p : pystr) : option (nat * option nat * pystr) :=
  match p with
  | c :: _ =>
    if is_digit c then
      let '(lo, r1) := parse_nat_acc p 0 in
      match r1 with
      | d :: r2 =>
        if chr_is "}" d then Some (lo, Some lo, r2)
        else if chr_is "," d then
          match r2 with
          | e :: r3 =>
            if chr_is "}" e then Some (lo, None, r3)
            else if is_digit e then
              let '(hi, r4) := parse_nat_acc r2 0 in
              match r4 with
              | f :: r5 => if chr_is "}" f then Some (lo, Some hi, r5) else None
              | [] => None
              end
            else None
          | [] => None
          end
        else None
      | [] => None
      end
    else None
  | [] => None
  end.

Definition lazy_suffix (a : re) (lo : nat) (hi : option nat) (p : pystr) : re * pystr :=
  match p with
  | c :: tl => if chr_is "?" c then (Rep a lo hi false, tl) else (Rep a lo hi true, p)
  | [] => (Rep a lo hi true, p)
  end.

Definition parse_quant (a : re) (p : pystr) : re * pystr :=
  match p with
  | c :: tl =>
    if chr_is "*" c then lazy_suffix a 0 None tl
    else if chr_is "+" c then lazy_suffix a 1 None tl
    else if chr_is "?" c then lazy_suffix a 0 (Some 1) tl
    else if chr_is "{" c then
      match parse_bounds tl with
      | Some (lo, hi, r) => lazy_suffix a lo hi r
      | None => (a, p)
      end
    else (a, p)
  | [] => (a, p)
  end.

Definition expect_close (x : option (re * pystr * nat)) (wrap : re -> re)
  : option (re * pystr * nat) :=
  match x with
  | Some (a, c :: r, g) => if chr_is ")" c then Some (wrap a, r, g) else None
  | _ => None
  end.

(** Recursive descent; [g] counts the capturing groups opened so far. *)
Fixpoint parse_alt (fuel : nat) (p : pystr) (g : nat) : option (re * pystr * nat) :=
  match fuel with
  | O => None
  | S f =>
    match parse_seq f p g with
    | Some (a, c :: r, g1) =>
      if chr_is "|" c then
        match parse_alt f r g1 with
        | Some (b, r2, g2) => Some (Alt a b, r2, g2)
        | None => None
        end
      else Some (a, c :: r, g1)
    | other => other
    end
  end
with parse_seq (fuel : nat) (p : pystr) (g : nat) : option (re * pystr * nat) :=
  match fuel with
  | O => None
  | S f =>
    match p with
    | [] => Some (Eps, [], g)
    | c :: _ =>
      if chr_is "|" c || chr_is ")" c then Some (Eps, p, g)
      else
        match parse_atom f p g with
        | Some (a, r1, g1) =>
          let '(a', r2) := parse_quant a r1 in
          match parse_seq f r2 g1 with
          | Some (Eps, r3, g3) => Some (a', r3, g3)
          | Some (b, r3, g3) => Some (Cat a' b, r3, g3)
          | None => None
          end
        | None => None
        end
    end
  end
with parse_atom (fuel : nat) (p : pystr) (g : nat) : option (re * pystr * nat) :=
  match fuel with
  | O => None
  | S f =>
    match p with
    | [] => None
    | c :: tl =>
      if chr_is "(" c then
        match tl with
        | q :: k :: tl2 =>
          if chr_is "?" q then
            if chr_is ":" k then expect_close (parse_alt f tl2 g) (fun a => a)
            else if chr_is "=" k then expect_close (parse_alt f tl2 g) Look
            else None
          else expect_close (parse_alt f tl (S g)) (Group (S g))
        | _ => expect_close (parse_alt f tl (S g)) (Group (S g))
        end
      else if chr_is "[" c then
        match tl with
        | n :: tl2 =>
          if chr_is "^" n then
            match parse_class tl2 with
            | Some (its, r) => Some (Cls true its, r, g)
            | None => None
            end
          else
            match parse_class tl with
            | Some (its, r) => Some (Cls false its, r, g)
            | None => None
            end
        | [] => None
        end
      else if chr_is "\" c then
        match tl with
        | e :: r =>
          if chr_is "b" e then Some (WordB, r, g)
          else Some (Cls false [escape_item e], r, g)
        | [] => None
        end
      else if chr_is "^" c then Some (Bol, tl, g)
      else if chr_is "$" c then Some (Eol, tl, g)
      else if chr_is "." c then Some (Any, tl, g)
      else Some (Cls false [IChar c], tl, g)
    end
  end.

Definition parse (p : pystr) : option re :=
  match parse_alt (3 * length p + 3) p 0 with
  | Some (r, [], _) => Some r
  | _ => None
  end.

(** [re.compile] of a pattern text of the sources; a text outside the
    grammar above gives the pattern that matches nothing. *)
Definition compile (s : string) : re :=
  match parse (u s) with
  | Some r => r
  | None => Cls false []
  end.

(** *** Matching *)

Definition upper_simple (c : N) : N :=
  if in_range 97 122 c then (c - 32)%N
  else if (c =? 181)%N then 924%N
  else if (c =? 255)%N then 376%N
  else if in_range 224 254 c && negb (c =? 247)%N then (c - 32)%N
  else c.

Definition item_accepts (c : N) (it : citem) : bool :=
  match it with
  | IChar x => (c =? x)%N
  | IRange lo hi => in_range lo hi c
  | IDigit => is_digit c
  | ISpace => is_space c
  | IWord => is_word c
  end.

(** With [re.IGNORECASE] a character is accepted when it or one of its
    case variants is. *)
Definition class_accepts (ic neg : bool) (items : list citem) (c : N) : bool :=
  let hit x := existsb (item_accepts x) items in
  xorb neg (if ic then hit c || hit (lower_char c) || hit (upper_simple c) else hit c).

Record mstate := {
  m_prev : option N;
  m_rest : pystr;
  m_pos : nat;
  m_caps : list (nat * (nat * nat))
}.

Definition K := mstate -> option mstate.

Definition advance (s : mstate) (c : N) (tl : pystr) : mstate :=
  {| m_prev := Some c; m_rest := tl; m_pos := S (m_pos s); m_caps := m_caps s |}.

Definition set_cap (n a b : nat) (s : mstate) : mstate :=
  {| m_prev := m_prev s; m_rest := m_rest s; m_pos := m_pos s;
     m_caps := (n, (a, b)) :: m_caps s |}.

Definition word_opt (o : option N) : bool :=
  match o with Some c => is_word c | None => false end.

Definition at_wordb (s : mstate) : bool :=
  xorb (word_opt (m_prev s)) (word_opt (hd_error (m_rest s))).

Fixpoint rep_min (ma : K -> K) (n : nat) (k : K) : K :=
  match n with
  | O => k
  | S n' => ma (rep_min ma n' k)
  end.

(** Up to [n] further iterations, each of which has to consume input;
    greedy tries one more iteration first, lazy tries the rest first. *)
Fixpoint rep_opt (ma : K -> K) (greedy : bool) (n : nat) (k : K) (s : mstate)
  : option mstate :=
  match n with
  | O => k s
  | S n' =>
    let again := fun s' =>
      if Nat.ltb (m_pos s) (m_pos s') then rep_opt ma greedy n' k s' else None in
    if greedy then
      match ma again s with
      | Some r => Some r
      | None => k s
      end
    else
      match k s with
      | Some r => Some r
      | None => ma again s
      end
  end.

Fixpoint mrun (ic : bool) (r : re) (k : K) (s : mstate) {struct r} : option mstate :=
  match r with
  | Eps => k s
  | Any =>
    match m_rest s with
    | c :: tl => if (c =? 10)%N then None else k (advance s c tl)
    | [] => None
    end
  | Cls neg items =>
    match m_rest s with
    | c :: tl => if class_accepts ic neg items c then k (advance s c tl) else None
    | [] => None
    end
  | Bol => if Nat.eqb (m_pos s) 0 then k s else None
  | Eol =>
    match m_rest s with
    | [] => k s
    | [c] => if (c =? 10)%N then k s else None
    | _ => None
    end
  | WordB => if at_wordb s then k s else None
  | Cat a b => mrun ic a (mrun ic b k) s
  | Alt a b =>
    match mrun ic a k s with
    | Some x => Some x
    | None => mrun ic b k s
    end
  | Rep a lo hi greedy =>
    rep_min (mrun ic a) lo
      (fun s1 =>
         rep_opt (mrun ic a) greedy
           (match hi with Some h => h - lo | None => length (m_rest s1) end) k s1) s
  | Group n a => mrun ic a (fun s' => k (set_cap n (m_pos s) (m_pos s') s')) s
  | Look a =>
    match mrun ic a Some s with
    | Some _ => k s
    | None => None
    end
  end.

(** A match object: its span and the spans of its groups. *)
Record rmatch := {
  mt_start : nat;
  mt_end : nat;
  mt_caps : list (nat * (nat * nat));
  mt_after : mstate
}.

Definition substr (t : pystr) (a b : nat) : pystr := firstn (b - a) (skipn a t).

Fixpoint cap_lookup (n : nat) (caps : list (nat * (nat * nat))) : option (nat * nat) :=
  match caps with
  | [] => None
  | (i, ab) :: tl => if Nat.eqb i n then Some ab else cap_lookup n tl
  end.

(** [m.group(n)] on the subject [t]. *)
Definition group (t : pystr) (m : rmatch) (n : nat) : option pystr :=
  match n with
  | O => Some (substr t (mt_start m) (mt_end m))
  | _ =>
    match cap_lookup n (mt_caps m) with
    | Some (a, b) => Some (substr t a b)
    | None => None
    end
  end.

(** The group as [findall] and the code after a successful match read it. *)
Definition group_str (t : pystr) (m : rmatch) (n : nat) : pystr :=
  match group t m n with Some s => s | None => [] end.

Definition try_at (ic : bool) (r : re) (prev : option N) (rest : pystr) (pos : nat)
  : option rmatch :=
  match mrun ic r Some {| m_prev := prev; m_rest := rest; m_pos := pos; m_caps := [] |} with
  | Some s' =>
    Some {| mt_start := pos; mt_end := m_pos s'; mt_caps := m_caps s'; mt_after := s' |}
  | None => None
  end.

Fixpoint search_at (ic : bool) (r : re) (prev : option N) (rest : pystr) (pos : nat)
  : option rmatch :=
  match try_at ic r prev rest pos with
  | Some m => Some m
  | None =>
    match rest with
    | [] => None
    | c :: tl => search_at ic r (Some c) tl (S pos)
    end
  end.

(** [re.search], [re.match] *)
Definition re_search (ic : bool) (r : re) (t : pystr) : option rmatch :=
  search_at ic r None t 0.

Definition re_match (ic : bool) (r : re) (t : pystr) : option rmatch :=
  try_at ic r None t 0.

Definition matches (ic : bool) (r : re) (t : pystr) : bool :=
  match re_search ic r t with Some _ => true | None => false end.

(** [re.finditer]: successive matches, each search resuming where the
    previous match ended (one character further after an empty match). *)
Fixpoint finditer_from (fuel : nat) (ic : bool) (r : re)
    (prev : option N) (rest : pystr) (pos : nat) : list rmatch :=
  match fuel with
  | O => []
  | S f =>
    match search_at ic r prev rest pos with
    | None => []
    | Some m =>
      let s' := mt_after m in
      m ::
      (if Nat.ltb (mt_start m) (mt_end m)
       then finditer_from f ic r (m_prev s') (m_rest s') (m_pos s')
       else
         match m_rest s' with
         | [] => []
         | c :: tl => finditer_from f ic r (Some c) tl (S (m_pos s'))
         end)
    end
  end.

Definition re_finditer (ic : bool) (r : re) (t : pystr) : list rmatch :=
  finditer_from (S (length t)) ic r None t 0.

(** [re.sub] with the replacement computed from each match. *)
Fixpoint sub_build (t : pystr) (pos : nat) (ms : list rmatch) (repl : rmatch -> pystr)
  : pystr :=
  match ms with
  | [] => skipn pos t
  | m :: ms' => substr t pos (mt_start m) ++ repl m ++ sub_build t (mt_end m) ms' repl
  end.

Definition re_sub (ic : bool) (r : re) (repl : rmatch -> pystr) (t : pystr) : pystr :=
  sub_build t 0 (re_finditer ic r t) repl.

End Re.
Export Re.

(** [rx "..."] is the compiled form of the pattern text: patterns are
    compiled once, where they are written, and a text outside the grammar
    is refused there. *)
Notation "'rx' s" :=
  (ltac:(let r := eval vm_compute in (parse (u s)) in
         match r with Some ?x => exact x end))
  (at level 10, s at level 9, only parsing).

(* ================================================================= *)
(** ** models/schemas.py *)

Module Schemas.

Inductive IntentType :=
| EMIT_INVOICE
| QUERY_PRODUCTS
| QUERY_CLIENTS
| QUERY_HISTORY
| GENERAL_QUESTION
| CONFIRMATION
| CANCEL
| GREETING
| UNKNOWN.

(** JSON as the issuing service sends it. A field value is a string or
    something else (number, boolean, null, nested value) kept as its text;
    a body is an object, an array or another value. *)
Inductive jvalue :=
| VStr (s : pystr)
| VOther (shown : pystr).

Definition record := list (pystr * jvalue).

Inductive jelem :=
| EObj (r : record)
| EOther (shown : pystr).

Inductive json :=
| JObj (r : record)
| JArr (l : list jelem)
| JOther (shown : pystr).

Record ClientIdentification := {
  IdEmpresa : pystr;
  IdEstablecimiento : pystr;
  IdUsuario : Z;
  Nombre : option pystr
}.

Record InvoiceItem := {
  cantidad : pystr;
  descripcion : pystr;
  precio : pystr
}.

Record InvoiceResponse := {
  success : pystr;
  estado : pystr;
  serie : pystr;
  numero : pystr;
  id : Z;
  mensaje : pystr;
  pdf : pystr
}.

Definition is_successful (r : InvoiceResponse) : bool :=
  str_eqb (upper (success r)) (u "TRUE").

Definition get_full_number (r : InvoiceResponse) : pystr :=
  serie r ++ u "-" ++ numero r.

Definition get_pdf_url (r : InvoiceResponse) : pystr := pdf r.

Record EmissionData := {
  document_type : option pystr;
  currency : option pystr;
  id_type : option pystr;
  id_number : option pystr;
  items : list InvoiceItem;
  client_validated : bool;
  client_name : option pystr
}.

(** [EmissionData()] *)
Definition EmissionData_new : EmissionData :=
  {| document_type := None; currency := Some (u "PEN"); id_type := None;
     id_number := None; items := []; client_validated := false;
     client_name := None |}.

Definition has_items (e : EmissionData) : bool :=
  match items e with [] => false | _ => true end.

Definition is_complete (e : EmissionData) : bool :=
  truthy (document_type e) && truthy (currency e) && truthy (id_type e)
  && truthy (id_number e) && Nat.ltb 0 (length (items e)).

Inductive field := tipo_documento | identificacion_cliente | productos.

Definition field_eqb (a b : field) : bool :=
  match a, b with
  | tipo_documento, tipo_documento => true
  | identificacion_cliente, identificacion_cliente => true
  | productos, productos => true
  | _, _ => false
  end.

Definition field_in (f : field) (l : list field) : bool := existsb (field_eqb f) l.

Definition get_missing_fields (e : EmissionData) : list field :=
  (if negb (truthy (document_type e)) then [tipo_documento] else [])
  ++ (if negb (truthy (id_type e)) || negb (truthy (id_number e))
      then [identificacion_cliente] else [])
  ++ (if negb (has_items e) then [productos] else []).

(** [EmissionData.reset] *)
Definition reset (e : EmissionData) : EmissionData := EmissionData_new.

(** A floating-point amount is kept as the expression that computes it:
    [float(p)], [item.subtotal()] or [calculate_total()]. *)
Inductive amount :=
| Price (p : pystr)
| Subtotal (it : InvoiceItem)
| Total (its : list InvoiceItem).

Definition calculate_total (e : EmissionData) : amount := Total (items e).

Record EmissionRecord := {
  timestamp : Z;
  rec_document_type : pystr;
  serie_numero : pystr;
  client_id : option pystr;
  total : amount;
  rec_currency : option pystr;
  pdf_url : pystr;
  items_count : nat
}.

(** Instants are microseconds on the clock of [datetime.now()]. *)
Record UserContext := {
  clients : list record;
  products : list record;
  history : list record;
  loaded_at : option Z
}.

Definition UserContext_new : UserContext :=
  {| clients := []; products := []; history := []; loaded_at := None |}.

Definition is_loaded (c : UserContext) : bool :=
  match loaded_at c with Some _ => true | None => false end.

(** [is_stale(ttl_minutes)], reading the clock at [now]. *)
Definition is_stale (now : Z) (ttl_minutes : Z) (c : UserContext) : bool :=
  match loaded_at c with
  | None => true
  | Some t => (ttl_minutes * 60 * 1000000 <? now - t)%Z
  end.

Inductive Role := user | assistant.

Record ConversationMessage := {
  role : Role;
  content : pystr;
  msg_timestamp : Z;
  intent : option pystr
}.

(** An entry of [pending_items]: a dict with the keys [cantidad] and
    [descripcion], and [precio] when it comes from the catalogue. *)
Record PendingItem := {
  p_cantidad : pystr;
  p_descripcion : pystr;
  p_precio : option pystr
}.

Record UserSession := {
  phone : pystr;
  user_name : option pystr;
  client_data : option ClientIdentification;
  authenticated : bool;
  terms_accepted : bool;
  emission_data : EmissionData;
  awaiting_confirmation : bool;
  awaiting_client_reconfirmation : bool;
  pending_items : list PendingItem;
  conversation_context : option pystr;
  search_results : list record;
  selected_product : option record;
  context : UserContext;
  messages : list ConversationMessage;
  session_emissions : list EmissionRecord;
  created_at : Z;
  last_activity : Z
}.

(** [UserSession(phone=...)] created at [now]. *)
Definition UserSession_new (ph : pystr) (now : Z) : UserSession :=
  {| phone := ph; user_name := None; client_data := None;
     authenticated := false; terms_accepted := false;
     emission_data := EmissionData_new;
     awaiting_confirmation := false; awaiting_client_reconfirmation := false;
     pending_items := []; conversation_context := None; search_results := [];
     selected_product := None; context := UserContext_new; messages := [];
     session_emissions := []; created_at := now; last_activity := now |}.

(** Field updates. *)
Definition set_document_type (v : option pystr) (e : EmissionData) : EmissionData :=
  {| document_type := v; currency := currency e; id_type := id_type e;
     id_number := id_number e; items := items e;
     client_validated := client_validated e; client_name := client_name e |}.

Definition set_currency (v : option pystr) (e : EmissionData) : EmissionData :=
  {| document_type := document_type e; currency := v; id_type := id_type e;
     id_number := id_number e; items := items e;
     client_validated := client_validated e; client_name := client_name e |}.

Definition set_id (ty num : option pystr) (e : EmissionData) : EmissionData :=
  {| document_type := document_type e; currency := currency e; id_type := ty;
     id_number := num; items := items e;
     client_validated := client_validated e; client_name := client_name e |}.

Definition set_items (v : list InvoiceItem) (e : EmissionData) : EmissionData :=
  {| document_type := document_type e; currency := currency e; id_type := id_type e;
     id_number := id_number e; items := v;
     client_validated := client_validated e; client_name := client_name e |}.

Definition set_client (valid : bool) (name : option pystr) (e : EmissionData)
  : EmissionData :=
  {| document_type := document_type e; currency := currency e; id_type := id_type e;
     id_number := id_number e; items := items e;
     client_validated := valid; client_name := name |}.

Definition with_emission (e : EmissionData) (s : UserSession) : UserSession :=
  {| phone := phone s; user_name := user_name s; client_data := client_data s;
     authenticated := authenticated s; terms_accepted := terms_accepted s;
     emission_data := e;
     awaiting_confirmation := awaiting_confirmation s;
     awaiting_client_reconfirmation := awaiting_client_reconfirmation s;
     pending_items := pending_items s;
     conversation_context := conversation_context s;
     search_results := search_results s; selected_product := selected_product s;
     context := context s; messages := messages s;
     session_emissions := session_emissions s;
     created_at := created_at s; last_activity := last_activity s |}.

Definition with_awaiting_confirmation (b : bool) (s : UserSession) : UserSession :=
  {| phone := phone s; user_name := user_name s; client_data := client_data s;
     authenticated := authenticated s; terms_accepted := terms_accepted s;
     emission_data := emission_data s;
     awaiting_confirmation := b;
     awaiting_client_reconfirmation := awaiting_client_reconfirmation s;
     pending_items := pending_items s;
     conversation_context := conversation_context s;
     search_results := search_results s; selected_product := selected_product s;
     context := context s; messages := messages s;
     session_emissions := session_emissions s;
     created_at := created_at s; last_activity := last_activity s |}.

Definition with_awaiting_client_reconfirmation (b : bool) (s : UserSession)
  : UserSession :=
  {| phone := phone s; user_name := user_name s; client_data := client_data s;
     authenticated := authenticated s; terms_accepted := terms_accepted s;
     emission_data := emission_data s;
     awaiting_confirmation := awaiting_confirmation s;
     awaiting_client_reconfirmation := b;
     pending_items := pending_items s;
     conversation_context := conversation_context s;
     search_results := search_results s; selected_product := selected_product s;
     context := context s; messages := messages s;
     session_emissions := session_emissions s;
     created_at := created_at s; last_activity := last_activity s |}.

Definition with_pending_items (p : list PendingItem) (s : UserSession) : UserSession :=
  {| phone := phone s; user_name := user_name s; client_data := client_data s;
     authenticated := authenticated s; terms_accepted := terms_accepted s;
     emission_data := emission_data s;
     awaiting_confirmation := awaiting_confirmation s;
     awaiting_client_reconfirmation := awaiting_client_reconfirmation s;
     pending_items := p;
     conversation_context := conversation_context s;
     search_results := search_results s; selected_product := selected_product s;
     context := context s; messages := messages s;
     session_emissions := session_emissions s;
     created_at := created_at s; last_activity := last_activity s |}.

Definition with_selected_product (p : option record) (s : UserSession) : UserSession :=
  {| phone := phone s; user_name := user_name s; client_data := client_data s;
     authenticated := authenticated s; terms_accepted := terms_accepted s;
     emission_data := emission_data s;
     awaiting_confirmation := awaiting_confirmation s;
     awaiting_client_reconfirmation := awaiting_client_reconfirmation s;
     pending_items := pending_items s;
     conversation_context := conversation_context s;
     search_results := search_results s; selected_product := p;
     context := context s; messages := messages s;
     session_emissions := session_emissions s;
     created_at := created_at s; last_activity := last_activity s |}.

Definition with_context (c : UserContext) (s : UserSession) : UserSession :=
  {| phone := phone s; user_name := user_name s; client_data := client_data s;
     authenticated := authenticated s; terms_accepted := terms_accepted s;
     emission_data := emission_data s;
     awaiting_confirmation := awaiting_confirmation s;
     awaiting_client_reconfirmation := awaiting_client_reconfirmation s;
     pending_items := pending_items s;
     conversation_context := conversation_context s;
     search_results := search_results s; selected_product := selected_product s;
     context := c; messages := messages s;
     session_emissions := session_emissions s;
     created_at := created_at s; last_activity := last_activity s |}.

Definition with_session_emissions (l : list EmissionRecord) (s : UserSession)
  : UserSession :=
  {| phone := phone s; user_name := user_name s; client_data := client_data s;
     authenticated := authenticated s; terms_accepted := terms_accepted s;
     emission_data := emission_data s;
     awaiting_confirmation := awaiting_confirmation s;
     awaiting_client_reconfirmation := awaiting_client_reconfirmation s;
     pending_items := pending_items s;
     conversation_context := conversation_context s;
     search_results := search_results s; selected_product := selected_product s;
     context := context s; messages := messages s;
     session_emissions := l;
     created_at := created_at s; last_activity := last_activity s |}.

(** [UserSession.reset_emission] *)
Definition reset_emission (s : UserSession) : UserSession :=
  with_selected_product None
    (with_pending_items []
       (with_awaiting_client_reconfirmation false
          (with_awaiting_confirmation false
             (with_emission (reset (emission_data s)) s)))).

(** [l[-n:]] *)
Definition last_n {A : Type} (n : nat) (l : list A) : list A :=
  skipn (length l - n) l.

(** [UserSession.add_message], the clock showing [now]. *)
Definition add_message (now : Z) (who : Role) (text : pystr)
    (intent : option pystr) (s : UserSession) : UserSession :=
  let appended :=
    messages s ++ [{| role := who; content := text; msg_timestamp := now;
                      intent := intent |}] in
  {| phone := phone s; user_name := user_name s; client_data := client_data s;
     authenticated := authenticated s; terms_accepted := terms_accepted s;
     emission_data := emission_data s;
     awaiting_confirmation := awaiting_confirmation s;
     awaiting_client_reconfirmation := awaiting_client_reconfirmation s;
     pending_items := pending_items s;
     conversation_context := conversation_context s;
     search_results := search_results s; selected_product := selected_product s;
     context := context s;
     messages := if Nat.ltb 20 (length appended) then last_n 20 appended
                 else appended;
     session_emissions := session_emissions s;
     created_at := created_at s; last_activity := now |}.

End Schemas.
Export Schemas.

(* ================================================================= *)
(** ** agents/data_extractor.py *)

Module DataExtractor.

Record Extracted := {
  x_document_type : option pystr;
  x_id_type : option pystr;
  x_id_number : option pystr;
  x_currency : option pystr;
  x_items : list InvoiceItem;
  x_items_sin_precio : list PendingItem
}.

(** [re.findall] of a pattern with one group. *)
Definition findall1 (ic : bool) (r : re) (t : pystr) : list pystr :=
  map (fun m => group_str t m 1) (re_finditer ic r t).

(** [_extract_id]: the pair [(type, number)] of the returned dict. *)
Definition _extract_id (message : pystr) : option (pystr * pystr) :=
  let text_upper := upper message in
  match re_search false (rx "DNI\s*[:\s]?\s*(\d{8})\b") text_upper with
  | Some dni_explicit => Some (u "1", group_str text_upper dni_explicit 1)
  | None =>
    match re_search false (rx "RUC\s*[:\s]?\s*([12]0\d{9})\b") text_upper with
    | Some ruc_explicit => Some (u "6", group_str text_upper ruc_explicit 1)
    | None =>
      match re_search false (rx "\b([12]0\d{9})\b") message with
      | Some ruc_match => Some (u "6", group_str message ruc_match 1)
      | None =>
        let dni_matches := findall1 false (rx "(?:^|[^\d])(\d{8})(?:[^\d]|$)") message in
        match filter (fun num => (1000000 <=? int_of_digits num)%N) dni_matches with
        | num :: _ => Some (u "1", num)
        | [] => None
        end
      end
    end
  end.

Definition key := (pystr * pystr)%type.

Definition key_eqb (a b : key) : bool :=
  str_eqb (fst a) (fst b) && str_eqb (snd a) (snd b).

Definition key_in (k : key) (seen : list key) : bool := existsb (key_eqb k) seen.

Definition item_key (i : InvoiceItem) : key := (lower (descripcion i), precio i).

(** [float(precio) > 0] for a price captured as digits with an optional
    fraction: some digit is not zero. *)
Definition price_positive (precio : pystr) : bool :=
  existsb (fun c => is_digit c && negb (c =? 48)%N) precio.

Definition palabras_numero : list (pystr * pystr) :=
  [ (u "un ", u "1 "); (u "uno ", u "1 "); (u "una ", u "1 ");
    (u "dos ", u "2 "); (u "tres ", u "3 "); (u "cuatro ", u "4 ");
    (u "cinco ", u "5 "); (u "seis ", u "6 "); (u "siete ", u "7 ");
    (u "ocho ", u "8 "); (u "nueve ", u "9 "); (u "diez ", u "10 ") ].

Definition pattern1 : re :=
  rx "(\d{1,4})\s*[xX×]?\s*([a-záéíóúñ][a-záéíóúñs\s]{1,30}?)\s*[@aA]\s*(?:PEN|USD|S/|s/|\$)?\s*(\d+(?:[.,]\d{1,2})?)".

Definition pattern2 : re :=
  rx "(\d{1,4})\s+([a-záéíóúñ][a-záéíóúñs\s]{1,30}?)\s+(?:por|de)\s+(?:PEN|USD|S/|s/|\$)?\s*(\d+(?:[.,]\d{1,2})?)".

Definition pattern3 : re :=
  rx "\b([a-záéíóúñ][a-záéíóúñs]{2,20})\s+(?:a|@|por)\s+(?:PEN|USD|S/|s/|\$)?\s*(\d+(?:[.,]\d{1,2})?)\b".

Definition pattern_sin_precio : re :=
  rx "(\d{1,3})\s+([a-záéíóúñ][a-záéíóúñs]{2,25})".

(** The body shared by the three loops over priced matches: the guard on
    [seen], the description and the price, then [items.append] and
    [seen.add]. *)
Definition add_item (cant desc precio : pystr) (st : list InvoiceItem * list key)
  : list InvoiceItem * list key :=
  let '(items, seen) := st in
  let k := (lower desc, precio) in
  if negb (key_in k seen) && nonempty desc && price_positive precio
  then (items ++ [{| cantidad := cant; descripcion := desc; precio := precio |}],
        seen ++ [k])
  else (items, seen).

(** One iteration of the loops over [pattern1] and [pattern2]. *)
Definition step_counted (t : pystr) (st : list InvoiceItem * list key) (m : rmatch)
  : list InvoiceItem * list key :=
  let cant := group_str t m 1 in
  let desc := strip (group_str t m 2) in
  let precio := replace (u ",") (u ".") (group_str t m 3) in
  if Nat.leb 5 (length cant) then st
  else add_item cant desc precio st.

Definition keywords3 : list pystr :=
  [u "factura"; u "boleta"; u "dni"; u "ruc"; u "para"; u "cliente"; u "documento"].

(** One iteration of the loop over [pattern3]. *)
Definition step_single (t : pystr) (st : list InvoiceItem * list key) (m : rmatch)
  : list InvoiceItem * list key :=
  let desc := strip (group_str t m 1) in
  let precio := replace (u ",") (u ".") (group_str t m 2) in
  if str_mem (lower desc) keywords3 then st
  else add_item (u "1") desc precio st.

Definition keywords_sin_precio : list pystr :=
  [u "dni"; u "ruc"; u "para"; u "cliente"; u "boleta"; u "factura"; u "soles";
   u "dolares"; u "documento"].

Definition step_sin_precio (t : pystr) (st : list PendingItem * list pystr) (m : rmatch)
  : list PendingItem * list pystr :=
  let '(items_sin_precio, seen_sin_precio) := st in
  let cant := group_str t m 1 in
  let desc := strip (group_str t m 2) in
  if str_mem (lower desc) keywords_sin_precio then st
  else
    let k := lower desc in
    if negb (str_mem k seen_sin_precio)
    then (items_sin_precio
            ++ [{| p_cantidad := cant; p_descripcion := desc; p_precio := None |}],
          seen_sin_precio ++ [k])
    else st.

(** The text the patterns run on: the ID removed, lowered, number words
    turned into digits. *)
Definition normalize (message : pystr) (exclude_number : option pystr) : pystr :=
  let text :=
    match exclude_number with
    | Some (c :: n) => replace (c :: n) (u " ") message
    | _ => message
    end in
  fold_left (fun t pn => replace (fst pn) (snd pn) t) palabras_numero (lower text).

(** The priced items and the set [seen] after the three loops. *)
Definition priced_items (text_normalized : pystr) : list InvoiceItem * list key :=
  let st1 := fold_left (step_counted text_normalized)
               (re_finditer true pattern1 text_normalized) ([], []) in
  let st2 := fold_left (step_counted text_normalized)
               (re_finditer true pattern2 text_normalized) st1 in
  fold_left (step_single text_normalized)
    (re_finditer true pattern3 text_normalized) st2.

Definition _extract_items (message : pystr) (exclude_number : option pystr)
  : list InvoiceItem * list PendingItem :=
  let text_normalized := normalize message exclude_number in
  let items := fst (priced_items text_normalized) in
  let items_sin_precio :=
    match items with
    | [] =>
      fst (fold_left (step_sin_precio text_normalized)
             (re_finditer true pattern_sin_precio text_normalized) ([], []))
    | _ => []
    end in
  (items, items_sin_precio).

(** [any(w in text_lower for w in ["dólar", "dolar", "dolares", "usd", "$"])] *)
Definition names_dollars (text_lower : pystr) : bool :=
  existsb (fun w => contains w text_lower)
    [u "dólar"; u "dolar"; u "dolares"; u "usd"; u "$"].

(** [extract_all]; the session argument is not read. *)
Definition extract_all (message : pystr) (session : UserSession) : Extracted :=
  let text_lower := lower message in
  let document_type :=
    if matches false (rx "\bfactura\b") text_lower then Some (u "01")
    else if matches false (rx "\bboleta\b") text_lower then Some (u "03")
    else None in
  let id_info := _extract_id message in
  let id_type := option_map fst id_info in
  let id_number := option_map snd id_info in
  let document_type :=
    match id_info with
    | Some (ty, _) =>
      if negb (truthy document_type) && str_eqb ty (u "1") then Some (u "03")
      else document_type
    | None => document_type
    end in
  let currency :=
    if names_dollars text_lower then Some (u "USD") else Some (u "PEN") in
  let '(items, items_sin_precio) := _extract_items message id_number in
  {| x_document_type := document_type; x_id_type := id_type;
     x_id_number := id_number; x_currency := currency;
     x_items := items; x_items_sin_precio := items_sin_precio |}.

(** The loop of [update_session] over the extracted items. *)
Definition merge_item (st : list InvoiceItem * list key) (item : InvoiceItem)
  : list InvoiceItem * list key :=
  let '(items, existing) := st in
  let k := item_key item in
  if negb (key_in k existing) then (items ++ [item], existing ++ [k])
  else (items, existing).

Definition merge_items (own extracted : list InvoiceItem) : list InvoiceItem :=
  match extracted with
  | [] => own
  | _ => fst (fold_left merge_item extracted (own, map item_key own))
  end.

Definition update_emission (emission : EmissionData) (extracted : Extracted)
  : EmissionData :=
  let emission :=
    if truthy (x_document_type extracted) && negb (truthy (document_type emission))
    then set_document_type (x_document_type extracted) emission else emission in
  let emission :=
    if truthy (x_id_type extracted) && negb (truthy (id_type emission))
    then set_id (x_id_type extracted) (x_id_number extracted) emission
    else emission in
  let emission :=
    if truthy (x_currency extracted)
    then set_currency (x_currency extracted) emission else emission in
  set_items (merge_items (items emission) (x_items extracted)) emission.

Definition update_session (session : UserSession) (extracted : Extracted)
  : UserSession :=
  with_emission (update_emission (emission_data session) extracted) session.

End DataExtractor.
Export DataExtractor.

(* ================================================================= *)
(** ** agents/intent_classifier.py *)

Module IntentClassifier.

Definition AFFIRMATIVE : list string :=
  ([ "^(si|sí|yes|ok|okey|okay|dale|confirmo|acepto)[\s\.\!\,]*$";
    "^(adelante|procede|emite|correcto|claro|por supuesto)[\s\.\!\,]*$";
    "^(está bien|esta bien|de acuerdo|listo|perfecto)[\s\.\!\,]*$" ])%string.

Definition NEGATIVE : list string :=
  ([ "^(no|nop|nope|cancelar|cancela|olvida)[\s\.\!\,]*$";
    "\b(mejor no|no quiero|detener|parar|salir)\b" ])%string.

Definition EMISSION : list string :=
  ([ "\b(emitir|generar|crear|hacer|necesito|quiero)\s+(una?\s+)?(factura|boleta)\b";
    "^(factura|boleta)[\s\.\!\,]*$";
    "\b(factura|boleta)\s+(para|con|de)\b";
    "\bemite\s+(una?\s+)?(factura|boleta)\b" ])%string.

Definition PRODUCTS : list string :=
  ([ "\b(producto|productos|catálogo|catalogo|inventario)\b";
    "\b(mis productos|lista de productos|ver productos)\b";
    "\b(dame|muestra|ver)\s+(los\s+)?productos\b" ])%string.

Definition CLIENTS : list string :=
  ([ "\b(cliente|clientes|mis clientes)\b" ])%string.

Definition HISTORY : list string :=
  ([ "\b(historial|histórico|historico)\b";
    "\b(ventas|emisiones)\b";
    "\b(detalle|detalles|info)\s+(?:de\s+)?(?:la|el)\s+(\d+|última|ultimo|ultima)\b";
    "\b(última|ultimo|ultima|último)\s+(factura|boleta|emisi[oó]n)?\b";
    "\b(la|el|mi)\s+(de\s+)?hoy\b";
    "\b(factura|boleta)\s+(de\s+)?hoy\b";
    "\b(emitida|generada)\s+hoy\b" ])%string.

Definition GENERAL_QUESTIONS : list string :=
  ([ "\b(qué es|que es|cómo funciona|como funciona)\b";
    "\b(diferencia|diferencias)\b";
    "\b(ayuda|dudas?|help)\b";
    "\bigv\b";
    "\b(explicame|explícame)\b";
    "\b(cómo|como)\s+(emitir|hacer)\b" ])%string.

Definition GREETING_PATTERNS : list string :=
  ([ "^(hola|hey|hi|buenos días|buenas tardes|buenas noches|buenas)[\s\!\.\,]*$" ])%string.

Definition PRODUCT_SEARCH : list string :=
  ([ "\b(busca|buscar|encuentra|encontrar|filtrar|hay|tiene|tengo|existe)\b" ])%string.

(** [_compile_patterns]: every table is compiled with [re.IGNORECASE]. *)
Definition affirmative_re := Eval vm_compute in map compile AFFIRMATIVE.
Definition negative_re := Eval vm_compute in map compile NEGATIVE.
Definition emission_re := Eval vm_compute in map compile EMISSION.
Definition products_re := Eval vm_compute in map compile PRODUCTS.
Definition clients_re := Eval vm_compute in map compile CLIENTS.
Definition history_re := Eval vm_compute in map compile HISTORY.
Definition general_re := Eval vm_compute in map compile GENERAL_QUESTIONS.
Definition greeting_re := Eval vm_compute in map compile GREETING_PATTERNS.
Definition product_search_re := Eval vm_compute in map compile PRODUCT_SEARCH.

Definition _match (text : pystr) (patterns : list re) : bool :=
  existsb (fun p => matches true p text) patterns.

(** [any(f"{i}." in content for i in range(1, hi))] *)
Definition numbered_upto (hi : nat) (content : pystr) : bool :=
  existsb (fun i => contains (str_of_small i ++ u ".") content) (seq 1 (hi - 1)).

(** What one assistant message tells about the context, if anything. *)
Definition context_of_message (msg : ConversationMessage) : option pystr :=
  let content := lower (content msg) in
  if contains (u "tus productos") content
     || (contains (u "📦") (Schemas.content msg)
         && numbered_upto 16 (Schemas.content msg))
  then Some (u "products")
  else if (contains (u "historial") content
           || contains (u "últimas emisiones") content)
          && numbered_upto 11 (Schemas.content msg)
  then Some (u "history")
  else if contains (u "emisiones de hoy") content then Some (u "today_emissions")
  else if contains (u "resultados para") content then Some (u "search_results")
  else if contains (u "producto #") content && contains (u "¿deseas emitir") content
  then Some (u "product_detail")
  else None.

Fixpoint first_context (msgs : list ConversationMessage) : option pystr :=
  match msgs with
  | [] => None
  | msg :: rest =>
    match role msg with
    | assistant =>
      match context_of_message msg with
      | Some c => Some c
      | None => first_context rest
      end
    | user => first_context rest
    end
  end.

Definition _get_conversation_context (session : UserSession) : option pystr :=
  if truthy (conversation_context session) then conversation_context session
  else first_context (rev (last_n 4 (messages session))).

Definition _has_active_emission (session : UserSession) : bool :=
  let emission := emission_data session in
  truthy (document_type emission) || truthy (id_number emission) || has_items emission.

Definition ctx_is (c : option pystr) (name : string) : bool :=
  match c with Some t => str_eqb t (u name) | None => false end.

Definition is_some {A} (o : option A) : bool :=
  match o with Some _ => true | None => false end.

(** Confidence values are written in hundredths. *)
Definition classify (message : pystr) (session : UserSession) : IntentType * Z :=
  let text := strip message in
  let text_lower := lower text in
  let last_context := _get_conversation_context session in
  if ctx_is last_context "product_detail" && _match text affirmative_re
  then (QUERY_PRODUCTS, 95%Z)
  else if is_some (re_match false (rx "^\d{1,2}$") text)
          && (ctx_is last_context "history" || ctx_is last_context "products"
              || ctx_is last_context "search_results"
              || ctx_is last_context "today_emissions")
  then
    if ctx_is last_context "products" || ctx_is last_context "search_results"
    then (QUERY_PRODUCTS, 95%Z)
    else (QUERY_HISTORY, 95%Z)
  else if ctx_is last_context "products"
          && (_match text product_search_re || Nat.ltb 2 (length text))
          && negb (_match text emission_re) && negb (_match text history_re)
  then (QUERY_PRODUCTS, 90%Z)
  else if awaiting_confirmation session && _match text affirmative_re
  then (CONFIRMATION, 95%Z)
  else if awaiting_confirmation session && _match text negative_re
  then (CANCEL, 95%Z)
  else if _has_active_emission session
          && _match text negative_re && Nat.ltb (length text) 15
  then (CANCEL, 90%Z)
  else if _has_active_emission session
          && (matches false (rx "\b\d{8}\b") text
              || matches false (rx "\b[12]0\d{9}\b") text)
  then (EMIT_INVOICE, 85%Z)
  else if _has_active_emission session
          && matches false (rx "\d+\s+\w+\s+(a|@|por)\s+\d+") text_lower
  then (EMIT_INVOICE, 85%Z)
  else if _match text history_re then (QUERY_HISTORY, 90%Z)
  else if matches false (rx "detalle") text_lower
          && matches false (rx "\d+|última|ultimo") text_lower
  then (QUERY_HISTORY, 90%Z)
  else if (_match text general_re
           || (contains (u "?") text && Nat.ltb 10 (length text)))
          && negb (_match text emission_re)
  then (GENERAL_QUESTION, 90%Z)
  else if Nat.ltb (length text) 25 && _match text greeting_re
  then (GREETING, 90%Z)
  else if _match text products_re then (QUERY_PRODUCTS, 90%Z)
  else if _match text product_search_re && contains (u "producto") text_lower
  then (QUERY_PRODUCTS, 85%Z)
  else if _match text emission_re then (EMIT_INVOICE, 85%Z)
  else if (matches false (rx "\b\d{8}\b") text
           || matches false (rx "\b[12]0\d{9}\b") text)
          && (_has_active_emission session
              || contains (u "factura") text_lower
              || contains (u "boleta") text_lower)
  then (EMIT_INVOICE, 75%Z)
  else if _match text clients_re then (QUERY_CLIENTS, 90%Z)
  else if ctx_is last_context "products" && negb (_match text emission_re)
  then (QUERY_PRODUCTS, 70%Z)
  else if ctx_is last_context "history" && negb (_match text emission_re)
  then (QUERY_HISTORY, 70%Z)
  else if contains (u "?") text then (GENERAL_QUESTION, 60%Z)
  else (UNKNOWN, 50%Z).

Definition is_confirmation (message : pystr) : bool := _match message affirmative_re.
Definition is_cancellation (message : pystr) : bool := _match message negative_re.

End IntentClassifier.
Export IntentClassifier.

(* ================================================================= *)
(** ** services/tinred_client.py *)

Module TinRedClient.

(** What [_request] does: it raises [TinRedAPIError(msg)] (timeout, no
    connection, invalid body, status 400 and above) or returns the body. *)
Inductive response :=
| Raised (msg : pystr)
| Returned (data : json).

(** What [emit_invoice] does: it returns the response of the store
    endpoint, raises [TinRedAPIError(msg)], or raises something else. *)
Inductive emit_outcome :=
| Emitted (r : InvoiceResponse)
| EmitApiError (msg : pystr)
| EmitCrashed.

(** The issuing service seen from the client during one operation, and
    [str(e)] of the exception that reading a body that is not an object
    raises. *)
Record Service := {
  post_check_client : pystr -> pystr -> response;
  post_product_list : pystr -> response;
  post_client_list : pystr -> response;
  post_history : pystr -> response;
  emit_invoice :
    option ClientIdentification -> option pystr -> option pystr ->
    option pystr -> option pystr -> list InvoiceItem -> emit_outcome;
  exception_text : json -> pystr
}.

(** The calls on the client, in the order they are made. *)
Inductive call :=
| CheckClient (phone document_number : pystr)
| EmitInvoice (client : option ClientIdentification)
    (document_type currency id_type id_number : option pystr)
    (items : list InvoiceItem)
| GetProducts (phone : pystr)
| GetClients (phone : pystr)
| GetHistory (phone : pystr).

Definition is_emit (c : call) : bool :=
  match c with EmitInvoice _ _ _ _ _ _ => true | _ => false end.

Fixpoint lookup (k : pystr) (r : record) : option jvalue :=
  match r with
  | [] => None
  | (k', v) :: r' => if str_eqb k k' then Some v else lookup k r'
  end.

(** A field value as text; a value that is not a string is carried as
    what [str] shows of it, where the code keeps the value itself (the
    service documents strings for the fields read here). *)
Definition text_of (v : jvalue) : pystr :=
  match v with VStr s => s | VOther shown => shown end.

(** The loop over [response.items()] of the unexpected-answer branch. *)
Fixpoint first_long_string (r : record) : option pystr :=
  match r with
  | [] => None
  | (k, VStr value) :: r' =>
    if negb (str_eqb k (u "00")) && Nat.ltb 2 (length value) then Some value
    else first_long_string r'
  | (_, VOther _) :: r' => first_long_string r'
  end.

Definition clean_phone (phone : pystr) : pystr :=
  replace (u "-") [] (replace (u " ") [] (split_first (code "@") phone)).

Definition check_client (svc : Service) (phone document_number : pystr)
  : bool * pystr :=
  match post_check_client svc (clean_phone phone) document_number with
  | Returned (JObj response) =>
    match lookup (u "01") response with
    | Some client_name => (true, text_of client_name)
    | None =>
      match lookup (u "00") response with
      | Some message => (false, text_of message)
      | None =>
        match first_long_string response with
        | Some value => (true, value)
        | None => (false, u "Respuesta no reconocida del servidor")
        end
      end
    end
  | Returned other => (false, u "Error inesperado: " ++ exception_text svc other)
  | Raised e => (false, u "Error de conexión: " ++ e)
  end.

(** [get_products], [get_clients], [get_history]: the body when it is a
    list, the empty list otherwise and on every exception. *)
Definition list_or_empty (r : response) : list jelem :=
  match r with
  | Returned (JArr l) => l
  | _ => []
  end.

Definition get_products (svc : Service) (phone : pystr) : list jelem :=
  list_or_empty (post_product_list svc (split_first (code "@") phone)).

Definition get_clients (svc : Service) (phone : pystr) : list jelem :=
  list_or_empty (post_client_list svc (split_first (code "@") phone)).

Definition get_history (svc : Service) (phone : pystr) : list jelem :=
  list_or_empty (post_history svc (split_first (code "@") phone)).

End TinRedClient.
Export TinRedClient.

(* ================================================================= *)
(** ** services/session_manager.py *)

Module SessionManager.

(** Validation of a [List[Dict[str, Any]]] field: every element has to be
    an object. *)
Fixpoint as_records (l : list jelem) : option (list record) :=
  match l with
  | [] => Some []
  | EObj r :: l' =>
    match as_records l' with
    | Some rs => Some (r :: rs)
    | None => None
    end
  | EOther _ :: _ => None
  end.

(** [load_user_context]. The clock reads [now] in [is_stale] and [later]
    when the new context is stamped. The result carries the calls made. *)
Definition load_user_context (svc : Service) (now later : Z)
    (session : UserSession) (force : bool) : bool * UserSession * list call :=
  if negb force && is_loaded (context session)
     && negb (is_stale now 60 (context session))
  then (true, session, [])
  else
    let products := get_products svc (phone session) in
    let clients := get_clients svc (phone session) in
    let history := get_history svc (phone session) in
    let calls := [GetProducts (phone session); GetClients (phone session);
                  GetHistory (phone session)] in
    match as_records clients, as_records products, as_records history with
    | Some cs, Some ps, Some hs =>
      (true,
       with_context {| clients := cs; products := ps; history := hs;
                       loaded_at := Some later |} session,
       calls)
    | _, _, _ =>
      (false,
       with_context {| clients := []; products := []; history := [];
                       loaded_at := Some later |} session,
       calls)
    end.

(** [record_emission]. [EmissionRecord] asks for a currency, which an
    emission has in every state the agent reaches (it starts as PEN and is
    only ever replaced by PEN or USD), so the record is always built. *)
Definition record_emission (now : Z) (session : UserSession)
    (document_type : option pystr) (serie_numero : pystr)
    (client_id : option pystr) (total : amount) (currency : option pystr)
    (pdf_url : pystr) (items_count : nat) : UserSession :=
  let record :=
    {| timestamp := now;
       rec_document_type :=
         match document_type with
         | Some d => if str_eqb d (u "01") then u "Factura" else u "Boleta"
         | None => u "Boleta"
         end;
       serie_numero := serie_numero; client_id := client_id; total := total;
       rec_currency := currency; pdf_url := pdf_url;
       items_count := items_count |} in
  with_session_emissions (session_emissions session ++ [record]) session.

End SessionManager.
Export SessionManager.

(* ================================================================= *)
(** ** agents/emission_agent.py *)

Module EmissionAgent.

(** A reply is text with the floating-point amounts of its f-string left
    as holes, [{x:.2f}] being [Fmt] of the amount [x]. *)
Inductive reply :=
| Plain (s : pystr)
| Fmt (s : pystr) (a : amount) (rest : reply).

Definition prepend (s : pystr) (r : reply) : reply :=
  match r with
  | Plain t => Plain (s ++ t)
  | Fmt t a rest => Fmt (s ++ t) a rest
  end.

Fixpoint rcat (a b : reply) : reply :=
  match a with
  | Plain s => prepend s b
  | Fmt s x rest => Fmt s x (rcat rest b)
  end.

Definition txt (s : string) : reply := Plain (u s).
Definition hole (a : amount) : reply := Fmt [] a (Plain []).

Infix "+++" := rcat (at level 61, left associativity).

Definition outcome := (reply * UserSession * list call)%type.

Definition dq : reply := Plain [34%N].
Definition nl : pystr := [10%N].

(** [f"{x}"] of an optional string. *)
Definition shown (o : option pystr) : pystr :=
  match o with Some s => s | None => u "None" end.

Definition opt_is (o : option pystr) (lit : string) : bool :=
  match o with Some s => str_eqb s (u lit) | None => false end.

(** [f"{float(p):.2f}"] for digits 0 to 9 with an optional fraction of one
    or two digits: the numeral itself with two decimals. That is what
    Python prints as long as binary64 holds the numeral to that precision,
    which it does up to thirteen digits before the point ([short_numbers]
    below); a longer numeral is rounded, and one of 309 digits prints as
    [inf]. *)
Fixpoint drop_zeros (t : pystr) : pystr :=
  match t with
  | c :: (_ :: _) as t' => if (c =? 48)%N then drop_zeros t' else t
  | _ => t
  end.

Fixpoint take_digits (t : pystr) : pystr * pystr :=
  match t with
  | c :: t' =>
    if is_digit c then let '(d, r) := take_digits t' in (c :: d, r) else ([], t)
  | [] => ([], [])
  end.

Definition format_2f (p : pystr) : pystr :=
  let '(whole, r) := take_digits p in
  let frac := match r with _ :: f => fst (take_digits f) | [] => [] end in
  drop_zeros whole ++ u "." ++ firstn 2 (frac ++ [48; 48]%N).

Definition CANCELLED : reply :=
  txt "❌ Operación cancelada.

¿Qué más necesitas?
📄 Factura | 🧾 Boleta | 📊 Historial".

Definition cancellation_words : list pystr :=
  map u ["cancelar"; "cancela"; "cancelalo"; "cancélalo";
         "no quiero"; "no deseo"; "olvida"; "olvidalo"; "olvídalo";
         "salir"; "sal"; "detener"; "parar"; "para";
         "dejalo"; "déjalo"; "ya no"; "mejor no";
         "no gracias"; "nada"; "ninguno"]%string.

Definition _is_cancellation (msg_lower : pystr) : bool :=
  existsb (fun word => str_eqb msg_lower word
                       || startswith (word ++ u " ") msg_lower
                       || startswith (word ++ u ",") msg_lower)
          cancellation_words
  || existsb (fun word => contains word msg_lower)
       (map u ["cancelar"; "cancela"; "no quiero"; "olvida"; "salir"]%string).

Definition _has_complete_data (emission : EmissionData) : bool :=
  truthy (document_type emission) && truthy (id_number emission) && has_items emission.

(** The priced items [_extract_from_conversation] reads in one message. *)
Definition conversation_items (content : pystr) : list InvoiceItem :=
  let low := lower content in
  let items_match :=
    re_finditer false (rx "(\d+)\s+([a-záéíóúñ]+)\s*(?:x|a|@|por)\s*(\d+)") low in
  map (fun m => {| cantidad := group_str low m 1;
                   descripcion := group_str low m 2;
                   precio := format_2f (group_str low m 3) |}) items_match.

(** One iteration of the loop of [_extract_from_conversation]. *)
Definition extract_from_message (emission : EmissionData) (msg : ConversationMessage)
  : EmissionData :=
  let content := content msg in
  let emission :=
    if negb (truthy (document_type emission)) then
      if contains (u "factura") (lower content)
      then set_document_type (Some (u "01")) emission
      else if contains (u "boleta") (lower content)
      then set_document_type (Some (u "03")) emission
      else emission
    else emission in
  let emission :=
    if negb (truthy (id_number emission)) then
      match re_search false (rx "\b([12]0\d{9})\b") content with
      | Some ruc_match =>
        set_id (Some (u "6")) (Some (group_str content ruc_match 1)) emission
      | None => emission
      end
    else emission in
  let emission :=
    if negb (truthy (id_number emission)) then
      match re_search false (rx "\b(\d{8})\b") content with
      | Some dni_match =>
        let num := group_str content dni_match 1 in
        if (1000000 <=? int_of_digits num)%N
        then set_id (Some (u "1")) (Some num) emission
        else emission
      | None => emission
      end
    else emission in
  if negb (has_items emission)
  then set_items (items emission ++ conversation_items content) emission
  else emission.

Definition _extract_from_conversation (session : UserSession) : UserSession :=
  let emission :=
    fold_left extract_from_message (last_n 10 (messages session))
      (emission_data session) in
  let emission :=
    if opt_is (id_type emission) "1" && negb (truthy (document_type emission))
    then set_document_type (Some (u "03")) emission else emission in
  with_emission emission session.

Definition _extract_price (message : pystr) : option pystr :=
  match re_search false (rx "(\d+(?:[.,]\d{1,2})?)") message with
  | Some m => Some (format_2f (replace (u ",") (u ".") (group_str message m 1)))
  | None => None
  end.

Definition _is_initial_request (message : pystr) (extracted : Extracted)
    (emission : EmissionData) : bool :=
  let msg_lower := strip (lower message) in
  let is_initial :=
    existsb (fun p => str_eqb msg_lower p || startswith p msg_lower)
      (map u ["factura"; "boleta"; "emitir factura"; "emitir boleta"]%string) in
  let no_extra := negb (truthy (x_id_number extracted))
                  && match x_items extracted with [] => true | _ => false end in
  let no_prev := negb (truthy (id_number emission)) && negb (has_items emission) in
  is_initial && no_extra && no_prev.

Definition _get_initial_instructions (document_type : option pystr) : reply :=
  if opt_is document_type "01" then
    txt "📄 ¡Perfecto! Vamos con la Factura.

Primero necesito validar al cliente.

1️⃣ Dame el RUC (11 dígitos) para verificar que existe en el sistema
2️⃣ Luego me indicas los productos con sus precios

💡 Puedes enviarme todo junto si lo prefieres:
" +++ dq +++ txt "RUC 20161541991, 3 laptops a 2500" +++ dq +++ txt "

¿Cuál es el RUC del cliente?"
  else
    txt "🧾 ¡Perfecto! Vamos con la Boleta.

Primero necesito validar al cliente.

1️⃣ Dame el DNI (8 dígitos) o RUC para verificar que existe
2️⃣ Luego me indicas los productos con sus precios

💡 Puedes enviarme todo junto si lo prefieres:
" +++ dq +++ txt "DNI 12345678, 2 camisas a 50" +++ dq +++ txt "

¿Cuál es el documento del cliente?".

Definition currency_symbol (emission : EmissionData) : reply :=
  if opt_is (currency emission) "PEN" then txt "S/" else txt "$".

Definition id_label (emission : EmissionData) : reply :=
  if opt_is (id_type emission) "1" then txt "DNI" else txt "RUC".

Definition client_line (emission : EmissionData) : reply :=
  if truthy (client_name emission)
  then Plain (nl ++ u "👤 " ++ shown (client_name emission))
  else Plain [].

(** [_generate_summary]: the review screen; sets [awaiting_confirmation]. *)
Definition _generate_summary (session : UserSession) : reply * UserSession :=
  let emission := emission_data session in
  let tipo := if opt_is (document_type emission) "01"
              then txt "FACTURA 📄" else txt "BOLETA 🧾" in
  let symbol := currency_symbol emission in
  let items_text :=
    fold_left
      (fun acc item =>
         acc +++ txt "  • " +++ Plain (cantidad item) +++ txt "x "
             +++ Plain (descripcion item) +++ txt " @ " +++ symbol
             +++ hole (Price (precio item)) +++ txt " = " +++ symbol
             +++ hole (Subtotal item) +++ Plain nl)
      (items emission) (Plain []) in
  (txt "📋 " +++ tipo +++ txt "

📋 " +++ id_label emission +++ txt ": " +++ Plain (shown (id_number emission))
     +++ client_line emission +++ txt "

📦 Productos:
" +++ items_text +++ txt "
━━━━━━━━━━━━
💵 TOTAL: " +++ symbol +++ hole (calculate_total emission) +++ txt "

¿Emitir? ✅ Sí / ❌ No",
   with_awaiting_confirmation true session).

(** The answer of [_validate_and_continue] when the client is not found:
    the document, then the lines already captured, if any. *)
Definition not_found_reply (number : pystr) (emission : EmissionData) : reply :=
  let response :=
    txt "⚠️ El documento " +++ Plain number
        +++ txt " no fue encontrado en el sistema.
" in
  if has_items emission then
    fold_left
      (fun acc item =>
         acc +++ txt "  • " +++ Plain (cantidad item) +++ txt "x "
             +++ Plain (descripcion item) +++ txt " @ S/"
             +++ hole (Price (precio item)) +++ Plain nl)
      (items emission)
      (response +++ txt "
📦 Ya tengo registrados tus productos:
") +++ txt "
Por favor confirma el número de documento correcto para continuar.
💡 Escribe el DNI (8 dígitos) o RUC (11 dígitos)"
  else
    response +++ txt "
Por favor verifica e ingresa el número correcto.
💡 DNI: 8 dígitos | RUC: 11 dígitos".

(** [_validate_and_continue] *)
Definition _validate_and_continue (svc : Service) (session : UserSession) : outcome :=
  let emission := emission_data session in
  match id_number emission with
  | Some (c :: n) =>
    let number := c :: n in
    let '(is_valid, result) := check_client svc (phone session) number in
    let calls := [CheckClient (phone session) number] in
    if is_valid then
      let emission := set_client true (Some result) emission in
      let session := with_emission emission session in
      if has_items emission then
        let '(r, session) := _generate_summary session in (r, session, calls)
      else
        (txt "✅ Cliente encontrado:
👤 " +++ Plain result +++ txt "
📋 " +++ id_label emission +++ txt ": " +++ Plain number +++ txt "

¿Qué productos incluimos?
📝 Ej: 2 laptops a 2500, 3 cables a 50", session, calls)
    else
      (not_found_reply number emission,
       with_awaiting_client_reconfirmation true session, calls)
  | _ => (txt "Necesito el DNI o RUC del cliente.", session, [])
  end.

(** [_extract_document_number] *)
Definition _extract_document_number (message : pystr) : option (pystr * pystr) :=
  let cleaned :=
    re_sub false (rx "(\d)\s+(?=\d)") (fun m => group_str message m 1) message in
  match re_search false (rx "\b([12]0\d{9})\b") cleaned with
  | Some ruc_match => Some (u "6", group_str cleaned ruc_match 1)
  | None =>
    match re_search false (rx "\b(\d{8})\b") cleaned with
    | Some dni_match =>
      let num := group_str cleaned dni_match 1 in
      if (1000000 <=? int_of_digits num)%N then Some (u "1", num) else None
    | None => None
    end
  end.

(** [_handle_client_reconfirmation] *)
Definition _handle_client_reconfirmation (svc : Service) (message : pystr)
    (session : UserSession) : outcome :=
  let msg_lower := strip (lower message) in
  if _is_cancellation msg_lower then (CANCELLED, reset_emission session, [])
  else
    match _extract_document_number message with
    | Some (id_type, id_number) =>
      let emission :=
        set_client false None
          (set_id (Some id_type) (Some id_number) (emission_data session)) in
      let session :=
        with_awaiting_client_reconfirmation false (with_emission emission session) in
      _validate_and_continue svc session
    | None =>
      (txt "No pude identificar un documento válido.

📝 Ingresa:
• DNI: 8 dígitos (ej: 12345678)
• RUC: 11 dígitos (ej: 20161541991)

O escribe " +++ dq +++ txt "cancelar" +++ dq +++ txt " para salir.", session, [])
    end.

Definition field_name (f : field) : pystr :=
  match f with
  | tipo_documento => u "tipo_documento"
  | identificacion_cliente => u "identificacion_cliente"
  | productos => u "productos"
  end.

Fixpoint join (sep : pystr) (l : list pystr) : pystr :=
  match l with
  | [] => []
  | [x] => x
  | x :: l' => x ++ sep ++ join sep l'
  end.

(** [list.remove(x)]: the first occurrence. *)
Fixpoint remove_first (f : field) (l : list field) : list field :=
  match l with
  | [] => []
  | x :: l' => if field_eqb f x then l' else x :: remove_first f l'
  end.

(** The part of [_request_data] below the block on the document kind. *)
Definition request_rest (missing : list field) (session : UserSession)
  : reply * UserSession :=
  let emission := emission_data session in
  match missing with
  | [] => _generate_summary session
  | _ =>
    if field_in identificacion_cliente missing
    then (txt "¿DNI o RUC del cliente?", session)
    else if field_in productos missing then
      if client_validated emission && truthy (client_name emission)
      then (txt "👤 Cliente: " +++ Plain (shown (client_name emission)) +++ txt "
📋 Doc: " +++ Plain (shown (id_number emission)) +++ txt "

¿Qué productos?
📝 Ej: 2 laptops a 2500", session)
      else (txt "¿Qué productos?
📝 Ej: 2 laptops a 2500", session)
    else (Plain (u "Falta: " ++ join (u ", ") (map field_name missing)), session)
  end.

(** [_request_data] *)
Definition _request_data (missing : list field) (session : UserSession)
  : reply * UserSession :=
  let emission := emission_data session in
  if field_in tipo_documento missing then
    if opt_is (id_type emission) "1" then
      request_rest (remove_first tipo_documento missing)
        (with_emission (set_document_type (Some (u "03")) emission) session)
    else if opt_is (id_type emission) "6" then
      (txt "RUC " +++ Plain (shown (id_number emission)) +++ txt "

¿Factura o Boleta?", session)
    else (txt "¿Factura o Boleta?", session)
  else request_rest missing session.

(** The first step of [execute_emission] and of a confirmation in
    [process_message]: when data is missing, look for it in the
    conversation. *)
Definition backfill (session : UserSession) : UserSession :=
  if negb (_has_complete_data (emission_data session))
  then _extract_from_conversation session else session.

(** [execute_emission]; [now] is the clock when the emission is recorded. *)
Definition execute_emission (svc : Service) (now : Z) (session : UserSession)
  : outcome :=
  let session := backfill session in
  let emission := emission_data session in
  match get_missing_fields emission with
  | (_ :: _) as missing =>
    let '(r, session) := _request_data missing session in (r, session, [])
  | [] =>
    if negb (client_validated emission) then _validate_and_continue svc session
    else
      let calls :=
        [EmitInvoice (client_data session) (document_type emission)
           (currency emission) (id_type emission) (id_number emission)
           (items emission)] in
      match emit_invoice svc (client_data session) (document_type emission)
              (currency emission) (id_type emission) (id_number emission)
              (items emission) with
      | Emitted response =>
        if is_successful response then
          let tipo := if opt_is (document_type emission) "01"
                      then txt "Factura" else txt "Boleta" in
          let full_number := get_full_number response in
          let pdf_url := get_pdf_url response in
          let total := calculate_total emission in
          let client_info :=
            if truthy (client_name emission)
            then Plain (nl ++ u "👤 " ++ shown (client_name emission))
            else Plain [] in
          let session :=
            record_emission now session (document_type emission) full_number
              (id_number emission) total (currency emission) pdf_url
              (length (items emission)) in
          let session := reset_emission session in
          (txt "✅ ¡" +++ tipo +++ txt " emitida!" +++ client_info +++ txt "

📄 " +++ Plain full_number +++ txt "
💰 S/" +++ hole total +++ txt "

📥 PDF: " +++ Plain pdf_url +++ txt "

¿Algo más?", session, calls)
        else (txt "⚠️ Error: " +++ Plain (mensaje response), session, calls)
      | EmitApiError e => (txt "❌ Error: " +++ Plain e, session, calls)
      | EmitCrashed => (txt "❌ Error inesperado.", session, calls)
      end
  end.

(** The block of [process_message] that gives the price just said to every
    pending item and empties [pending_items]. *)
Definition apply_pending_price (message : pystr) (session : UserSession)
  : UserSession :=
  match pending_items session, _extract_price message with
  | _ :: _, Some precio =>
    let emission := emission_data session in
    with_pending_items []
      (with_emission
         (set_items
            (items emission ++
             map (fun pending =>
                    {| cantidad := p_cantidad pending;
                       descripcion := p_descripcion pending;
                       precio := precio |})
                 (pending_items session))
            emission)
         session)
  | _, _ => session
  end.

(** The part of [process_message] that follows the extraction: the price
    of pending items, then what is missing, the validation of the client
    and the review. *)
Definition check_missing (svc : Service) (message : pystr) (extracted : Extracted)
    (session : UserSession) : outcome :=
  let items_sin_precio := x_items_sin_precio extracted in
  let session := apply_pending_price message session in
  let emission := emission_data session in
  let missing := get_missing_fields emission in
  let no_missing := match missing with [] => true | _ => false end in
  let only_productos :=
    match missing with [productos] => true | _ => false end in
  if _is_initial_request message extracted emission
  then (_get_initial_instructions (document_type emission), session, [])
  else if truthy (id_number emission) && negb (client_validated emission)
          && (has_items emission || no_missing || only_productos)
  then _validate_and_continue svc session
  else if no_missing then
    if client_validated emission
    then let '(r, session) := _generate_summary session in (r, session, [])
    else _validate_and_continue svc session
  else if negb (truthy (x_id_number extracted))
          && match x_items extracted with [] => true | _ => false end
          && match items_sin_precio with [] => true | _ => false end
          && field_in identificacion_cliente missing
  then (txt "Escribe el DNI (8 dígitos) o RUC (11 dígitos):", session, [])
  else if negb (truthy (x_id_number extracted))
          && match x_items extracted with [] => true | _ => false end
          && match items_sin_precio with [] => true | _ => false end
          && field_in productos missing
  then (txt "¿Qué productos?
📝 Ej: 2 laptops a 2500", session, [])
  else let '(r, session) := _request_data missing session in (r, session, []).

(** [process_message] *)
Definition process_message (svc : Service) (message : pystr)
    (session : UserSession) : outcome :=
  let msg_lower := strip (lower message) in
  if _is_cancellation msg_lower then (CANCELLED, reset_emission session, [])
  else if awaiting_client_reconfirmation session
  then _handle_client_reconfirmation svc message session
  else
    let confirms :=
      str_mem msg_lower (map u ["si"; "sí"; "ok"; "dale"; "confirmo"; "claro"]%string) in
    let session := if confirms then backfill session else session in
    if confirms && match get_missing_fields (emission_data session) with
                   | [] => true | _ => false end
    then
      if negb (client_validated (emission_data session))
      then _validate_and_continue svc session
      else let '(r, session) := _generate_summary session in (r, session, [])
    else if str_mem msg_lower (map u ["ruc"; "con ruc"; "es ruc"]%string)
    then (txt "Dame el RUC (11 dígitos).
Ejemplo: 20161541991", session, [])
    else if str_mem msg_lower (map u ["dni"; "con dni"; "es dni"]%string)
    then (txt "Dame el DNI (8 dígitos).
Ejemplo: 12345678", session, [])
    else
      let extracted := extract_all message session in
      let session := update_session session extracted in
      let items_sin_precio := x_items_sin_precio extracted in
      match items_sin_precio, x_items extracted with
      | item :: _, [] =>
        (txt "📝 " +++ Plain (p_cantidad item) +++ txt " "
             +++ Plain (p_descripcion item) +++ txt "

¿Precio unitario?", with_pending_items items_sin_precio session, [])
      | _, _ =>
        check_missing svc message extracted session
      end.

End EmissionAgent.
Export EmissionAgent.

(* ================================================================= *)
(** ** Concrete services and sessions used in the examples *)

Module Scenarios.

Definition no_emit : option ClientIdentification -> option pystr -> option pystr ->
    option pystr -> option pystr -> list InvoiceItem -> emit_outcome :=
  fun _ _ _ _ _ _ => EmitApiError (u "Timeout").

(** Every request times out. *)
Definition svc_down : Service :=
  {| post_check_client := fun _ _ => Raised (u "Timeout");
     post_product_list := fun _ => Raised (u "Timeout");
     post_client_list := fun _ => Raised (u "Timeout");
     post_history := fun _ => Raised (u "Timeout");
     emit_invoice := no_emit;
     exception_text := fun _ => [] |}.

(** The check-client endpoint knows every document as [name]; the store
    endpoint answers [resp]. *)
Definition svc_found (name : string) (resp : InvoiceResponse) : Service :=
  {| post_check_client := fun _ _ => Returned (JObj [(u "01", VStr (u name))]);
     post_product_list := fun _ => Returned (JArr []);
     post_client_list := fun _ => Returned (JArr []);
     post_history := fun _ => Returned (JArr []);
     emit_invoice := fun _ _ _ _ _ _ => Emitted resp;
     exception_text := fun _ => [] |}.

(** The check-client endpoint knows no document. *)
Definition svc_missing : Service :=
  {| post_check_client :=
       fun _ _ => Returned (JObj [(u "00", VStr (u "Cliente no encontrado"))]);
     post_product_list := fun _ => Returned (JArr []);
     post_client_list := fun _ => Returned (JArr []);
     post_history := fun _ => Returned (JArr []);
     emit_invoice := no_emit;
     exception_text := fun _ => [] |}.

Definition accepted : InvoiceResponse :=
  {| success := u "TRUE"; estado := u "ACEPTADO"; serie := u "B001";
     numero := u "000123"; id := 77; mensaje := u "OK";
     pdf := u "https://test.tinred.pe/pdf/B001-000123.pdf" |}.

Definition rejected : InvoiceResponse :=
  {| success := u "FALSE"; estado := u ""; serie := u ""; numero := u "";
     id := 0; mensaje := u "Serie no configurada"; pdf := u "" |}.

Definition merchant : ClientIdentification :=
  {| IdEmpresa := u "101"; IdEstablecimiento := u "0001"; IdUsuario := 7;
     Nombre := Some (u "Bodega Central") |}.

(** An authenticated caller who accepted the terms, nothing else done. *)
Definition fresh : UserSession :=
  {| phone := u "51999888777"; user_name := Some (u "Bodega Central");
     client_data := Some merchant; authenticated := true; terms_accepted := true;
     emission_data := EmissionData_new;
     awaiting_confirmation := false; awaiting_client_reconfirmation := false;
     pending_items := []; conversation_context := None; search_results := [];
     selected_product := None; context := UserContext_new; messages := [];
     session_emissions := []; created_at := 0; last_activity := 0 |}.

Definition laptops : InvoiceItem :=
  {| cantidad := u "3"; descripcion := u "laptops"; precio := u "2500" |}.

(** A receipt for DNI 12345678, validated, with one line. *)
Definition receipt_ready : EmissionData :=
  {| document_type := Some (u "03"); currency := Some (u "PEN");
     id_type := Some (u "1"); id_number := Some (u "12345678");
     items := [laptops]; client_validated := true;
     client_name := Some (u "JUAN PEREZ") |}.

Definition reviewing : UserSession := with_emission receipt_ready fresh.

(** The same caller with a chosen conversation context. *)
Definition browsing (ctx : string) : UserSession :=
  {| phone := phone fresh; user_name := user_name fresh;
     client_data := client_data fresh; authenticated := true;
     terms_accepted := true; emission_data := EmissionData_new;
     awaiting_confirmation := false; awaiting_client_reconfirmation := false;
     pending_items := []; conversation_context := Some (u ctx);
     search_results := []; selected_product := None;
     context := UserContext_new; messages := [];
     session_emissions := []; created_at := 0; last_activity := 0 |}.

(** An invoice for RUC 20161541991 under way: the client was validated
    and a line captured, but the document kind was never said; the
    assistant had asked for it two turns before. *)
Definition kind_unset : EmissionData :=
  {| document_type := None; currency := Some (u "PEN");
     id_type := Some (u "6"); id_number := Some (u "20161541991");
     items := [laptops]; client_validated := true;
     client_name := Some (u "ACME SAC") |}.

Definition said (who : Role) (text : pystr) : ConversationMessage :=
  {| role := who; content := text; msg_timestamp := 0; intent := None |}.

Definition asked_kind : UserSession :=
  {| phone := phone fresh; user_name := user_name fresh;
     client_data := client_data fresh; authenticated := true;
     terms_accepted := true; emission_data := kind_unset;
     awaiting_confirmation := false; awaiting_client_reconfirmation := false;
     pending_items := []; conversation_context := None;
     search_results := []; selected_product := None;
     context := UserContext_new;
     messages := [ said user (u "20161541991");
                   said assistant (u "RUC 20161541991" ++ nl ++ nl
                                     ++ u "¿Factura o Boleta?");
                   said user (u "3 laptops a 2500") ];
     session_emissions := []; created_at := 0; last_activity := 0 |}.

(** The caller's context was loaded at instant 0. *)
Definition cached : UserSession :=
  with_context {| clients := []; products := []; history := [];
                  loaded_at := Some 0%Z |} fresh.

(** The caller named a DNI the service does not know, with one line. *)
Definition not_found_turn : UserSession :=
  snd (fst (process_message svc_missing (u "Boleta 11111111, 1 libro a 40") fresh)).

(** A line priced in dollars was captured in an earlier turn. *)
Definition in_dollars : EmissionData :=
  {| document_type := None; currency := Some (u "USD");
     id_type := None; id_number := None;
     items := [laptops]; client_validated := false; client_name := None |}.

End Scenarios.
Export Scenarios.

(* ================================================================= *)
(** * Properties *)

(** ** Strings *)

Lemma str_eqb_spec (a b : pystr) : str_eqb a b = true <-> a = b.
Proof.
  revert b; induction a as [|x a IH]; intros [|y b]; simpl; split;
    try congruence; try reflexivity.
  - intros H. apply andb_true_iff in H as [H1 H2].
    apply N.eqb_eq in H1. apply IH in H2. congruence.
  - intros H. injection H as -> ->. rewrite N.eqb_refl. simpl. now apply IH.
Qed.

Lemma str_eqb_refl (a : pystr) : str_eqb a a = true.
Proof. now apply str_eqb_spec. Qed.

(** Closed facts are settled by running the definitions. *)
Ltac by_computation := repeat apply conj; vm_compute; reflexivity.

(** ** The context loader *)

Definition calls_of_load (o : bool * UserSession * list call) : list call := snd o.

(** The refresh window of [is_stale()]: sixty minutes, in microseconds. *)
Definition refresh_window : Z := 60 * 60 * 1000000.

Lemma is_stale_fresh (now t : Z) (c : UserContext) :
  loaded_at c = Some t -> (now - t < refresh_window)%Z -> is_stale now 60 c = false.
Proof.
  intros Hl Hage. unfold is_stale. rewrite Hl.
  apply Z.ltb_ge. unfold refresh_window in Hage. lia.
Qed.

(** C9. With [force = false] and a cached context that is loaded and
    younger than the refresh window, [load_user_context] returns [True] at
    once, makes none of the three calls and leaves the session, hence the
    cached context, as it was. After any load the context carries a stamp,
    and a second load within the window of that stamp is such a no-op. *)
Theorem load_user_context_fresh_noop
    (svc : Service) (now later : Z) (s : UserSession) :
  (forall t, loaded_at (context s) = Some t ->
             (now - t < refresh_window)%Z ->
             load_user_context svc now later s false = (true, s, []))
  /\ (forall force svc' now' later',
        let s1 := snd (fst (load_user_context svc now later s force)) in
        exists t1, loaded_at (context s1) = Some t1
          /\ ((now' - t1 < refresh_window)%Z ->
              load_user_context svc' now' later' s1 false = (true, s1, []))).
Proof.
  assert (Hnoop : forall svc0 now0 later0 s' t,
            loaded_at (context s') = Some t ->
            (now0 - t < refresh_window)%Z ->
            load_user_context svc0 now0 later0 s' false = (true, s', [])).
  { intros svc0 now0 later0 s' t Hl Hage. unfold load_user_context, is_loaded.
    rewrite (is_stale_fresh now0 t (context s') Hl Hage), Hl. reflexivity. }
  split; [apply Hnoop|].
  intros force svc' now' later' s1.
  assert (Hst : exists t1, loaded_at (context s1) = Some t1).
  { subst s1. unfold load_user_context.
    destruct (negb force && is_loaded (context s)
              && negb (is_stale now 60 (context s))) eqn:Hhit.
    - simpl. apply andb_true_iff in Hhit as [Hhit _].
      apply andb_true_iff in Hhit as [_ Hload]. unfold is_loaded in Hload.
      destruct (loaded_at (context s)) as [t0|]; [now exists t0|discriminate].
    - exists later.
      destruct (as_records (get_clients svc (phone s)));
        destruct (as_records (get_products svc (phone s)));
        destruct (as_records (get_history svc (phone s))); reflexivity. }
  destruct Hst as [t1 Ht1]. exists t1. split; [exact Ht1|].
  intros Hage. now apply Hnoop with (t := t1).
Qed.

Lemma load_user_context_fresh_noop_witness :
  load_user_context svc_down 600000000 600000001 cached false
  = (true, cached, [])
  /\ calls_of_load (load_user_context svc_down 3600000001 3600000002 cached false)
     = [GetProducts (u "51999888777"); GetClients (u "51999888777");
        GetHistory (u "51999888777")].
Proof.
  split.
  - apply (proj1 (load_user_context_fresh_noop svc_down 600000000 600000001
                    cached) 0%Z); reflexivity.
  - vm_compute. reflexivity.
Defined.

(** ** The check-client call *)

Lemma check_client_raised (svc : Service) (phone doc e : pystr) :
  post_check_client svc (clean_phone phone) doc = Raised e ->
  check_client svc phone doc = (false, u "Error de conexión: " ++ e).
Proof. intros H. unfold check_client. now rewrite H. Qed.

Lemma check_client_miss (svc : Service) (phone doc : pystr) (r : record) (m : jvalue) :
  post_check_client svc (clean_phone phone) doc = Returned (JObj r) ->
  lookup (u "01") r = None -> lookup (u "00") r = Some m ->
  check_client svc phone doc = (false, text_of m).
Proof. intros H H1 H0. unfold check_client. now rewrite H, H1, H0. Qed.

(** What [_validate_and_continue] does when the client is not confirmed:
    the answer text of [check_client] is not used. *)
Lemma validate_not_found (svc : Service) (s : UserSession) (c : N) (n text : pystr) :
  id_number (emission_data s) = Some (c :: n) ->
  check_client svc (phone s) (c :: n) = (false, text) ->
  _validate_and_continue svc s
  = (not_found_reply (c :: n) (emission_data s),
     with_awaiting_client_reconfirmation true s,
     [CheckClient (phone s) (c :: n)]).
Proof.
  intros Hid Hcc. unfold _validate_and_continue. rewrite Hid, Hcc. reflexivity.
Qed.

(** C10. [check_client] returns a pair on every answer of the service: a
    transport error gives [(False, "Error de conexión: ...")], a body that
    is not an object gives [(False, "Error inesperado: ...")]; and in
    [_validate_and_continue] a transport error and a genuine miss give the
    same reply, the same session (reconfirmation pending) and the same
    call. *)
Theorem check_client_total (svc : Service) (ph doc : pystr) :
  (exists found text, check_client svc ph doc = (found, text))
  /\ (forall e, post_check_client svc (clean_phone ph) doc = Raised e ->
        check_client svc ph doc = (false, u "Error de conexión: " ++ e))
  /\ (forall data, post_check_client svc (clean_phone ph) doc = Returned data ->
        (forall r, data <> JObj r) ->
        check_client svc ph doc
        = (false, u "Error inesperado: " ++ exception_text svc data))
  /\ (forall svc' s c n e r m,
        id_number (emission_data s) = Some (c :: n) ->
        post_check_client svc (clean_phone (phone s)) (c :: n) = Raised e ->
        post_check_client svc' (clean_phone (phone s)) (c :: n) = Returned (JObj r) ->
        lookup (u "01") r = None -> lookup (u "00") r = Some m ->
        _validate_and_continue svc s = _validate_and_continue svc' s
        /\ awaiting_client_reconfirmation (snd (fst (_validate_and_continue svc s)))
           = true).
Proof.
  split; [|split; [|split]].
  - destruct (check_client svc ph doc) as [found text]. now exists found, text.
  - apply check_client_raised.
  - intros data H Hno. unfold check_client. rewrite H.
    destruct data as [r| |]; [now destruct (Hno r)|reflexivity|reflexivity].
  - intros svc' s c n e r m Hid Hraise Hret H1 H0.
    pose proof (check_client_raised svc (phone s) (c :: n) e Hraise) as Hdown.
    pose proof (check_client_miss svc' (phone s) (c :: n) r m Hret H1 H0) as Hmiss.
    rewrite (validate_not_found svc s c n _ Hid Hdown).
    rewrite (validate_not_found svc' s c n _ Hid Hmiss). split; reflexivity.
Qed.

Lemma check_client_total_witness :
  check_client svc_down (u "51999888777") (u "12345678")
  = (false, u "Error de conexión: Timeout")
  /\ _validate_and_continue svc_down reviewing
     = _validate_and_continue svc_missing reviewing.
Proof.
  destruct (check_client_total svc_down (u "51999888777") (u "12345678"))
    as [_ [Hraised [_ Hsame]]].
  split.
  - apply Hraised. reflexivity.
  - apply (Hsame svc_missing reviewing 49%N (u "2345678") (u "Timeout")
             [(u "00", VStr (u "Cliente no encontrado"))]
             (VStr (u "Cliente no encontrado"))); reflexivity.
Defined.

(** ** The slot extractor: inference of the document kind *)

(** The extractor finds neither the word factura nor the word boleta. *)
Definition no_document_keyword (message : pystr) : bool :=
  negb (matches false (rx "\bfactura\b") (lower message))
  && negb (matches false (rx "\bboleta\b") (lower message)).

(** C6. When [extract_all] finds a DNI (ID type 1) and no factura or
    boleta keyword, the extracted document kind is 03; when it finds a RUC
    (ID type 6) and no such keyword, the document kind stays unset. *)
Theorem dni_infers_receipt (message : pystr) (session : UserSession) :
  no_document_keyword message = true ->
  (x_id_type (extract_all message session) = Some (u "1") ->
   x_document_type (extract_all message session) = Some (u "03"))
  /\ (x_id_type (extract_all message session) = Some (u "6") ->
      x_document_type (extract_all message session) = None).
Proof.
  intros Hkw. unfold no_document_keyword in Hkw.
  apply andb_true_iff in Hkw as [Hf Hb].
  apply negb_true_iff in Hf. apply negb_true_iff in Hb.
  unfold extract_all. rewrite Hf, Hb.
  destruct (_extract_id message) as [[ty num]|]; simpl option_map;
    destruct (_extract_items message _) as [its pend]; simpl.
  - split; intros Hty; injection Hty as ->; reflexivity.
  - split; discriminate.
Qed.

Lemma dni_infers_receipt_witness :
  no_document_keyword (u "12345678, 2 cuadernos a 15") = true
  /\ x_document_type (extract_all (u "12345678, 2 cuadernos a 15") fresh)
     = Some (u "03")
  /\ no_document_keyword (u "20161541991") = true
  /\ x_document_type (extract_all (u "20161541991") fresh) = None.
Proof.
  split; [vm_compute; reflexivity|]. split.
  - apply (dni_infers_receipt (u "12345678, 2 cuadernos a 15") fresh);
      vm_compute; reflexivity.
  - split; [vm_compute; reflexivity|].
    apply (dni_infers_receipt (u "20161541991") fresh); vm_compute; reflexivity.
Defined.

(** ** The intent classifier: numeric selection *)

Lemma small_numbers_are_bare :
  forallb (fun n =>
             str_eqb (strip (str_of_small n)) (str_of_small n)
             && is_some (re_match false (rx "^\d{1,2}$") (str_of_small n)))
          (seq 1 99) = true.
Proof. vm_compute. reflexivity. Qed.

Lemma small_number_bare (n : nat) :
  1 <= n <= 99 ->
  strip (str_of_small n) = str_of_small n
  /\ is_some (re_match false (rx "^\d{1,2}$") (str_of_small n)) = true.
Proof.
  intros Hn. pose proof small_numbers_are_bare as H.
  rewrite forallb_forall in H. specialize (H n).
  assert (Hin : In n (seq 1 99)) by (apply in_seq; lia).
  apply H in Hin. apply andb_true_iff in Hin as [H1 H2].
  split; [now apply str_eqb_spec|exact H2].
Qed.

(** Decides the comparisons of a known context with the context names. *)
Ltac decide_ctx :=
  repeat match goal with
         | |- context [ctx_is (Some ?c) ?name] =>
           let b := eval vm_compute in (ctx_is (Some c) name) in
           change (ctx_is (Some c) name) with b
         end.

(** C7. For a bare integer between 1 and 99 and any session, [classify]
    answers QUERY_PRODUCTS when the conversation context is products or
    search_results, and QUERY_HISTORY when it is history or
    today_emissions. *)
Theorem bare_number_follows_context (n : nat) (s : UserSession) :
  1 <= n <= 99 ->
  (_get_conversation_context s = Some (u "products")
   \/ _get_conversation_context s = Some (u "search_results") ->
   fst (classify (str_of_small n) s) = QUERY_PRODUCTS)
  /\ (_get_conversation_context s = Some (u "history")
      \/ _get_conversation_context s = Some (u "today_emissions") ->
      fst (classify (str_of_small n) s) = QUERY_HISTORY).
Proof.
  intros Hn. destruct (small_number_bare n Hn) as [Hstrip Hbare].
  split; intros [Hc|Hc]; unfold classify; rewrite Hstrip, Hbare, Hc;
    decide_ctx; reflexivity.
Qed.

Lemma bare_number_follows_context_witness :
  fst (classify (u "2") (browsing "products")) = QUERY_PRODUCTS
  /\ fst (classify (u "17") (browsing "search_results")) = QUERY_PRODUCTS
  /\ fst (classify (u "2") (browsing "history")) = QUERY_HISTORY
  /\ fst (classify (u "99") (browsing "today_emissions")) = QUERY_HISTORY.
Proof.
  split; [|split; [|split]].
  - apply (bare_number_follows_context 2 (browsing "products")); [lia|].
    left; reflexivity.
  - apply (bare_number_follows_context 17 (browsing "search_results")); [lia|].
    right; reflexivity.
  - apply (bare_number_follows_context 2 (browsing "history")); [lia|].
    left; reflexivity.
  - apply (bare_number_follows_context 99 (browsing "today_emissions")); [lia|].
    right; reflexivity.
Defined.

(** ** The emission gate *)

(** Everything [execute_emission] checks before it calls the store
    endpoint. *)
Definition ready (e : EmissionData) : bool :=
  truthy (document_type e) && truthy (id_type e) && truthy (id_number e)
  && has_items e && client_validated e.

Definition calls_of (o : outcome) : list call := snd o.
Definition session_of (o : outcome) : UserSession := snd (fst o).
Definition reply_of (o : outcome) : reply := fst (fst o).

Lemma no_missing_fields (e : EmissionData) :
  get_missing_fields e = [] <->
  truthy (document_type e) && truthy (id_type e) && truthy (id_number e)
  && has_items e = true.
Proof.
  unfold get_missing_fields.
  destruct (truthy (document_type e)), (truthy (id_type e)),
    (truthy (id_number e)), (has_items e); simpl; split; intros H;
    try reflexivity; try discriminate.
Qed.

Lemma validate_makes_no_emit (svc : Service) (s : UserSession) :
  existsb is_emit (calls_of (_validate_and_continue svc s)) = false.
Proof.
  unfold _validate_and_continue.
  destruct (id_number (emission_data s)) as [[|c n]|]; try reflexivity.
  destruct (check_client svc (phone s) (c :: n)) as [[|] text]; try reflexivity.
  destruct (has_items _); [|reflexivity].
  destruct (_generate_summary _); reflexivity.
Qed.

Lemma backfill_keeps_rest (s : UserSession) :
  client_data (backfill s) = client_data s
  /\ currency (emission_data (backfill s)) = currency (emission_data s)
  /\ (_has_complete_data (emission_data s) = true -> backfill s = s).
Proof.
  unfold backfill. destruct (_has_complete_data (emission_data s)); simpl.
  - repeat split; reflexivity.
  - split; [reflexivity|]. split; [|discriminate].
    unfold _extract_from_conversation. simpl.
    assert (Hstep : forall e m, currency (extract_from_message e m) = currency e).
    { intros e m. unfold extract_from_message.
      repeat match goal with
             | |- context [if ?b then _ else _] => destruct b
             | |- context [match ?x with Some _ => _ | None => _ end] => destruct x
             end; reflexivity. }
    assert (Hfold : forall l e,
              currency (fold_left extract_from_message l e) = currency e).
    { induction l as [|m l IH]; intros e; simpl; [reflexivity|].
      now rewrite IH, Hstep. }
    destruct (opt_is _ "1" && _); simpl; apply Hfold.
Qed.

(** C1, as the code has it. [execute_emission] first fills empty slots
    from the conversation ([backfill]); the store endpoint is called exactly
    when, after that, the emission has document kind, ID type and ID number
    set, at least one item and [client_validated = true]. The call carries
    those fields; the currency is passed as stored and is not checked. When
    the entry state already has document kind, ID number and items, nothing
    is filled in. *)
Theorem issuance_only_when_ready (svc : Service) (now : Z) (s : UserSession) :
  existsb is_emit (calls_of (execute_emission svc now s))
  = ready (emission_data (backfill s))
  /\ (ready (emission_data (backfill s)) = true ->
      calls_of (execute_emission svc now s)
      = [EmitInvoice (client_data s)
           (document_type (emission_data (backfill s)))
           (currency (emission_data s))
           (id_type (emission_data (backfill s)))
           (id_number (emission_data (backfill s)))
           (items (emission_data (backfill s)))])
  /\ (_has_complete_data (emission_data s) = true -> backfill s = s).
Proof.
  destruct (backfill_keeps_rest s) as [Hcd [Hcur Hsame]].
  unfold execute_emission, ready. rewrite <- Hcur, <- Hcd.
  set (s1 := backfill s). set (e := emission_data s1).
  pose proof (no_missing_fields e) as Hmiss.
  destruct (get_missing_fields e) as [|f fs] eqn:Hm.
  - assert (Hall : truthy (document_type e) && truthy (id_type e)
                   && truthy (id_number e) && has_items e = true)
      by now apply Hmiss.
    rewrite Hall. simpl andb.
    destruct (client_validated e) eqn:Hv; simpl negb; cbv iota.
    + destruct (emit_invoice svc _ _ _ _ _ _) as [resp|msg|];
        [destruct (is_successful resp)| |]; simpl;
        (split; [reflexivity|split; [reflexivity|exact Hsame]]).
    + rewrite validate_makes_no_emit.
      split; [reflexivity|split; [discriminate|exact Hsame]].
  - assert (Hnot : truthy (document_type e) && truthy (id_type e)
                   && truthy (id_number e) && has_items e = false).
    { destruct (_ && has_items e); [|reflexivity].
      destruct Hmiss as [_ Hmiss]. now specialize (Hmiss eq_refl). }
    rewrite Hnot. simpl andb.
    destruct (_request_data (f :: fs) s1) as [r s2]. simpl.
    split; [reflexivity|split; [discriminate|exact Hsame]].
Qed.

Lemma issuance_only_when_ready_witness :
  ready (emission_data (backfill reviewing)) = true
  /\ calls_of (execute_emission (svc_found "JUAN PEREZ" accepted) 0 reviewing)
     = [EmitInvoice (Some merchant) (Some (u "03")) (Some (u "PEN"))
          (Some (u "1")) (Some (u "12345678")) [laptops]]
  /\ existsb is_emit (calls_of (execute_emission svc_missing 0 fresh)) = false.
Proof.
  split; [vm_compute; reflexivity|]. split.
  - apply (issuance_only_when_ready (svc_found "JUAN PEREZ" accepted) 0 reviewing).
    vm_compute; reflexivity.
  - rewrite (proj1 (issuance_only_when_ready svc_missing 0 fresh)).
    vm_compute; reflexivity.
Defined.

(** C1 as stated fails: on entry the document kind is unset, yet the store
    endpoint is called, with the kind read back from the assistant's own
    question two turns earlier. *)
Lemma issuance_with_kind_unset_on_entry :
  document_type (emission_data asked_kind) = None
  /\ calls_of (execute_emission (svc_found "ACME SAC" accepted) 0 asked_kind)
     = [EmitInvoice (Some merchant) (Some (u "01")) (Some (u "PEN"))
          (Some (u "6")) (Some (u "20161541991")) [laptops]].
Proof. by_computation. Qed.

(** ** Failures of the store endpoint and of the transport *)

(** C2, as the code has it. When the store endpoint answers and the answer
    is not successful ([success.upper() != "TRUE"]), [execute_emission]
    replies "⚠️ Error: <mensaje>", records nothing and resets nothing: the
    session is the one the call was made from, with its emission data and
    both waiting flags as they were. *)
Theorem rejected_issuance_keeps_session
    (svc : Service) (now : Z) (s : UserSession) (resp : InvoiceResponse) :
  ready (emission_data (backfill s)) = true ->
  emit_invoice svc (client_data s)
    (document_type (emission_data (backfill s)))
    (currency (emission_data s))
    (id_type (emission_data (backfill s)))
    (id_number (emission_data (backfill s)))
    (items (emission_data (backfill s))) = Emitted resp ->
  is_successful resp = false ->
  reply_of (execute_emission svc now s) = Plain (u "⚠️ Error: " ++ mensaje resp)
  /\ session_of (execute_emission svc now s) = backfill s
  /\ awaiting_confirmation (backfill s) = awaiting_confirmation s
  /\ awaiting_client_reconfirmation (backfill s)
     = awaiting_client_reconfirmation s
  /\ session_emissions (backfill s) = session_emissions s.
Proof.
  intros Hready Hemit Hfail.
  destruct (backfill_keeps_rest s) as [Hcd [Hcur _]].
  rewrite <- Hcur, <- Hcd in Hemit.
  assert (Hflags : awaiting_confirmation (backfill s) = awaiting_confirmation s
                   /\ awaiting_client_reconfirmation (backfill s)
                      = awaiting_client_reconfirmation s
                   /\ session_emissions (backfill s) = session_emissions s).
  { unfold backfill. destruct (negb _); repeat split; reflexivity. }
  unfold ready in Hready. apply andb_true_iff in Hready as [Hall Hv].
  apply no_missing_fields in Hall.
  unfold execute_emission. rewrite Hall, Hv. simpl negb. cbv iota.
  rewrite Hemit, Hfail. simpl. split; [reflexivity|]. split; [reflexivity|].
  exact Hflags.
Qed.

Lemma rejected_issuance_keeps_session_witness :
  reply_of (execute_emission (svc_found "JUAN PEREZ" rejected) 0 reviewing)
  = Plain (u "⚠️ Error: Serie no configurada")
  /\ session_of (execute_emission (svc_found "JUAN PEREZ" rejected) 0 reviewing)
     = reviewing.
Proof.
  pose proof (rejected_issuance_keeps_session
                (svc_found "JUAN PEREZ" rejected) 0 reviewing rejected) as H.
  destruct H as [Hr [Hs _]]; try (vm_compute; reflexivity).
  split; [rewrite Hr|rewrite Hs]; vm_compute; reflexivity.
Defined.

(** C2 as stated fails: the store endpoint answers [success = "FALSE"],
    the reply is the error text, and afterwards the emission still holds the
    document, the client and the line. *)
Lemma rejected_issuance_is_not_reset :
  success rejected = u "FALSE"
  /\ reply_of (execute_emission (svc_found "JUAN PEREZ" rejected) 0 reviewing)
     = Plain (u "⚠️ Error: Serie no configurada")
  /\ emission_data
       (session_of (execute_emission (svc_found "JUAN PEREZ" rejected) 0 reviewing))
     = receipt_ready
  /\ items receipt_ready = [laptops]
  /\ items EmissionData_new = [].
Proof. by_computation. Qed.

(** A transport error of the store call is answered "❌ Error: <text>",
    and the session is the one the call was made from: nothing is recorded
    or reset. *)
Theorem issuance_transport_error_keeps_session
    (svc : Service) (now : Z) (s : UserSession) (e : pystr) :
  ready (emission_data (backfill s)) = true ->
  emit_invoice svc (client_data s)
    (document_type (emission_data (backfill s)))
    (currency (emission_data s))
    (id_type (emission_data (backfill s)))
    (id_number (emission_data (backfill s)))
    (items (emission_data (backfill s))) = EmitApiError e ->
  reply_of (execute_emission svc now s) = Plain (u "❌ Error: " ++ e)
  /\ session_of (execute_emission svc now s) = backfill s
  /\ session_emissions (backfill s) = session_emissions s.
Proof.
  intros Hready Hemit.
  destruct (backfill_keeps_rest s) as [Hcd [Hcur _]].
  rewrite <- Hcur, <- Hcd in Hemit.
  unfold ready in Hready. apply andb_true_iff in Hready as [Hall Hv].
  apply no_missing_fields in Hall.
  unfold execute_emission. rewrite Hall, Hv. simpl negb. cbv iota.
  rewrite Hemit. simpl. split; [reflexivity|]. split; [reflexivity|].
  unfold backfill. destruct (negb _); reflexivity.
Qed.

Lemma issuance_transport_error_keeps_session_witness :
  reply_of (execute_emission svc_down 0 reviewing)
  = Plain (u "❌ Error: Timeout")
  /\ session_of (execute_emission svc_down 0 reviewing) = reviewing.
Proof.
  destruct (issuance_transport_error_keeps_session svc_down 0 reviewing
              (u "Timeout")) as [Hr [Hs _]]; try (vm_compute; reflexivity).
  split; [rewrite Hr|rewrite Hs]; vm_compute; reflexivity.
Defined.

(** C3 fails on the code: the caller sends a receipt in one message while
    the check-client call times out. [check_client] turns the error into
    (False, text), so the turn answers as for a client that was not found:
    the text of the error is not shown, reconfirmation is pending, and the
    document and the line stay stored, where the claim has an error shown
    and the session it started from. *)
Lemma transport_error_changes_session :
  calls_of (process_message svc_down (u "Boleta 11111111, 1 libro a 40") fresh)
  = [CheckClient (u "51999888777") (u "11111111")]
  /\ awaiting_client_reconfirmation fresh = false
  /\ awaiting_client_reconfirmation
       (session_of (process_message svc_down
                      (u "Boleta 11111111, 1 libro a 40") fresh)) = true
  /\ id_number (emission_data fresh) = None
  /\ id_number
       (emission_data
          (session_of (process_message svc_down
                         (u "Boleta 11111111, 1 libro a 40") fresh)))
     = Some (u "11111111")
  /\ reply_of (process_message svc_down (u "Boleta 11111111, 1 libro a 40") fresh)
     = reply_of (process_message svc_missing
                   (u "Boleta 11111111, 1 libro a 40") fresh).
Proof. by_computation. Qed.

(** ** Merging extracted slots into the emission *)

Lemma key_eqb_spec (a b : key) : key_eqb a b = true <-> a = b.
Proof.
  destruct a as [a1 a2], b as [b1 b2]. unfold key_eqb. simpl.
  rewrite andb_true_iff, !str_eqb_spec. split.
  - intros [-> ->]. reflexivity.
  - intros H. injection H as -> ->. split; reflexivity.
Qed.

Lemma key_in_spec (k : key) (l : list key) : key_in k l = true <-> In k l.
Proof.
  unfold key_in. rewrite existsb_exists. split.
  - intros [x [Hin Heq]]. apply key_eqb_spec in Heq. now subst.
  - intros Hin. exists k. split; [exact Hin|now apply key_eqb_spec].
Qed.


Lemma key_in_false (k : key) (l : list key) : key_in k l = false <-> ~ In k l.
Proof.
  rewrite <- key_in_spec. destruct (key_in k l); split; intros H;
    try discriminate; try reflexivity; try (intros H'; discriminate).
  now destruct H.
Qed.

(** Order-preserving selection from a list. *)
Inductive subseq {A : Type} : list A -> list A -> Prop :=
| subseq_nil : subseq [] []
| subseq_skip x l l' : subseq l l' -> subseq l (x :: l')
| subseq_keep x l l' : subseq l l' -> subseq (x :: l) (x :: l').

Lemma subseq_refl {A : Type} (l : list A) : subseq l l.
Proof. induction l; [apply subseq_nil|now apply subseq_keep]. Qed.

Lemma subseq_nil_l {A : Type} (l : list A) : subseq [] l.
Proof. induction l; [apply subseq_nil|now apply subseq_skip]. Qed.

Lemma subseq_app {A : Type} (a a' b b' : list A) :
  subseq a a' -> subseq b b' -> subseq (a ++ b) (a' ++ b').
Proof.
  induction 1; intros Hb; simpl.
  - exact Hb.
  - apply subseq_skip. auto.
  - apply subseq_keep. auto.
Qed.

Lemma subseq_In {A : Type} (a b : list A) (x : A) : subseq a b -> In x a -> In x b.
Proof.
  induction 1; simpl; intros Hin; auto.
  destruct Hin as [->|Hin]; auto.
Qed.

(** The loop of [update_session]: what it appends is selected in order from
    the extracted items, is new to the emission, and has no repeated key;
    afterwards the key of every extracted item is present. *)
Lemma merge_fold (l : list InvoiceItem) :
  forall its ex,
    exists added,
      fold_left merge_item l (its, ex) = (its ++ added, ex ++ map item_key added)
      /\ subseq added l
      /\ (forall a, In a added -> ~ In (item_key a) ex)
      /\ NoDup (map item_key added)
      /\ (forall i, In i l -> In (item_key i) (ex ++ map item_key added)).
Proof.
  induction l as [|i l IH]; intros its ex; simpl.
  - exists []. rewrite !app_nil_r. repeat split; try constructor; intros ? [].
  - destruct (key_in (item_key i) ex) eqn:Hk; simpl.
    + destruct (IH its ex) as [added [Heq [Hsub [Hnew [Hnd Hall]]]]].
      exists added. split; [exact Heq|]. split; [now constructor|].
      split; [exact Hnew|]. split; [exact Hnd|].
      intros j [<-|Hj]; [|now apply Hall].
      apply in_or_app. left. now apply key_in_spec.
    + destruct (IH (its ++ [i]) (ex ++ [item_key i]))
        as [added [Heq [Hsub [Hnew [Hnd Hall]]]]].
      exists (i :: added). simpl.
      rewrite Heq, <- !app_assoc. simpl.
      split; [reflexivity|]. split; [now constructor|]. split; [|split].
      * intros a [<-|Ha]; [now apply key_in_false|].
        intros Hin. apply (Hnew a Ha). apply in_or_app. now left.
      * constructor; [|exact Hnd]. intros Hin. apply in_map_iff in Hin.
        destruct Hin as [a [Hka Ha]]. apply (Hnew a Ha).
        apply in_or_app. right. left. now symmetry.
      * intros j [<-|Hj].
        -- apply in_or_app. right. now left.
        -- specialize (Hall j Hj). rewrite <- app_assoc in Hall. exact Hall.
Qed.

Lemma merge_fold_noop (l : list InvoiceItem) (its : list InvoiceItem) (ex : list key) :
  (forall i, In i l -> In (item_key i) ex) ->
  fold_left merge_item l (its, ex) = (its, ex).
Proof.
  induction l as [|i l IH]; intros Hin; simpl; [reflexivity|].
  assert (Hk : key_in (item_key i) ex = true)
    by (apply key_in_spec, Hin; now left).
  rewrite Hk. simpl. apply IH. intros j Hj. apply Hin. now right.
Qed.

Lemma merge_items_spec (own ext : list InvoiceItem) :
  exists added,
    merge_items own ext = own ++ added
    /\ subseq added ext
    /\ (forall a, In a added -> ~ In (item_key a) (map item_key own))
    /\ NoDup (map item_key added).
Proof.
  unfold merge_items. destruct ext as [|i ext].
  - exists []. rewrite app_nil_r. repeat split; try constructor. intros ? [].
  - destruct (merge_fold (i :: ext) own (map item_key own))
      as [added [Heq [Hsub [Hnew [Hnd _]]]]].
    exists added. rewrite Heq. repeat split; assumption.
Qed.

Lemma merge_items_idem (own ext : list InvoiceItem) :
  merge_items (merge_items own ext) ext = merge_items own ext.
Proof.
  unfold merge_items. destruct ext as [|i ext]; [reflexivity|].
  destruct (merge_fold (i :: ext) own (map item_key own))
    as [added [Heq [_ [_ [_ Hall]]]]].
  rewrite Heq. cbn [fst].
  rewrite merge_fold_noop; [reflexivity|].
  intros j Hj. rewrite map_app. now apply Hall.
Qed.

Lemma update_emission_fields (e : EmissionData) (x : Extracted) :
  update_emission e x
  = {| document_type :=
         if truthy (x_document_type x) && negb (truthy (document_type e))
         then x_document_type x else document_type e;
       currency := if truthy (x_currency x) then x_currency x else currency e;
       id_type :=
         if truthy (x_id_type x) && negb (truthy (id_type e))
         then x_id_type x else id_type e;
       id_number :=
         if truthy (x_id_type x) && negb (truthy (id_type e))
         then x_id_number x else id_number e;
       items := merge_items (items e) (x_items x);
       client_validated := client_validated e;
       client_name := client_name e |}.
Proof.
  unfold update_emission. destruct e as [d c t n its cv name].
  cbn [document_type id_type].
  destruct (truthy (x_document_type x) && negb (truthy d));
    cbn [set_document_type document_type currency id_type id_number items
         client_validated client_name];
    destruct (truthy (x_id_type x) && negb (truthy t));
    destruct (truthy (x_currency x)); reflexivity.
Qed.

Lemma update_emission_idem (e : EmissionData) (x : Extracted) :
  update_emission (update_emission e x) x = update_emission e x.
Proof.
  rewrite (update_emission_fields (update_emission e x) x).
  rewrite (update_emission_fields e x). cbn [document_type currency id_type
    id_number items client_validated client_name].
  rewrite merge_items_idem.
  destruct (truthy (x_document_type x)) eqn:Hxd;
    destruct (truthy (document_type e)) eqn:Hd;
    destruct (truthy (x_id_type x)) eqn:Hxt;
    destruct (truthy (id_type e)) eqn:Ht;
    destruct (truthy (x_currency x)) eqn:Hxc;
    cbn [andb negb]; rewrite ?Hxd, ?Hd, ?Hxt, ?Ht; reflexivity.
Qed.

Lemma extracted_currency (message : pystr) (s : UserSession) :
  x_currency (extract_all message s)
  = if names_dollars (lower message) then Some (u "USD") else Some (u "PEN").
Proof.
  unfold extract_all.
  destruct (_extract_items message _) as [its pend]. reflexivity.
Qed.

(** C4, as the code has it. Extract-then-update leaves a populated
    document kind unchanged and a populated ID (type and number) unchanged,
    keeps the existing items in place and only appends, and does not touch
    the validation of the client; repeating it on the same utterance changes
    nothing. The currency is not such a slot: it is populated from the
    start, and an utterance that names dollars sets it to USD. *)
Theorem update_keeps_filled_slots (message : pystr) (s : UserSession) :
  let e := emission_data s in
  let s1 := update_session s (extract_all message s) in
  let e1 := emission_data s1 in
  (truthy (document_type e) = true -> document_type e1 = document_type e)
  /\ (truthy (id_type e) = true ->
      id_type e1 = id_type e /\ id_number e1 = id_number e)
  /\ (exists added, items e1 = items e ++ added)
  /\ client_validated e1 = client_validated e
  /\ client_name e1 = client_name e
  /\ (names_dollars (lower message) = true -> currency e1 = Some (u "USD"))
  /\ update_session s1 (extract_all message s1) = s1.
Proof.
  intros e s1 e1.
  assert (He1 : e1 = update_emission e (extract_all message s)) by reflexivity.
  rewrite He1, update_emission_fields.
  cbn [document_type currency id_type id_number items client_validated
       client_name].
  split; [intros ->; rewrite andb_false_r; reflexivity|].
  split; [intros ->; rewrite andb_false_r; split; reflexivity|].
  split; [destruct (merge_items_spec (items e)
                      (x_items (extract_all message s)))
            as [added [Hm _]]; now exists added|].
  split; [reflexivity|]. split; [reflexivity|]. split.
  - intros Hd. rewrite extracted_currency, Hd. reflexivity.
  - subst s1. unfold update_session. cbn [emission_data with_emission].
    change (extract_all message (with_emission _ s))
      with (extract_all message s).
    rewrite update_emission_idem. reflexivity.
Qed.

Lemma update_keeps_filled_slots_witness :
  document_type
    (emission_data (update_session reviewing
                      (extract_all (u "factura RUC 20161541991") reviewing)))
  = Some (u "03")
  /\ id_number
       (emission_data (update_session reviewing
                         (extract_all (u "factura RUC 20161541991") reviewing)))
     = Some (u "12345678").
Proof.
  pose proof (update_keeps_filled_slots (u "factura RUC 20161541991") reviewing)
    as H. cbv zeta in H. destruct H as [Hdoc [Hid _]].
  split.
  - rewrite Hdoc; reflexivity.
  - destruct Hid as [_ Hn]; [reflexivity|]. rewrite Hn. reflexivity.
Defined.

(** C4 as stated fails on the currency: a new emission has its currency
    slot populated with PEN, and the first utterance that names dollars
    changes it. *)
Lemma currency_slot_is_overwritten :
  currency (emission_data fresh) = Some (u "PEN")
  /\ emission_data (update_session fresh
                      (extract_all (u "3 laptops a 2500 dolares") fresh))
     = in_dollars
  /\ currency in_dollars = Some (u "USD").
Proof. by_computation. Qed.

(** ** Line items: one per key, in the order parsed *)

(** The item a match of [pattern1] or [pattern2] stands for, unless its
    quantity has five digits. *)
Definition candidate_counted (t : pystr) (m : rmatch) : list InvoiceItem :=
  if Nat.leb 5 (length (group_str t m 1)) then []
  else [{| cantidad := group_str t m 1;
           descripcion := strip (group_str t m 2);
           precio := replace (u ",") (u ".") (group_str t m 3) |}].

(** The item a match of [pattern3] stands for, unless it is a keyword. *)
Definition candidate_single (t : pystr) (m : rmatch) : list InvoiceItem :=
  if str_mem (lower (strip (group_str t m 1))) keywords3 then []
  else [{| cantidad := u "1";
           descripcion := strip (group_str t m 1);
           precio := replace (u ",") (u ".") (group_str t m 2) |}].

(** Everything parsed from the text, in the order the three loops meet it. *)
Definition parsed_candidates (t : pystr) : list InvoiceItem :=
  flat_map (candidate_counted t) (re_finditer true pattern1 t)
  ++ flat_map (candidate_counted t) (re_finditer true pattern2 t)
  ++ flat_map (candidate_single t) (re_finditer true pattern3 t).

Definition add_candidate (st : list InvoiceItem * list key) (i : InvoiceItem)
  : list InvoiceItem * list key :=
  add_item (cantidad i) (descripcion i) (precio i) st.

Lemma step_counted_candidates (t : pystr) (st : list InvoiceItem * list key)
    (m : rmatch) :
  step_counted t st m = fold_left add_candidate (candidate_counted t m) st.
Proof.
  unfold step_counted, candidate_counted.
  destruct (Nat.leb 5 _); reflexivity.
Qed.

Lemma step_single_candidates (t : pystr) (st : list InvoiceItem * list key)
    (m : rmatch) :
  step_single t st m = fold_left add_candidate (candidate_single t m) st.
Proof.
  unfold step_single, candidate_single.
  destruct (str_mem _ keywords3); reflexivity.
Qed.

Lemma fold_steps_candidates
    (step : list InvoiceItem * list key -> rmatch -> list InvoiceItem * list key)
    (cand : rmatch -> list InvoiceItem) :
  (forall st m, step st m = fold_left add_candidate (cand m) st) ->
  forall ms st,
    fold_left step ms st = fold_left add_candidate (flat_map cand ms) st.
Proof.
  intros Hstep. induction ms as [|m ms IH]; intros st; simpl; [reflexivity|].
  rewrite fold_left_app, <- Hstep. apply IH.
Qed.

Lemma priced_items_candidates (t : pystr) :
  priced_items t = fold_left add_candidate (parsed_candidates t) ([], []).
Proof.
  unfold priced_items, parsed_candidates. rewrite !fold_left_app.
  rewrite <- (fold_steps_candidates (step_counted t) (candidate_counted t)
                (step_counted_candidates t)).
  rewrite <- (fold_steps_candidates (step_counted t) (candidate_counted t)
                (step_counted_candidates t)).
  rewrite <- (fold_steps_candidates (step_single t) (candidate_single t)
                (step_single_candidates t)).
  reflexivity.
Qed.

(** The three loops keep [seen] equal to the keys of [items], never repeat
    a key, select in order, and represent every parsed item that has a
    description and a positive price. *)
Lemma add_fold (cands : list InvoiceItem) :
  forall its,
    NoDup (map item_key its) ->
    exists added,
      fold_left add_candidate cands (its, map item_key its)
      = (its ++ added, map item_key (its ++ added))
      /\ subseq added cands
      /\ NoDup (map item_key (its ++ added))
      /\ (forall c, In c cands ->
            nonempty (descripcion c) = true -> price_positive (precio c) = true ->
            In (item_key c) (map item_key (its ++ added))).
Proof.
  induction cands as [|c cands IH]; intros its Hnd; cbn [fold_left].
  - exists []. rewrite app_nil_r.
    split; [reflexivity|]. split; [apply subseq_nil|]. split; [exact Hnd|].
    intros ? [].
  - replace (add_candidate (its, map item_key its) c)
      with (add_item (cantidad c) (descripcion c) (precio c)
              (its, map item_key its)) by reflexivity.
    unfold add_item.
    change (lower (descripcion c), precio c) with (item_key c).
    destruct (negb (key_in (item_key c) (map item_key its))
              && nonempty (descripcion c) && price_positive (precio c)) eqn:Hok.
    + apply andb_true_iff in Hok as [Hok Hpos].
      apply andb_true_iff in Hok as [Hnew Hdesc].
      apply negb_true_iff, key_in_false in Hnew.
      assert (Hc : {| cantidad := cantidad c; descripcion := descripcion c;
                      precio := precio c |} = c) by (destruct c; reflexivity).
      rewrite Hc.
      match goal with
      | |- context [fold_left add_candidate cands (_, ?seen)] =>
        assert (Hseen : seen = map item_key (its ++ [c]))
          by (rewrite map_app; reflexivity);
        rewrite Hseen
      end.
      assert (Hnd' : NoDup (map item_key (its ++ [c]))).
      { rewrite map_app. apply NoDup_app; [exact Hnd| |].
        - constructor; [intros []|constructor].
        - intros k Hk [<-|[]]. now apply Hnew. }
      destruct (IH (its ++ [c]) Hnd') as [added [Heq [Hsub [Hnd2 Hall]]]].
      exists (c :: added). rewrite Heq, <- !app_assoc. simpl.
      split; [reflexivity|]. split; [now apply subseq_keep|].
      rewrite <- app_assoc in Hnd2. simpl in Hnd2. split; [exact Hnd2|].
      intros d [<-|Hd] Hdd Hdp.
      * rewrite map_app. apply in_or_app. right. now left.
      * specialize (Hall d Hd Hdd Hdp). rewrite <- app_assoc in Hall. exact Hall.
    + destruct (IH its Hnd) as [added [Heq [Hsub [Hnd2 Hall]]]].
      exists added. split; [exact Heq|]. split; [now apply subseq_skip|].
      split; [exact Hnd2|].
      intros d [<-|Hd] Hdd Hdp; [|now apply Hall].
      rewrite Hdd, Hdp, !andb_true_r in Hok.
      apply negb_false_iff, key_in_spec in Hok.
      rewrite map_app. apply in_or_app. now left.
Qed.


Lemma fst_pair {A B : Type} (a : A) (b : B) : fst (a, b) = a.
Proof. reflexivity. Qed.

Lemma extract_items_priced (message : pystr) (exclude_number : option pystr) :
  fst (_extract_items message exclude_number)
  = fst (priced_items (normalize message exclude_number)).
Proof. unfold _extract_items. cbv zeta. apply fst_pair. Qed.













(** ** Validation follows the ID *)

(** What holds of the emission data in every state the agent reaches: a
    validated client has an ID number, an ID number has its type, and a
    client name is kept only for a validated client. *)
Definition Inv (e : EmissionData) : Prop :=
  (client_validated e = true -> truthy (id_number e) = true)
  /\ (truthy (id_number e) = true -> truthy (id_type e) = true)
  /\ (client_validated e = false -> client_name e = None).

(** The ID and its validation are the same in both. *)
Definition same_client (e e' : EmissionData) : Prop :=
  id_type e' = id_type e /\ id_number e' = id_number e
  /\ client_validated e' = client_validated e
  /\ client_name e' = client_name e.

Definition cleared (e : EmissionData) : Prop :=
  client_validated e = false /\ client_name e = None.

(** The client stored in [s] was confirmed by [check_client] for the ID
    number stored in [s]. *)
Definition confirmed_by (svc : Service) (s : UserSession) : Prop :=
  exists c n name,
    id_number (emission_data s) = Some (c :: n)
    /\ check_client svc (phone s) (c :: n) = (true, name)
    /\ client_validated (emission_data s) = true
    /\ client_name (emission_data s) = Some name.

(** A change of the emission data that calls no service: it keeps the ID
    and its validation, or leaves the validation cleared. *)
Definition quiet (e e1 : EmissionData) : Prop :=
  Inv e -> Inv e1 /\ (same_client e e1 \/ cleared e1).

(** A change of the session in which a service may have been asked. *)
Definition tracks (svc : Service) (s s' : UserSession) : Prop :=
  Inv (emission_data s) ->
  phone s' = phone s
  /\ Inv (emission_data s')
  /\ (same_client (emission_data s) (emission_data s')
      \/ cleared (emission_data s')
      \/ confirmed_by svc s').

Ltac fields :=
  cbn [emission_data phone document_type currency id_type id_number items
       client_validated client_name with_emission with_awaiting_confirmation
       with_awaiting_client_reconfirmation with_pending_items
       with_selected_product with_context with_session_emissions
       set_document_type set_currency set_id set_items set_client
       reset_emission reset session_of calls_of reply_of fst snd] in *.

Lemma same_client_refl (e : EmissionData) : same_client e e.
Proof. repeat split. Qed.

Lemma same_client_trans (e e1 e2 : EmissionData) :
  same_client e e1 -> same_client e1 e2 -> same_client e e2.
Proof.
  intros [A [B [C D]]] [A' [B' [C' D']]].
  repeat split; congruence.
Qed.

Lemma Inv_same (e e1 : EmissionData) : same_client e e1 -> Inv e -> Inv e1.
Proof.
  intros [A [B [C D]]] [I1 [I2 I3]]. unfold Inv. rewrite A, B, C, D.
  repeat split; assumption.
Qed.

Lemma cleared_same (e1 e2 : EmissionData) :
  cleared e1 -> same_client e1 e2 -> cleared e2.
Proof.
  intros [A B] [_ [_ [C D]]]. unfold cleared. rewrite C, D. split; assumption.
Qed.

Lemma Inv_new : Inv EmissionData_new.
Proof. repeat split; try reflexivity; discriminate. Qed.

Lemma Inv_unvalidated (e : EmissionData) :
  Inv e -> truthy (id_number e) = false -> cleared e.
Proof.
  intros [I1 [_ I3]] Hno.
  assert (Hv : client_validated e = false).
  { destruct (client_validated e); [|reflexivity].
    rewrite (I1 eq_refl) in Hno. discriminate. }
  split; [exact Hv|now apply I3].
Qed.

Lemma quiet_refl (e : EmissionData) : quiet e e.
Proof. intros H. split; [exact H|left; apply same_client_refl]. Qed.

Lemma quiet_same (e e1 : EmissionData) : same_client e e1 -> quiet e e1.
Proof. intros Hs H. split; [now apply (Inv_same e)|now left]. Qed.

Lemma quiet_trans (e e1 e2 : EmissionData) :
  quiet e e1 -> quiet e1 e2 -> quiet e e2.
Proof.
  intros H1 H2 HI. destruct (H1 HI) as [HI1 Hc1].
  destruct (H2 HI1) as [HI2 Hc2]. split; [exact HI2|].
  destruct Hc2 as [Hs2|Hc2]; [|now right].
  destruct Hc1 as [Hs1|Hc1].
  - left. now apply (same_client_trans e e1).
  - right. now apply (cleared_same e1).
Qed.

(** Storing an ID where none was stored. *)
Lemma quiet_set_id (e : EmissionData) (ty num : option pystr) :
  truthy (id_number e) = false -> truthy ty = true ->
  quiet e (set_id ty num e).
Proof.
  intros Hno Hty HI. destruct (Inv_unvalidated e HI Hno) as [Hv Hn].
  split; [|right; split; assumption].
  unfold Inv. fields. rewrite Hv, Hn.
  repeat split; try discriminate. intros _. exact Hty.
Qed.

Lemma quiet_update_emission (e : EmissionData) (x : Extracted) :
  quiet e (update_emission e x).
Proof.
  rewrite update_emission_fields.
  destruct (truthy (x_id_type x) && negb (truthy (id_type e))) eqn:Hc.
  - intros HI. apply andb_true_iff in Hc as [Hxt Hno].
    apply negb_true_iff in Hno.
    assert (Hnum : truthy (id_number e) = false).
    { destruct HI as [_ [I2 _]]. destruct (truthy (id_number e)); [|reflexivity].
      rewrite (I2 eq_refl) in Hno. discriminate. }
    destruct (Inv_unvalidated e HI Hnum) as [Hv Hn].
    split; [|right; split; assumption].
    unfold Inv. fields. rewrite Hv, Hn.
    repeat split; try discriminate. intros _. exact Hxt.
  - apply quiet_same. repeat split.
Qed.

Lemma quiet_extract_from_message (e : EmissionData) (m : ConversationMessage) :
  quiet e (extract_from_message e m).
Proof.
  unfold extract_from_message.
  set (e1 := if negb (truthy (document_type e)) then _ else e).
  assert (H1 : quiet e e1).
  { subst e1. destruct (negb _); [|apply quiet_refl].
    destruct (contains _ _); [apply quiet_same; repeat split|].
    destruct (contains _ _); [apply quiet_same; repeat split|apply quiet_refl]. }
  clearbody e1.
  set (e2 := if negb (truthy (id_number e1)) then _ else e1).
  assert (H2 : quiet e1 e2).
  { subst e2. destruct (truthy (id_number e1)) eqn:Hn; [apply quiet_refl|].
    cbn [negb]. destruct (re_search _ _ _); [|apply quiet_refl].
    now apply quiet_set_id. }
  clearbody e2.
  set (e3 := if negb (truthy (id_number e2)) then _ else e2).
  assert (H3 : quiet e2 e3).
  { subst e3. destruct (truthy (id_number e2)) eqn:Hn; [apply quiet_refl|].
    cbn [negb]. destruct (re_search _ _ _); [|apply quiet_refl].
    destruct (_ <=? _)%N; [now apply quiet_set_id|apply quiet_refl]. }
  clearbody e3.
  assert (H4 : quiet e3 (if negb (has_items e3)
                         then set_items
                                (items e3 ++ conversation_items (content m)) e3
                         else e3)).
  { destruct (negb _); [apply quiet_same; repeat split|apply quiet_refl]. }
  exact (quiet_trans e e1 _ H1 (quiet_trans e1 e2 _ H2 (quiet_trans e2 e3 _ H3 H4))).
Qed.

Lemma quiet_fold_messages (l : list ConversationMessage) :
  forall e, quiet e (fold_left extract_from_message l e).
Proof.
  induction l as [|m l IH]; intros e; cbn [fold_left]; [apply quiet_refl|].
  apply (quiet_trans e (extract_from_message e m));
    [apply quiet_extract_from_message|apply IH].
Qed.

Lemma quiet_extract_from_conversation (s : UserSession) :
  quiet (emission_data s) (emission_data (_extract_from_conversation s)).
Proof.
  unfold _extract_from_conversation. fields.
  set (e1 := fold_left _ _ _).
  assert (H1 : quiet (emission_data s) e1) by apply quiet_fold_messages.
  clearbody e1.
  destruct (opt_is (id_type e1) "1" && negb (truthy (document_type e1)));
    [|exact H1].
  apply (quiet_trans _ e1); [exact H1|apply quiet_same; repeat split].
Qed.

Lemma quiet_backfill (s : UserSession) :
  quiet (emission_data s) (emission_data (backfill s))
  /\ phone (backfill s) = phone s.
Proof.
  unfold backfill. destruct (negb _).
  - split; [apply quiet_extract_from_conversation|reflexivity].
  - split; [apply quiet_refl|reflexivity].
Qed.

Lemma quiet_apply_pending_price (message : pystr) (s : UserSession) :
  quiet (emission_data s) (emission_data (apply_pending_price message s))
  /\ phone (apply_pending_price message s) = phone s.
Proof.
  unfold apply_pending_price.
  destruct (pending_items s); [split; [apply quiet_refl|reflexivity]|].
  destruct (_extract_price message); [|split; [apply quiet_refl|reflexivity]].
  split; [apply quiet_same; repeat split|reflexivity].
Qed.

(** Composition of session changes. *)
Lemma tracks_same (svc : Service) (s s' : UserSession) :
  phone s' = phone s -> emission_data s' = emission_data s -> tracks svc s s'.
Proof.
  intros Hp He HI. rewrite He. split; [exact Hp|]. split; [exact HI|].
  left. apply same_client_refl.
Qed.

Lemma tracks_after_quiet (svc : Service) (s s1 s' : UserSession) :
  quiet (emission_data s) (emission_data s1) -> phone s1 = phone s ->
  tracks svc s1 s' -> tracks svc s s'.
Proof.
  intros Hq Hp Ht HI. destruct (Hq HI) as [HI1 Hc1].
  destruct (Ht HI1) as [Hp' [HI' Hc']].
  split; [congruence|]. split; [exact HI'|].
  destruct Hc' as [Hs|[Hc|Hb]]; [|right; now left|right; now right].
  destruct Hc1 as [Hs1|Hc1].
  - left. now apply (same_client_trans _ (emission_data s1)).
  - right. left. now apply (cleared_same (emission_data s1)).
Qed.

Lemma tracks_reset (svc : Service) (s : UserSession) :
  tracks svc s (reset_emission s).
Proof.
  intros _. split; [reflexivity|]. split; [apply Inv_new|].
  right. left. split; reflexivity.
Qed.

Lemma session_of_pair (p : reply * UserSession) (c : list call) :
  session_of (let '(r, s') := p in (r, s', c)) = snd p.
Proof. destruct p; reflexivity. Qed.

Lemma generate_summary_session (s : UserSession) :
  snd (_generate_summary s) = with_awaiting_confirmation true s.
Proof. reflexivity. Qed.

Lemma request_rest_session (missing : list field) (s : UserSession) :
  phone (snd (request_rest missing s)) = phone s
  /\ emission_data (snd (request_rest missing s)) = emission_data s.
Proof.
  unfold request_rest. cbv zeta. destruct missing; [split; reflexivity|].
  destruct (field_in identificacion_cliente _); [split; reflexivity|].
  destruct (field_in productos _); [|split; reflexivity].
  destruct (_ && _); split; reflexivity.
Qed.

Lemma tracks_request_data (svc : Service) (missing : list field) (s : UserSession) :
  tracks svc s (snd (_request_data missing s)).
Proof.
  unfold _request_data. cbv zeta.
  destruct (field_in tipo_documento missing).
  - destruct (opt_is _ "1").
    + destruct (request_rest_session (remove_first tipo_documento missing)
                  (with_emission
                     (set_document_type (Some (u "03")) (emission_data s)) s))
        as [Hp He].
      intros HI. rewrite Hp, He. fields. split; [reflexivity|].
      split; [|left; repeat split].
      apply (Inv_same (emission_data s)); [repeat split|exact HI].
    + destruct (opt_is _ "6"); now apply tracks_same.
  - destruct (request_rest_session missing s) as [Hp He]. now apply tracks_same.
Qed.

Lemma tracks_validate (svc : Service) (s : UserSession) :
  tracks svc s (session_of (_validate_and_continue svc s)).
Proof.
  unfold _validate_and_continue. cbv zeta.
  destruct (id_number (emission_data s)) as [[|c n]|] eqn:Hid;
    try (apply tracks_same; reflexivity).
  destruct (check_client svc (phone s) (c :: n)) as [[|] result] eqn:Hcc;
    [|apply tracks_same; reflexivity].
  assert (Hgoal : tracks svc s
            (with_emission (set_client true (Some result) (emission_data s)) s)).
  { intros [I1 [I2 I3]]. split; [reflexivity|]. split.
    - unfold Inv. fields. rewrite Hid. repeat split; try discriminate.
      intros _. apply I2. now rewrite Hid.
    - right. right. exists c, n, result. fields. now rewrite Hid, Hcc. }
  destruct (has_items _); [|exact Hgoal].
  rewrite session_of_pair, generate_summary_session.
  intros HI. destruct (Hgoal HI) as [Hp [HI' Hc]].
  split; [exact Hp|]. split; [exact HI'|].
  destruct Hc as [Hs|[Hc|[c0 [n0 [nm H]]]]];
    [now left|right; now left|right; right; now exists c0, n0, nm].
Qed.

Lemma extract_document_number_type (message ty num : pystr) :
  _extract_document_number message = Some (ty, num) -> truthy (Some ty) = true.
Proof.
  unfold _extract_document_number. cbv zeta.
  destruct (re_search _ _ _).
  - intros H. injection H as <- _. reflexivity.
  - destruct (re_search _ _ _); [|discriminate].
    destruct (_ <=? _)%N; [|discriminate].
    intros H. injection H as <- _. reflexivity.
Qed.

(** The assignments of [_handle_client_reconfirmation] once a new document
    was read: the ID, the cleared validation, the flag. *)
Definition with_new_document (ty num : pystr) (s : UserSession) : UserSession :=
  with_awaiting_client_reconfirmation false
    (with_emission
       (set_client false None
          (set_id (Some ty) (Some num) (emission_data s))) s).

Lemma reconfirmation_revalidates (svc : Service) (message ty num : pystr)
    (s : UserSession) :
  _is_cancellation (strip (lower message)) = false ->
  _extract_document_number message = Some (ty, num) ->
  _handle_client_reconfirmation svc message s
  = _validate_and_continue svc (with_new_document ty num s).
Proof.
  intros Hc Hx. unfold _handle_client_reconfirmation. cbv zeta.
  rewrite Hc, Hx. reflexivity.
Qed.

Lemma tracks_reconfirmation (svc : Service) (message : pystr) (s : UserSession) :
  tracks svc s (session_of (_handle_client_reconfirmation svc message s)).
Proof.
  destruct (_is_cancellation (strip (lower message))) eqn:Hc.
  - unfold _handle_client_reconfirmation. cbv zeta. rewrite Hc.
    apply tracks_reset.
  - destruct (_extract_document_number message) as [[ty num]|] eqn:Hx.
    + rewrite (reconfirmation_revalidates svc message ty num s Hc Hx).
      apply (tracks_after_quiet svc s (with_new_document ty num s));
        [|reflexivity|apply tracks_validate].
      intros _. split; [|right; split; reflexivity].
      unfold Inv, with_new_document. fields.
      repeat split; try discriminate. intros _.
      exact (extract_document_number_type message ty num Hx).
    + unfold _handle_client_reconfirmation. cbv zeta. rewrite Hc, Hx.
      apply tracks_same; reflexivity.
Qed.

Lemma tracks_execute_emission (svc : Service) (now : Z) (s : UserSession) :
  tracks svc s (session_of (execute_emission svc now s)).
Proof.
  destruct (quiet_backfill s) as [Hq Hp].
  apply (tracks_after_quiet svc s (backfill s) _ Hq Hp).
  unfold execute_emission. cbv zeta.
  set (s1 := backfill s). clearbody s1.
  destruct (get_missing_fields (emission_data s1)) as [|f fs].
  - destruct (negb (client_validated (emission_data s1)));
      [apply tracks_validate|].
    destruct (emit_invoice svc _ _ _ _ _ _) as [resp|msg|];
      try (apply tracks_same; reflexivity).
    destruct (is_successful resp); [|apply tracks_same; reflexivity].
    intros _. split; [reflexivity|]. split; [apply Inv_new|].
    right. left. split; reflexivity.
  - rewrite session_of_pair. apply tracks_request_data.
Qed.

Lemma tracks_summary (svc : Service) (s : UserSession) (c : list call) :
  tracks svc s (session_of (let '(r, s') := _generate_summary s in (r, s', c))).
Proof.
  rewrite session_of_pair, generate_summary_session.
  apply tracks_same; reflexivity.
Qed.

Lemma tracks_check_missing (svc : Service) (message : pystr) (x : Extracted)
    (s : UserSession) :
  tracks svc s (session_of (check_missing svc message x s)).
Proof.
  unfold check_missing. cbv zeta.
  destruct (quiet_apply_pending_price message s) as [Hq Hp].
  apply (tracks_after_quiet svc s (apply_pending_price message s) _ Hq Hp).
  set (s1 := apply_pending_price message s). clearbody s1.
  destruct (_is_initial_request _ _ _); [apply tracks_same; reflexivity|].
  destruct (_ && _); [apply tracks_validate|].
  destruct (match get_missing_fields (emission_data s1) with
            | [] => true | _ => false end).
  { destruct (client_validated _); [apply tracks_summary|apply tracks_validate]. }
  destruct (_ && _); [apply tracks_same; reflexivity|].
  destruct (_ && _); [apply tracks_same; reflexivity|].
  rewrite session_of_pair. apply tracks_request_data.
Qed.

Lemma tracks_process_message (svc : Service) (message : pystr) (s : UserSession) :
  tracks svc s (session_of (process_message svc message s)).
Proof.
  unfold process_message. cbv zeta.
  destruct (_is_cancellation _); [apply tracks_reset|].
  destruct (awaiting_client_reconfirmation s); [apply tracks_reconfirmation|].
  set (confirms := str_mem _ _). clearbody confirms.
  set (s1 := if confirms then backfill s else s).
  assert (H1 : quiet (emission_data s) (emission_data s1) /\ phone s1 = phone s).
  { subst s1. destruct confirms; [apply quiet_backfill|].
    split; [apply quiet_refl|reflexivity]. }
  clearbody s1. destruct H1 as [Hq1 Hp1].
  apply (tracks_after_quiet svc s s1 _ Hq1 Hp1).
  destruct (confirms && _).
  { destruct (negb _); [apply tracks_validate|apply tracks_summary]. }
  destruct (str_mem _ _); [apply tracks_same; reflexivity|].
  destruct (str_mem _ _); [apply tracks_same; reflexivity|].
  set (x := extract_all message s1). clearbody x.
  set (s2 := update_session s1 x).
  assert (Hq2 : quiet (emission_data s1) (emission_data s2))
    by apply quiet_update_emission.
  assert (Hp2 : phone s2 = phone s1) by reflexivity.
  clearbody s2.
  apply (tracks_after_quiet svc s1 s2 _ Hq2 Hp2).
  pose proof (tracks_check_missing svc message x s2) as Hrest.
  destruct (x_items_sin_precio x) as [|item pend] eqn:Hsp; [exact Hrest|].
  destruct (x_items x) as [|i its] eqn:Hits; [|exact Hrest].
  apply tracks_same; reflexivity.
Qed.

(** The states the agent reaches: from a new session, by the emission
    handler, by the issuance, by a reset, and by everything else the
    orchestrator and the conversation handlers do, which leaves the emission
    data alone (messages, flags, contexts, pending items, the cached
    context). *)
Inductive step (s : UserSession) : UserSession -> Prop :=
| step_process svc message : step s (session_of (process_message svc message s))
| step_execute svc now : step s (session_of (execute_emission svc now s))
| step_reset : step s (reset_emission s)
| step_other s' : emission_data s' = emission_data s -> step s s'.

Inductive reachable : UserSession -> Prop :=
| reach_new ph now : reachable (UserSession_new ph now)
| reach_step s s' : reachable s -> step s s' -> reachable s'.

Lemma reachable_Inv (s : UserSession) : reachable s -> Inv (emission_data s).
Proof.
  induction 1 as [ph now|s s' Hr IH Hstep]; [apply Inv_new|].
  destruct Hstep as [svc message|svc now| |s' He].
  - now apply (tracks_process_message svc message s).
  - now apply (tracks_execute_emission svc now s).
  - apply Inv_new.
  - now rewrite He.
Qed.

Lemma changed_id_not_same (e e' : EmissionData) :
  id_number e' <> id_number e -> same_client e e' -> False.
Proof. intros Hne [_ [Hid _]]. now apply Hne. Qed.

Lemma quiet_changed_id (e e' : EmissionData) :
  Inv e -> quiet e e' -> id_number e' <> id_number e -> cleared e'.
Proof.
  intros HI Hq Hne. destruct (Hq HI) as [_ [Hs|Hc]]; [|exact Hc].
  destruct (changed_id_not_same e e' Hne Hs).
Qed.

Lemma tracks_changed_id (svc : Service) (s s' : UserSession) :
  Inv (emission_data s) -> tracks svc s s' ->
  id_number (emission_data s') <> id_number (emission_data s) ->
  cleared (emission_data s') \/ confirmed_by svc s'.
Proof.
  intros HI Ht Hne. destruct (Ht HI) as [_ [_ [Hs|Hc]]]; [|exact Hc].
  destruct (changed_id_not_same _ _ Hne Hs).
Qed.

(** C5. In every reachable state, [client_validated = true] implies that
    the ID number is not empty. Every operation that writes the ID number
    leaves the validation cleared when it changes the number:
    [update_session] and [_extract_from_conversation] (they write it only
    where none was stored), [reset_emission], and
    [_handle_client_reconfirmation], which stores the new document with
    [client_validated = False] and [client_name = None] and then validates
    that document. Over a whole [process_message] or [execute_emission] a
    changed ID number therefore ends unvalidated, or validated by
    [check_client] for the number now stored. *)
Theorem validation_follows_id :
  (forall s, reachable s ->
     client_validated (emission_data s) = true ->
     truthy (id_number (emission_data s)) = true)
  /\ (forall s x, reachable s ->
        id_number (emission_data (update_session s x))
        <> id_number (emission_data s) ->
        cleared (emission_data (update_session s x)))
  /\ (forall s, reachable s ->
        id_number (emission_data (_extract_from_conversation s))
        <> id_number (emission_data s) ->
        cleared (emission_data (_extract_from_conversation s)))
  /\ (forall s, cleared (emission_data (reset_emission s)))
  /\ (forall svc message ty num s,
        _is_cancellation (strip (lower message)) = false ->
        _extract_document_number message = Some (ty, num) ->
        id_number (emission_data (with_new_document ty num s)) = Some num
        /\ cleared (emission_data (with_new_document ty num s))
        /\ _handle_client_reconfirmation svc message s
           = _validate_and_continue svc (with_new_document ty num s))
  /\ (forall svc message s, reachable s ->
        id_number (emission_data (session_of (process_message svc message s)))
        <> id_number (emission_data s) ->
        cleared (emission_data (session_of (process_message svc message s)))
        \/ confirmed_by svc (session_of (process_message svc message s)))
  /\ (forall svc now s, reachable s ->
        id_number (emission_data (session_of (execute_emission svc now s)))
        <> id_number (emission_data s) ->
        cleared (emission_data (session_of (execute_emission svc now s)))
        \/ confirmed_by svc (session_of (execute_emission svc now s))).
Proof.
  split; [|split; [|split; [|split; [|split; [|split]]]]].
  - intros s Hr. now apply (reachable_Inv s Hr).
  - intros s x Hr. apply quiet_changed_id; [now apply reachable_Inv|].
    apply quiet_update_emission.
  - intros s Hr. apply quiet_changed_id; [now apply reachable_Inv|].
    apply quiet_extract_from_conversation.
  - intros s. split; reflexivity.
  - intros svc message ty num s Hc Hx. split; [reflexivity|].
    split; [split; reflexivity|]. now apply reconfirmation_revalidates.
  - intros svc message s Hr. apply tracks_changed_id; [now apply reachable_Inv|].
    apply tracks_process_message.
  - intros svc now s Hr. apply tracks_changed_id; [now apply reachable_Inv|].
    apply tracks_execute_emission.
Qed.

Lemma fresh_reachable : reachable fresh.
Proof.
  apply (reach_step (UserSession_new (u "51999888777") 0)).
  - apply reach_new.
  - apply step_other. reflexivity.
Qed.

Lemma validation_follows_id_witness :
  reachable not_found_turn
  /\ id_number (emission_data not_found_turn) = Some (u "11111111")
  /\ id_number
       (emission_data
          (session_of (process_message (svc_found "MARIA QUISPE" accepted)
                         (u "87654321") not_found_turn)))
     = Some (u "87654321")
  /\ (cleared
        (emission_data
           (session_of (process_message (svc_found "MARIA QUISPE" accepted)
                          (u "87654321") not_found_turn)))
      \/ confirmed_by (svc_found "MARIA QUISPE" accepted)
           (session_of (process_message (svc_found "MARIA QUISPE" accepted)
                          (u "87654321") not_found_turn))).
Proof.
  assert (Hr : reachable not_found_turn).
  { apply (reach_step fresh); [apply fresh_reachable|].
    apply (step_process fresh svc_missing (u "Boleta 11111111, 1 libro a 40")). }
  split; [exact Hr|]. split; [vm_compute; reflexivity|].
  split; [vm_compute; reflexivity|].
  destruct validation_follows_id as [_ [_ [_ [_ [_ [Hprocess _]]]]]].
  apply (Hprocess (svc_found "MARIA QUISPE" accepted) (u "87654321")
           not_found_turn Hr).
  intros Heq. vm_compute in Heq. discriminate Heq.
Defined.

(** The pattern tables of the classifier are all inside the grammar. *)
Lemma classifier_patterns_parse :
  forallb (fun p => is_some (parse (u p)))
    (AFFIRMATIVE ++ NEGATIVE ++ EMISSION ++ PRODUCTS ++ CLIENTS ++ HISTORY
     ++ GENERAL_QUESTIONS ++ GREETING_PATTERNS ++ PRODUCT_SEARCH) = true.
Proof. vm_compute. reflexivity. Qed.

(** ** After a terminal success or a cancel *)

(** A successful issuance records one emission and resets: afterwards the
    emission data is the initial one and both waiting flags are false; a
    cancellation word in [process_message] resets in the same way and calls
    no service. *)
Theorem terminal_states_reset
    (svc : Service) (now : Z) (s : UserSession) (resp : InvoiceResponse) :
  (ready (emission_data (backfill s)) = true ->
   emit_invoice svc (client_data s)
     (document_type (emission_data (backfill s)))
     (currency (emission_data s))
     (id_type (emission_data (backfill s)))
     (id_number (emission_data (backfill s)))
     (items (emission_data (backfill s))) = Emitted resp ->
   is_successful resp = true ->
   emission_data (session_of (execute_emission svc now s)) = EmissionData_new
   /\ awaiting_confirmation (session_of (execute_emission svc now s)) = false
   /\ awaiting_client_reconfirmation (session_of (execute_emission svc now s))
      = false
   /\ exists record,
        session_emissions (session_of (execute_emission svc now s))
        = session_emissions s ++ [record]
        /\ serie_numero record = get_full_number resp
        /\ client_id record = id_number (emission_data (backfill s)))
  /\ (forall message,
        _is_cancellation (strip (lower message)) = true ->
        process_message svc message s = (CANCELLED, reset_emission s, [])
        /\ emission_data (reset_emission s) = EmissionData_new
        /\ awaiting_confirmation (reset_emission s) = false
        /\ awaiting_client_reconfirmation (reset_emission s) = false).
Proof.
  split.
  - intros Hready Hemit Hok.
    destruct (backfill_keeps_rest s) as [Hcd [Hcur _]].
    rewrite <- Hcur, <- Hcd in Hemit.
    assert (Hrec : session_emissions (backfill s) = session_emissions s).
    { unfold backfill. destruct (negb _); reflexivity. }
    unfold ready in Hready. apply andb_true_iff in Hready as [Hall Hv].
    apply no_missing_fields in Hall.
    unfold execute_emission. rewrite Hall, Hv. cbn [negb]. cbv iota.
    rewrite Hemit, Hok. cbv zeta.
    split; [reflexivity|]. split; [reflexivity|]. split; [reflexivity|].
    eexists. fields. unfold record_emission. fields.
    rewrite Hrec. split; [reflexivity|]. split; reflexivity.
  - intros message Hc. unfold process_message. cbv zeta. rewrite Hc.
    repeat split; reflexivity.
Qed.

Lemma terminal_states_reset_witness :
  emission_data
    (session_of (execute_emission (svc_found "JUAN PEREZ" accepted) 0 reviewing))
  = EmissionData_new
  /\ length (session_emissions
               (session_of (execute_emission (svc_found "JUAN PEREZ" accepted)
                              0 reviewing))) = 1
  /\ process_message svc_down (u "cancelar") reviewing
     = (CANCELLED, reset_emission reviewing, []).
Proof.
  destruct (terminal_states_reset (svc_found "JUAN PEREZ" accepted) 0 reviewing
              accepted) as [Hok Hcancel].
  split; [apply Hok; vm_compute; reflexivity|].
  split; [vm_compute; reflexivity|].
  apply (Hcancel (u "cancelar")). vm_compute. reflexivity.
Defined.

(** ** The message history *)

Lemma last_n_length {A : Type} (n : nat) (l : list A) :
  length (last_n n l) <= n.
Proof. unfold last_n. rewrite length_skipn. lia. Qed.

(** After [add_message] the history holds at most twenty messages, the
    newest last. *)
Theorem history_is_bounded
    (now : Z) (who : Role) (text : pystr) (intent : option pystr)
    (s : UserSession) :
  length (messages (add_message now who text intent s)) <= 20
  /\ exists older,
       messages (add_message now who text intent s)
       = older ++ [{| role := who; content := text; msg_timestamp := now;
                      intent := intent |}].
Proof.
  unfold add_message. cbn [messages].
  set (m := {| role := who; content := text; msg_timestamp := now;
               intent := intent |}).
  destruct (Nat.ltb 20 (length (messages s ++ [m]))) eqn:Hlen.
  - split; [apply last_n_length|].
    unfold last_n. rewrite length_app in *. cbn [length] in *.
    apply Nat.ltb_lt in Hlen.
    rewrite skipn_app.
    replace (length (messages s) + 1 - 20 - length (messages s)) with 0 by lia.
    cbn [skipn]. now eexists.
  - apply Nat.ltb_ge in Hlen. split; [exact Hlen|]. now eexists.
Qed.

(* ================================================================= *)
(** * Beyond the claims *)

(** ** What a match tells about the text *)

(** [iter R n s w s']: [n] runs of [R] in a row, from [s] to [s'], over
    the text [w]. *)
Inductive iter (R : mstate -> pystr -> mstate -> Prop)
  : nat -> mstate -> pystr -> mstate -> Prop :=
| iter_O s : iter R 0 s [] s
| iter_S n s w1 s1 w2 s2 :
    R s w1 s1 -> iter R n s1 w2 s2 -> iter R (S n) s (w1 ++ w2) s2.

Scheme All for iter.

(** [run ic r s w s']: from the state [s] the pattern [r] can match the
    text [w], which leaves the matcher in [s']. *)
Inductive run (ic : bool) : re -> mstate -> pystr -> mstate -> Prop :=
| run_eps s : run ic Eps s [] s
| run_any s c tl :
    m_rest s = c :: tl -> (c =? 10)%N = false -> run ic Any s [c] (advance s c tl)
| run_cls neg items s c tl :
    m_rest s = c :: tl -> class_accepts ic neg items c = true ->
    run ic (Cls neg items) s [c] (advance s c tl)
| run_bol s : m_pos s = 0 -> run ic Bol s [] s
| run_eol s : m_rest s = [] \/ m_rest s = [10%N] -> run ic Eol s [] s
| run_wordb s : at_wordb s = true -> run ic WordB s [] s
| run_cat a b s w1 s1 w2 s2 :
    run ic a s w1 s1 -> run ic b s1 w2 s2 -> run ic (Cat a b) s (w1 ++ w2) s2
| run_alt_l a b s w s' : run ic a s w s' -> run ic (Alt a b) s w s'
| run_alt_r a b s w s' : run ic b s w s' -> run ic (Alt a b) s w s'
| run_rep a lo hi greedy n s w s' :
    lo <= n -> (forall h, hi = Some h -> n <= lo + (h - lo)) ->
    iter (run ic a) n s w s' -> run ic (Rep a lo hi greedy) s w s'
| run_group n a s w s' :
    run ic a s w s' -> run ic (Group n a) s w (set_cap n (m_pos s) (m_pos s') s')
| run_look a s w s' : run ic a s w s' -> run ic (Look a) s [] s.

Lemma iter_app (R : mstate -> pystr -> mstate -> Prop) n m s w1 s1 w2 s2 :
  iter R n s w1 s1 -> iter R m s1 w2 s2 -> iter R (n + m) s (w1 ++ w2) s2.
Proof.
  intros H1 H2. induction H1 as [s|n s wa sa wb sb Ha Hb IH]; [exact H2|].
  rewrite <- app_assoc. cbn [Nat.add]. eapply iter_S; [exact Ha|]. now apply IH.
Qed.

(** A continuation-passing matcher is sound for a relation when every
    result it gives went through the continuation after a run. *)
Definition sound (ma : K -> K) (R : mstate -> pystr -> mstate -> Prop) : Prop :=
  forall k s res, ma k s = Some res -> exists w s', R s w s' /\ k s' = Some res.

Lemma rep_min_sound ma R (n : nat) :
  sound ma R -> sound (rep_min ma n) (iter R n).
Proof.
  intros Hs. induction n as [|n IH]; intros k s res H; cbn [rep_min] in H.
  - exists [], s. split; [constructor|exact H].
  - apply Hs in H as (w1 & s1 & Hr & H).
    apply IH in H as (w2 & s2 & Hi & H).
    exists (w1 ++ w2), s2. split; [|exact H]. eapply iter_S; eassumption.
Qed.

Lemma rep_opt_sound ma R (greedy : bool) (n : nat) :
  sound ma R ->
  forall k s res, rep_opt ma greedy n k s = Some res ->
  exists m w s', m <= n /\ iter R m s w s' /\ k s' = Some res.
Proof.
  intros Hs. induction n as [|n IH]; intros k s res H; cbn [rep_opt] in H.
  - exists 0, [], s. split; [lia|]. split; [constructor|exact H].
  - assert (Hagain :
      forall res',
        ma (fun s' => if Nat.ltb (m_pos s) (m_pos s')
                      then rep_opt ma greedy n k s' else None) s = Some res' ->
        exists m w s', m <= S n /\ iter R m s w s' /\ k s' = Some res').
    { intros res' H'. apply Hs in H' as (w1 & s1 & Hr & H').
      destruct (Nat.ltb (m_pos s) (m_pos s1)); [|discriminate].
      apply IH in H' as (m & w2 & s2 & Hm & Hi & H').
      exists (S m), (w1 ++ w2), s2. split; [lia|]. split; [|exact H'].
      eapply iter_S; eassumption. }
    assert (Hstop :
      forall res', k s = Some res' ->
        exists m w s', m <= S n /\ iter R m s w s' /\ k s' = Some res').
    { intros res' H'. exists 0, [], s. split; [lia|].
      split; [constructor|exact H']. }
    destruct greedy.
    + destruct (ma _ s) as [r|] eqn:E.
      * injection H as <-. now apply Hagain.
      * now apply Hstop.
    + destruct (k s) as [r|] eqn:E.
      * injection H as <-. now apply Hstop.
      * now apply Hagain.
Qed.

Lemma mrun_sound (ic : bool) (r : re) : sound (mrun ic r) (run ic r).
Proof.
  induction r as [| |neg items| | | |a IHa b IHb|a IHa b IHb|a IHa lo hi greedy
                 |n a IHa|a IHa]; intros k s res H; cbn [mrun] in H.
  - exists [], s. split; [constructor|exact H].
  - destruct (m_rest s) as [|c tl] eqn:E; [discriminate|].
    destruct (c =? 10)%N eqn:Ec; [discriminate|].
    exists [c], (advance s c tl). split; [now constructor|exact H].
  - destruct (m_rest s) as [|c tl] eqn:E; [discriminate|].
    destruct (class_accepts ic neg items c) eqn:Ec; [|discriminate].
    exists [c], (advance s c tl). split; [now constructor|exact H].
  - destruct (Nat.eqb (m_pos s) 0) eqn:E; [|discriminate].
    apply Nat.eqb_eq in E. exists [], s. split; [now constructor|exact H].
  - destruct (m_rest s) as [|c [|c' tl]] eqn:E; try discriminate.
    + exists [], s. split; [constructor; now left|exact H].
    + destruct (c =? 10)%N eqn:Ec; [|discriminate]. apply N.eqb_eq in Ec.
      subst c. exists [], s. split; [constructor; now right|exact H].
  - destruct (at_wordb s) eqn:E; [|discriminate].
    exists [], s. split; [now constructor|exact H].
  - apply IHa in H as (w1 & s1 & H1 & H). apply IHb in H as (w2 & s2 & H2 & H).
    exists (w1 ++ w2), s2. split; [|exact H]. econstructor; eassumption.
  - destruct (mrun ic a k s) as [x|] eqn:E.
    + injection H as <-. apply IHa in E as (w & s' & Hr & E).
      exists w, s'. split; [now apply run_alt_l|exact E].
    + apply IHb in H as (w & s' & Hr & H).
      exists w, s'. split; [now apply run_alt_r|exact H].
  - apply (rep_min_sound _ _ lo IHa) in H as (w1 & s1 & H1 & H).
    apply (rep_opt_sound _ _ greedy _ IHa) in H as (m & w2 & s2 & Hm & H2 & H).
    exists (w1 ++ w2), s2. split; [|exact H].
    apply (run_rep ic a lo hi greedy (lo + m)); [lia| |].
    + intros h ->. lia.
    + eapply iter_app; eassumption.
  - apply IHa in H as (w & s' & Hr & H).
    exists w, (set_cap n (m_pos s) (m_pos s') s'). split; [|exact H].
    now constructor.
  - destruct (mrun ic a Some s) as [x|] eqn:E; [|discriminate].
    apply IHa in E as (w & s' & Hr & _).
    exists [], s. split; [|exact H]. econstructor; exact Hr.
Qed.

(** A run consumes its text from the front of the rest and moves the
    position by its length. *)
Definition consumes (R : mstate -> pystr -> mstate -> Prop) : Prop :=
  forall s w s', R s w s' ->
    m_rest s = w ++ m_rest s' /\ m_pos s' = m_pos s + length w.

Lemma iter_consumes R (n : nat) : consumes R -> consumes (iter R n).
Proof.
  intros HR s w s' H. induction H as [s|n s w1 s1 w2 s2 H1 H2 IH].
  - split; [reflexivity|cbn [length]; lia].
  - apply HR in H1 as [E1 P1]. destruct IH as [E2 P2].
    rewrite E1, E2, <- app_assoc, length_app. split; [reflexivity|lia].
Qed.

Lemma run_consumes (ic : bool) (r : re) : consumes (run ic r).
Proof.
  induction r as [| |neg items| | | |a IHa b IHb|a IHa b IHb|a IHa lo hi greedy
                 |n a IHa|a IHa]; intros s w s' H; inversion H; subst;
    cbn [advance set_cap m_rest m_pos length app]; try (split; [assumption|lia]);
    try (split; [reflexivity|lia]).
  - match goal with
    | H1 : run ic a _ _ _, H2 : run ic b _ _ _ |- _ =>
      apply IHa in H1 as [E1 P1]; apply IHb in H2 as [E2 P2]
    end.
    rewrite E1, E2, <- app_assoc, length_app. split; [reflexivity|lia].
  - now apply IHa.
  - now apply IHb.
  - match goal with
    | H1 : iter _ _ _ _ _ |- _ => exact (iter_consumes _ _ IHa _ _ _ H1)
    end.
  - now apply IHa.
Qed.

(** The state of the matcher at position [m_pos] of the subject [t]. *)
Definition on_text (t : pystr) (s : mstate) : Prop := m_rest s = skipn (m_pos s) t.

Lemma skipn_step {A : Type} (t : list A) (pos : nat) (c : A) (tl : list A) :
  skipn pos t = c :: tl -> skipn (S pos) t = tl.
Proof.
  revert t; induction pos as [|pos IH]; intros [|x t] H; cbn [skipn] in *;
    try discriminate.
  - now injection H as _ ->.
  - now apply IH.
Qed.

Lemma skipn_add {A : Type} (t : list A) (pos : nat) (w rest : list A) :
  skipn pos t = w ++ rest -> skipn (pos + length w) t = rest.
Proof.
  revert pos; induction w as [|c w IH]; intros pos H; cbn [length app] in *.
  - now rewrite Nat.add_0_r.
  - replace (pos + S (length w)) with (S pos + length w) by lia.
    apply IH. now apply (skipn_step t pos c).
Qed.

Lemma on_text_run (ic : bool) (r : re) (t : pystr) (s s' : mstate) (w : pystr) :
  on_text t s -> run ic r s w s' ->
  on_text t s' /\ substr t (m_pos s) (m_pos s') = w.
Proof.
  unfold on_text. intros Hs Hr. apply run_consumes in Hr as [E P].
  rewrite Hs in E. split.
  - rewrite P. symmetry. now apply skipn_add.
  - unfold substr. rewrite P, E.
    replace (m_pos s + length w - m_pos s) with (length w + 0) by lia.
    rewrite firstn_app_2. cbn [firstn]. apply app_nil_r.
Qed.

(** [m] is a match of [r] somewhere in [t]: a run from a state on the
    text with no group set, whose ends and groups [m] records. *)
Definition match_of (ic : bool) (r : re) (t : pystr) (m : rmatch) : Prop :=
  exists s0 w,
    on_text t s0 /\ m_caps s0 = [] /\ mt_start m = m_pos s0
    /\ run ic r s0 w (mt_after m)
    /\ mt_end m = m_pos (mt_after m) /\ mt_caps m = m_caps (mt_after m).

Lemma try_at_sound ic r t prev rest pos m :
  rest = skipn pos t -> try_at ic r prev rest pos = Some m -> match_of ic r t m.
Proof.
  intros Hrest H. unfold try_at in H.
  destruct (mrun ic r Some _) as [s'|] eqn:E; [|discriminate].
  injection H as <-. apply mrun_sound in E as (w & s1 & Hr & E).
  injection E as ->.
  exists {| m_prev := prev; m_rest := rest; m_pos := pos; m_caps := [] |}, w.
  cbn [mt_start mt_end mt_caps mt_after]. split; [exact Hrest|]. split; [reflexivity|]. split; [reflexivity|].
  split; [exact Hr|]. split; reflexivity.
Qed.

Lemma search_at_sound ic r t rest :
  forall prev pos m,
    rest = skipn pos t -> search_at ic r prev rest pos = Some m ->
    match_of ic r t m.
Proof.
  induction rest as [|c tl IH]; intros prev pos m Hrest H; cbn [search_at] in H.
  - destruct (try_at ic r prev [] pos) as [m'|] eqn:E; [|discriminate].
    injection H as <-. now apply (try_at_sound ic r t prev [] pos).
  - destruct (try_at ic r prev (c :: tl) pos) as [m'|] eqn:E.
    + injection H as <-. now apply (try_at_sound ic r t prev (c :: tl) pos).
    + apply (IH (Some c) (S pos)); [|exact H].
      symmetry. apply (skipn_step t pos c). now symmetry.
Qed.

Lemma re_search_sound ic r t m : re_search ic r t = Some m -> match_of ic r t m.
Proof. apply search_at_sound. reflexivity. Qed.

Lemma match_of_after ic r t m : match_of ic r t m -> on_text t (mt_after m).
Proof.
  intros (s0 & w & Hs & _ & _ & Hr & _). now apply (on_text_run ic r t s0 _ w).
Qed.

Lemma finditer_from_sound ic r t (fuel : nat) :
  forall prev rest pos m,
    rest = skipn pos t -> In m (finditer_from fuel ic r prev rest pos) ->
    match_of ic r t m.
Proof.
  induction fuel as [|f IH]; intros prev rest pos m Hrest H;
    cbn [finditer_from] in H; [destruct H|].
  destruct (search_at ic r prev rest pos) as [m0|] eqn:E; [|destruct H].
  apply (search_at_sound ic r t rest prev pos m0 Hrest) in E.
  pose proof (match_of_after ic r t m0 E) as Hafter. unfold on_text in Hafter.
  destruct H as [<-|H]; [exact E|].
  destruct (Nat.ltb (mt_start m0) (mt_end m0)).
  - exact (IH _ _ _ m Hafter H).
  - destruct (m_rest (mt_after m0)) as [|c tl] eqn:Er; [destruct H|].
    apply (IH (Some c) tl (S (m_pos (mt_after m0))) m); [|exact H].
    symmetry. now apply (skipn_step t _ c).
Qed.

Lemma re_finditer_sound ic r t m : In m (re_finditer ic r t) -> match_of ic r t m.
Proof. apply finditer_from_sound. reflexivity. Qed.

(** Runs of the constructs the ID patterns are made of. *)
Lemma run_cat_inv ic a b s w s2 :
  run ic (Cat a b) s w s2 ->
  exists w1 s1 w2, w = w1 ++ w2 /\ run ic a s w1 s1 /\ run ic b s1 w2 s2.
Proof.
  intros H. inversion H; subst. eexists _, _, _.
  split; [reflexivity|]. split; eassumption.
Qed.

Lemma run_group_inv ic n a s w s' :
  run ic (Group n a) s w s' ->
  exists s1, run ic a s w s1 /\ s' = set_cap n (m_pos s) (m_pos s1) s1.
Proof. intros H. inversion H; subst. eexists. split; [eassumption|reflexivity]. Qed.

Lemma run_cls_inv ic neg items s w s' :
  run ic (Cls neg items) s w s' ->
  exists c, w = [c] /\ class_accepts ic neg items c = true
            /\ m_caps s' = m_caps s.
Proof.
  intros H. inversion H; subst. eexists.
  split; [reflexivity|]. split; [assumption|reflexivity].
Qed.

Lemma run_empty_inv ic r s w s' :
  r = WordB \/ r = Bol \/ r = Eol ->
  run ic r s w s' -> w = [] /\ s' = s.
Proof. intros [->|[->| ->]] H; inversion H; subst; now split. Qed.

Lemma run_alt_inv ic a b s w s' :
  run ic (Alt a b) s w s' -> run ic a s w s' \/ run ic b s w s'.
Proof. intros H. inversion H; subst; [now left|now right]. Qed.

Lemma iter_cls ic neg items n s w s' :
  iter (run ic (Cls neg items)) n s w s' ->
  length w = n /\ forallb (class_accepts ic neg items) w = true.
Proof.
  intros H. induction H as [s|n s w1 s1 w2 s2 H1 H2 [IHl IHf]].
  - now split.
  - apply run_cls_inv in H1 as (c & -> & Hc & _).
    cbn [app length forallb]. rewrite Hc, IHf, IHl. now split.
Qed.

Lemma run_exactly_inv ic neg items n g s w s' :
  run ic (Rep (Cls neg items) n (Some n) g) s w s' ->
  length w = n /\ forallb (class_accepts ic neg items) w = true.
Proof.
  intros H. inversion H as [| | | | | | | | |a lo hi g' k s0 w0 s0' Hlo Hhi Hit| |];
    subst.
  apply iter_cls in Hit as [Hl Hf]. specialize (Hhi n eq_refl).
  split; [lia|exact Hf].
Qed.

(** The shapes of the two kinds of document number. *)
Definition dni_shaped (n : pystr) : bool :=
  Nat.eqb (length n) 8 && forallb is_digit n.

Definition ruc_shaped (n : pystr) : bool :=
  match n with
  | a :: b :: rest =>
    ((a =? 49)%N || (a =? 50)%N) && (b =? 48)%N
    && Nat.eqb (length rest) 9 && forallb is_digit rest
  | _ => false
  end.

Lemma digits_class (w : pystr) :
  forallb (class_accepts false false [IDigit]) w = forallb is_digit w.
Proof.
  induction w as [|c w IH]; [reflexivity|]. cbn [forallb]. rewrite IH.
  unfold class_accepts. cbn [existsb item_accepts xorb].
  now rewrite orb_false_r.
Qed.

Lemma run_dni_digits s w s' :
  run false (Rep (Cls false [IDigit]) 8 (Some 8) true) s w s' ->
  dni_shaped w = true.
Proof.
  intros H. apply run_exactly_inv in H as [Hl Hf]. rewrite digits_class in Hf.
  unfold dni_shaped. now rewrite Hl, Hf.
Qed.

Lemma run_ruc_digits s w s' :
  run false
    (Cat (Cls false [IChar 49; IChar 50])
       (Cat (Cls false [IChar 48]) (Rep (Cls false [IDigit]) 9 (Some 9) true)))
    s w s' ->
  ruc_shaped w = true.
Proof.
  intros H. apply run_cat_inv in H as (w1 & s1 & w' & -> & H1 & H).
  apply run_cat_inv in H as (w2 & s2 & w3 & -> & H2 & H3).
  apply run_cls_inv in H1 as (a & -> & Ha & _).
  apply run_cls_inv in H2 as (b & -> & Hb & _).
  apply run_exactly_inv in H3 as [Hl Hf]. rewrite digits_class in Hf.
  unfold class_accepts in Ha, Hb. cbn [existsb item_accepts xorb] in Ha, Hb.
  rewrite orb_false_r in Ha, Hb.
  cbn [app ruc_shaped]. now rewrite Ha, Hb, Hl, Hf.
Qed.

(** Patterns that set no group. *)
Fixpoint capless (r : re) : bool :=
  match r with
  | Group _ _ => false
  | Cat a b | Alt a b => capless a && capless b
  | Rep a _ _ _ => capless a
  | _ => true
  end.

Lemma iter_caps R (n : nat) :
  (forall s w s', R s w s' -> m_caps s' = m_caps s) ->
  forall s w s', iter R n s w s' -> m_caps s' = m_caps s.
Proof.
  intros HR s w s' H. induction H as [s|n s w1 s1 w2 s2 H1 H2 IH];
    [reflexivity|].
  rewrite IH. exact (HR _ _ _ H1).
Qed.

Lemma capless_run ic (r : re) :
  capless r = true -> forall s w s', run ic r s w s' -> m_caps s' = m_caps s.
Proof.
  induction r as [| |neg items| | | |a IHa b IHb|a IHa b IHb|a IHa lo hi greedy
                 |n a IHa|a IHa]; intros Hc s w s' H; cbn [capless] in Hc;
    try discriminate; try apply andb_true_iff in Hc as [Ha Hb];
    inversion H; subst; try reflexivity.
  - match goal with
    | H1 : run ic a _ _ _, H2 : run ic b _ _ _ |- _ =>
      rewrite (IHb Hb _ _ _ H2); exact (IHa Ha _ _ _ H1)
    end.
  - now apply (IHa Ha _ w).
  - now apply (IHb Hb _ w).
  - match goal with
    | H1 : iter _ _ _ _ _ |- _ => exact (iter_caps _ _ (IHa Hc) _ _ _ H1)
    end.
Qed.

(** [frames g r]: the pattern [r] is a sequence that ends in group 1, made
    of [g], and a part that sets no group. *)
Inductive frames (g : re) : re -> Prop :=
| frames_here suf : capless suf = true -> frames g (Cat (Group 1 g) suf)
| frames_cat p r : frames g r -> frames g (Cat p r).

Lemma group_str_first t m (a b : nat) rest :
  mt_caps m = (1, (a, b)) :: rest -> group_str t m 1 = substr t a b.
Proof. intros H. unfold group_str, group. now rewrite H. Qed.

Lemma framed_run ic t (g r : re) :
  frames g r ->
  forall s0 w s', on_text t s0 -> run ic r s0 w s' ->
  exists s1 s2 a b rest,
    m_caps s' = (1, (a, b)) :: rest /\ run ic g s1 (substr t a b) s2.
Proof.
  induction 1 as [suf Hsuf|p r Hf IH]; intros s0 w s' Hs Hr;
    apply run_cat_inv in Hr as (w1 & s1 & w2 & -> & H1 & H2).
  - apply run_group_inv in H1 as (s1' & Hg & ->).
    rewrite (capless_run ic suf Hsuf _ _ _ H2). cbn [set_cap m_caps].
    exists s0, s1', (m_pos s0), (m_pos s1'), (m_caps s1').
    split; [reflexivity|].
    destruct (on_text_run ic g t s0 s1' w1 Hs Hg) as [_ ->]. exact Hg.
  - destruct (on_text_run ic p t s0 s1 w1 Hs H1) as [Hs1 _].
    exact (IH s1 w2 s' Hs1 H2).
Qed.

(** Group 1 of a match of such a pattern is a text that [g] matches. *)
Lemma framed_match ic t (g r : re) (m : rmatch) :
  frames g r -> match_of ic r t m ->
  exists s1 s2, run ic g s1 (group_str t m 1) s2.
Proof.
  intros Hf (s0 & w & Hs & _ & _ & Hr & _ & Hcaps).
  destruct (framed_run ic t g r Hf s0 w _ Hs Hr)
    as (s1 & s2 & a & b & rest & Hc & Hg).
  rewrite Hc in Hcaps. rewrite (group_str_first t m a b rest Hcaps).
  now exists s1, s2.
Qed.

Ltac framed := repeat first [apply frames_here; reflexivity | apply frames_cat].

Definition dni_digits : re := Rep (Cls false [IDigit]) 8 (Some 8) true.

Definition ruc_digits : re :=
  Cat (Cls false [IChar 49; IChar 50])
    (Cat (Cls false [IChar 48]) (Rep (Cls false [IDigit]) 9 (Some 9) true)).

Lemma dni_match r t m :
  frames dni_digits r -> match_of false r t m -> dni_shaped (group_str t m 1) = true.
Proof.
  intros Hf Hm. destruct (framed_match false t _ r m Hf Hm) as (s1 & s2 & Hg).
  exact (run_dni_digits _ _ _ Hg).
Qed.

Lemma ruc_match r t m :
  frames ruc_digits r -> match_of false r t m -> ruc_shaped (group_str t m 1) = true.
Proof.
  intros Hf Hm. destruct (framed_match false t _ r m Hf Hm) as (s1 & s2 & Hg).
  exact (run_ruc_digits _ _ _ Hg).
Qed.

Definition id_shaped (ty num : pystr) : bool :=
  (str_eqb ty (u "1") && dni_shaped num) || (str_eqb ty (u "6") && ruc_shaped num).

Lemma extract_id_shaped (message ty num : pystr) :
  _extract_id message = Some (ty, num) -> id_shaped ty num = true.
Proof.
  unfold _extract_id. cbv zeta.
  destruct (re_search false _ (upper message)) as [m|] eqn:E1.
  { intros H. injection H as <- <-. apply re_search_sound in E1.
    apply dni_match in E1; [|framed].
    unfold id_shaped. rewrite E1. reflexivity. }
  clear E1.
  destruct (re_search false _ (upper message)) as [m|] eqn:E2.
  { intros H. injection H as <- <-. apply re_search_sound in E2.
    apply ruc_match in E2; [|framed].
    unfold id_shaped. rewrite E2. apply orb_true_r. }
  clear E2.
  destruct (re_search false _ message) as [m|] eqn:E3.
  { intros H. injection H as <- <-. apply re_search_sound in E3.
    apply ruc_match in E3; [|framed].
    unfold id_shaped. rewrite E3. apply orb_true_r. }
  clear E3.
  destruct (filter _ _) as [|n l] eqn:E4; [discriminate|].
  intros H. injection H as <- <-.
  assert (Hin : In n (filter (fun num => (1000000 <=? int_of_digits num)%N)
                        (findall1 false
                           (rx "(?:^|[^\d])(\d{8})(?:[^\d]|$)") message))).
  { rewrite E4. now left. }
  apply filter_In in Hin as [Hin _]. unfold findall1 in Hin.
  apply in_map_iff in Hin as (m & <- & Hin). apply re_finditer_sound in Hin.
  apply dni_match in Hin; [|framed].
  unfold id_shaped. rewrite Hin. reflexivity.
Qed.

Lemma extract_document_number_shaped (message ty num : pystr) :
  _extract_document_number message = Some (ty, num) -> id_shaped ty num = true.
Proof.
  unfold _extract_document_number. cbv zeta.
  set (cleaned := re_sub _ _ _ _). clearbody cleaned.
  destruct (re_search false _ cleaned) as [m|] eqn:E1.
  { intros H. injection H as <- <-. apply re_search_sound in E1.
    apply ruc_match in E1; [|framed].
    unfold id_shaped. rewrite E1. apply orb_true_r. }
  clear E1.
  destruct (re_search false _ cleaned) as [m|] eqn:E2; [|discriminate].
  destruct (_ <=? _)%N; [|discriminate].
  intros H. injection H as <- <-. apply re_search_sound in E2.
  apply dni_match in E2; [|framed].
  unfold id_shaped. rewrite E2. reflexivity.
Qed.

(** The stored ID is absent, or a DNI or a RUC of the right shape. *)
Definition id_wf (e : EmissionData) : bool :=
  match id_type e, id_number e with
  | None, None => true
  | Some ty, Some num => id_shaped ty num
  | _, _ => false
  end.

Definition extracted_id_wf (x : Extracted) : bool :=
  match x_id_type x, x_id_number x with
  | None, None => true
  | Some ty, Some num => id_shaped ty num
  | _, _ => false
  end.

Lemma id_shaped_truthy (ty num : pystr) :
  id_shaped ty num = true -> truthy (Some ty) = true /\ truthy (Some num) = true.
Proof.
  unfold id_shaped, dni_shaped, ruc_shaped. intros H.
  apply orb_true_iff in H as [H|H]; apply andb_true_iff in H as [Ht Hn];
    apply str_eqb_spec in Ht; subst ty; (split; [reflexivity|]);
    destruct num as [|a [|b num]]; try discriminate; reflexivity.
Qed.

Lemma id_wf_truthy (e : EmissionData) :
  id_wf e = true -> truthy (id_type e) = truthy (id_number e).
Proof.
  unfold id_wf. destruct (id_type e) as [ty|], (id_number e) as [num|];
    try discriminate; [|reflexivity].
  intros H. apply id_shaped_truthy in H as [-> ->]. reflexivity.
Qed.

Lemma extract_all_id_wf (message : pystr) (s : UserSession) :
  extracted_id_wf (extract_all message s) = true.
Proof.
  unfold extract_all. cbv zeta.
  destruct (_extract_items message _) as [its pend].
  unfold extracted_id_wf. cbn [x_id_type x_id_number].
  destruct (_extract_id message) as [[ty num]|] eqn:E; cbn [option_map fst snd];
    [|reflexivity].
  exact (extract_id_shaped message ty num E).
Qed.

Lemma id_wf_update_emission (e : EmissionData) (x : Extracted) :
  extracted_id_wf x = true -> id_wf e = true -> id_wf (update_emission e x) = true.
Proof.
  intros Hx He. rewrite update_emission_fields. unfold id_wf.
  cbn [id_type id_number].
  destruct (truthy (x_id_type x) && negb (truthy (id_type e))); [exact Hx|exact He].
Qed.

Lemma id_wf_set_new (e : EmissionData) (ty num : pystr) :
  id_shaped ty num = true -> id_wf (set_id (Some ty) (Some num) e) = true.
Proof. intros H. exact H. Qed.

Lemma id_wf_same (e e' : EmissionData) :
  id_type e' = id_type e -> id_number e' = id_number e ->
  id_wf e = true -> id_wf e' = true.
Proof. unfold id_wf. now intros -> ->. Qed.

Lemma id_wf_extract_from_message (e : EmissionData) (m : ConversationMessage) :
  id_wf e = true -> id_wf (extract_from_message e m) = true.
Proof.
  unfold extract_from_message. cbv zeta.
  set (e1 := if negb (truthy (document_type e)) then _ else e).
  assert (H1 : id_wf e = true -> id_wf e1 = true).
  { subst e1. destruct (negb _); [|trivial].
    destruct (contains _ _); [apply id_wf_same; reflexivity|].
    destruct (contains _ _); [apply id_wf_same; reflexivity|trivial]. }
  clearbody e1.
  set (e2 := if negb (truthy (id_number e1)) then _ else e1).
  assert (H2 : id_wf e1 = true -> id_wf e2 = true).
  { subst e2. destruct (negb _); [|trivial].
    destruct (re_search _ _ _) as [mm|] eqn:E; [|trivial].
    intros _. apply id_wf_set_new. apply re_search_sound in E.
    apply ruc_match in E; [|framed].
    unfold id_shaped. rewrite E. apply orb_true_r. }
  clearbody e2.
  set (e3 := if negb (truthy (id_number e2)) then _ else e2).
  assert (H3 : id_wf e2 = true -> id_wf e3 = true).
  { subst e3. destruct (negb _); [|trivial].
    destruct (re_search _ _ _) as [mm|] eqn:E; [|trivial].
    destruct (_ <=? _)%N; [|trivial].
    intros _. apply id_wf_set_new. apply re_search_sound in E.
    apply dni_match in E; [|framed].
    unfold id_shaped. rewrite E. reflexivity. }
  clearbody e3.
  intros H. apply H1, H2, H3 in H.
  destruct (negb _); [|exact H]. exact H.
Qed.

Lemma id_wf_backfill (s : UserSession) :
  id_wf (emission_data s) = true -> id_wf (emission_data (backfill s)) = true.
Proof.
  unfold backfill. destruct (negb _); [|trivial].
  unfold _extract_from_conversation. cbv zeta. fields.
  generalize (emission_data s) as e.
  induction (last_n 10 (messages s)) as [|m l IH]; intros e He;
    cbn [fold_left].
  - destruct (_ && _); exact He.
  - apply IH. now apply id_wf_extract_from_message.
Qed.

Lemma calls_of_pair (p : reply * UserSession) (c : list call) :
  calls_of (let '(r, s') := p in (r, s', c)) = c.
Proof. destruct p; reflexivity. Qed.

(** What one handler run asked the service, told on the session it
    leaves: nothing, or once whether the holder of the stored ID number is
    a client; a client that was found is stored as validated under the
    name the service gave, one that was not leaves the session waiting for
    another document. *)
Definition verdict (svc : Service) (o : outcome) : Prop :=
  let s' := session_of o in
  calls_of o = []
  \/ exists doc,
       calls_of o = [CheckClient (phone s') doc]
       /\ id_number (emission_data s') = Some doc
       /\ ((exists name,
              check_client svc (phone s') doc = (true, name)
              /\ client_validated (emission_data s') = true
              /\ client_name (emission_data s') = Some name
              /\ awaiting_client_reconfirmation s' = false)
           \/ (exists msg,
                 check_client svc (phone s') doc = (false, msg)
                 /\ client_validated (emission_data s') = false
                 /\ awaiting_client_reconfirmation s' = true)).

Lemma verdict_validate (svc : Service) (s : UserSession) :
  client_validated (emission_data s) = false ->
  awaiting_client_reconfirmation s = false ->
  verdict svc (_validate_and_continue svc s).
Proof.
  intros Hv Hf. unfold verdict, _validate_and_continue. cbv zeta.
  destruct (id_number (emission_data s)) as [[|c n]|] eqn:Hid;
    try (left; reflexivity).
  destruct (check_client svc (phone s) (c :: n)) as [[|] result] eqn:Hcc.
  - right. exists (c :: n).
    destruct (has_items _);
      [rewrite session_of_pair, calls_of_pair, generate_summary_session|];
      fields; rewrite Hid, Hcc;
      (split; [reflexivity|]); (split; [reflexivity|]);
      left; exists result; repeat split; assumption.
  - right. exists (c :: n). fields. rewrite Hid, Hcc.
    split; [reflexivity|]. split; [reflexivity|].
    right. exists result. repeat split. exact Hv.
Qed.

Lemma verdict_reconfirmation (svc : Service) (message : pystr) (s : UserSession) :
  verdict svc (_handle_client_reconfirmation svc message s).
Proof.
  unfold _handle_client_reconfirmation. cbv zeta.
  destruct (_is_cancellation _); [left; reflexivity|].
  destruct (_extract_document_number message) as [[ty num]|];
    [|left; reflexivity].
  apply verdict_validate; reflexivity.
Qed.

Lemma flag_backfill (s : UserSession) :
  awaiting_client_reconfirmation (backfill s) = awaiting_client_reconfirmation s
  /\ awaiting_confirmation (backfill s) = awaiting_confirmation s.
Proof. unfold backfill. destruct (negb _); split; reflexivity. Qed.

Lemma flag_apply_pending_price (message : pystr) (s : UserSession) :
  awaiting_client_reconfirmation (apply_pending_price message s)
  = awaiting_client_reconfirmation s
  /\ awaiting_confirmation (apply_pending_price message s)
     = awaiting_confirmation s.
Proof.
  unfold apply_pending_price. destruct (pending_items s); [split; reflexivity|].
  destruct (_extract_price message); split; reflexivity.
Qed.

Lemma verdict_check_missing (svc : Service) (message : pystr) (x : Extracted)
    (s : UserSession) :
  awaiting_client_reconfirmation s = false ->
  verdict svc (check_missing svc message x s).
Proof.
  intros Hf. unfold check_missing. cbv zeta.
  destruct (flag_apply_pending_price message s) as [Hf1 _]. rewrite Hf in Hf1.
  set (s1 := apply_pending_price message s) in *. clearbody s1.
  destruct (_is_initial_request _ _ _); [left; reflexivity|].
  destruct (client_validated (emission_data s1)) eqn:Hv.
  - rewrite andb_false_r. cbn [negb andb].
    destruct (match get_missing_fields (emission_data s1) with
              | [] => true | _ => false end).
    { left. apply calls_of_pair. }
    destruct (_ && _); [left; reflexivity|].
    destruct (_ && _); [left; reflexivity|].
    left. apply calls_of_pair.
  - destruct (_ && _); [now apply verdict_validate|].
    destruct (match get_missing_fields (emission_data s1) with
              | [] => true | _ => false end).
    { now apply verdict_validate. }
    destruct (_ && _); [left; reflexivity|].
    destruct (_ && _); [left; reflexivity|].
    left. apply calls_of_pair.
Qed.

Lemma verdict_process_message (svc : Service) (message : pystr) (s : UserSession) :
  verdict svc (process_message svc message s).
Proof.
  unfold process_message. cbv zeta.
  destruct (_is_cancellation _); [left; reflexivity|].
  destruct (awaiting_client_reconfirmation s) eqn:Hf;
    [apply verdict_reconfirmation|].
  set (confirms := str_mem _ _). clearbody confirms.
  set (s1 := if confirms then backfill s else s).
  assert (Hf1 : awaiting_client_reconfirmation s1 = false).
  { subst s1. destruct confirms; [|exact Hf].
    destruct (flag_backfill s) as [-> _]. exact Hf. }
  clearbody s1.
  destruct (confirms && _).
  { destruct (client_validated (emission_data s1)) eqn:Hv; cbn [negb].
    - left. apply calls_of_pair.
    - now apply verdict_validate. }
  destruct (str_mem _ _); [left; reflexivity|].
  destruct (str_mem _ _); [left; reflexivity|].
  set (x := extract_all message s1). clearbody x.
  pose proof (verdict_check_missing svc message x (update_session s1 x) Hf1)
    as Hrest.
  destruct (x_items_sin_precio x) as [|item pend]; [exact Hrest|].
  destruct (x_items x) as [|i its]; [|exact Hrest].
  left. reflexivity.
Qed.

(** The ID of the emission data is the same in both sessions. *)
Definition same_id (s s' : UserSession) : Prop :=
  id_type (emission_data s') = id_type (emission_data s)
  /\ id_number (emission_data s') = id_number (emission_data s).

Lemma id_wf_same_id (s s' : UserSession) :
  same_id s s' -> id_wf (emission_data s) = true ->
  id_wf (emission_data s') = true.
Proof. intros [Ht Hn]. now apply id_wf_same. Qed.

Lemma same_id_validate (svc : Service) (s : UserSession) :
  same_id s (session_of (_validate_and_continue svc s)).
Proof.
  unfold _validate_and_continue. cbv zeta.
  destruct (id_number (emission_data s)) as [[|c n]|]; try (split; reflexivity).
  destruct (check_client svc (phone s) (c :: n)) as [[|] result];
    [|split; reflexivity].
  destruct (has_items _); [rewrite session_of_pair|]; split; reflexivity.
Qed.

Lemma same_id_request_data (missing : list field) (s : UserSession) :
  same_id s (snd (_request_data missing s)).
Proof.
  unfold _request_data, same_id. cbv zeta.
  destruct (field_in tipo_documento missing).
  - destruct (opt_is _ "1").
    + destruct (request_rest_session (remove_first tipo_documento missing)
                  (with_emission
                     (set_document_type (Some (u "03")) (emission_data s)) s))
        as [_ ->].
      split; reflexivity.
    + destruct (opt_is _ "6"); split; reflexivity.
  - destruct (request_rest_session missing s) as [_ ->]. split; reflexivity.
Qed.

Lemma id_wf_reconfirmation (svc : Service) (message : pystr) (s : UserSession) :
  id_wf (emission_data s) = true ->
  id_wf (emission_data (session_of (_handle_client_reconfirmation svc message s)))
  = true.
Proof.
  intros He. unfold _handle_client_reconfirmation. cbv zeta.
  destruct (_is_cancellation _); [reflexivity|].
  destruct (_extract_document_number message) as [[ty num]|] eqn:Hx;
    [|exact He].
  apply (id_wf_same_id _ _ (same_id_validate svc _)).
  exact (extract_document_number_shaped message ty num Hx).
Qed.

Lemma id_wf_check_missing (svc : Service) (message : pystr) (x : Extracted)
    (s : UserSession) :
  id_wf (emission_data s) = true ->
  id_wf (emission_data (session_of (check_missing svc message x s))) = true.
Proof.
  intros He. unfold check_missing. cbv zeta.
  assert (He1 : id_wf (emission_data (apply_pending_price message s)) = true).
  { unfold apply_pending_price. destruct (pending_items s); [exact He|].
    destruct (_extract_price message); exact He. }
  set (s1 := apply_pending_price message s) in *. clearbody s1.
  assert (Hval : id_wf (emission_data
                          (session_of (_validate_and_continue svc s1))) = true)
    by exact (id_wf_same_id _ _ (same_id_validate svc s1) He1).
  assert (Hsum : forall c,
            id_wf (emission_data
                     (session_of (let '(r, s') := _generate_summary s1 in
                                  (r, s', c)))) = true).
  { intros c. rewrite session_of_pair. exact He1. }
  destruct (_is_initial_request _ _ _); [exact He1|].
  destruct (_ && _); [exact Hval|].
  destruct (match get_missing_fields (emission_data s1) with
            | [] => true | _ => false end).
  { destruct (client_validated _); [apply Hsum|exact Hval]. }
  destruct (_ && _); [exact He1|].
  destruct (_ && _); [exact He1|].
  rewrite session_of_pair.
  exact (id_wf_same_id _ _ (same_id_request_data _ s1) He1).
Qed.

Lemma id_wf_process_message (svc : Service) (message : pystr) (s : UserSession) :
  id_wf (emission_data s) = true ->
  id_wf (emission_data (session_of (process_message svc message s))) = true.
Proof.
  intros He. unfold process_message. cbv zeta.
  destruct (_is_cancellation _); [reflexivity|].
  destruct (awaiting_client_reconfirmation s);
    [now apply id_wf_reconfirmation|].
  set (confirms := str_mem _ _). clearbody confirms.
  set (s1 := if confirms then backfill s else s).
  assert (He1 : id_wf (emission_data s1) = true).
  { subst s1. destruct confirms; [now apply id_wf_backfill|exact He]. }
  clearbody s1.
  destruct (confirms && _).
  { destruct (negb _).
    - exact (id_wf_same_id _ _ (same_id_validate svc s1) He1).
    - rewrite session_of_pair. exact He1. }
  destruct (str_mem _ _); [exact He1|].
  destruct (str_mem _ _); [exact He1|].
  assert (He2 : id_wf (emission_data
                         (update_session s1 (extract_all message s1))) = true).
  { apply id_wf_update_emission; [apply extract_all_id_wf|exact He1]. }
  set (x := extract_all message s1) in *. clearbody x.
  pose proof (id_wf_check_missing svc message x (update_session s1 x) He2)
    as Hrest.
  destruct (x_items_sin_precio x) as [|item pend]; [exact Hrest|].
  destruct (x_items x) as [|i its]; [|exact Hrest].
  exact He2.
Qed.

Lemma id_wf_execute_emission (svc : Service) (now : Z) (s : UserSession) :
  id_wf (emission_data s) = true ->
  id_wf (emission_data (session_of (execute_emission svc now s))) = true.
Proof.
  intros He. apply id_wf_backfill in He. unfold execute_emission. cbv zeta.
  set (s1 := backfill s) in *. clearbody s1.
  destruct (get_missing_fields (emission_data s1)) as [|f fs].
  - destruct (negb _);
      [exact (id_wf_same_id _ _ (same_id_validate svc s1) He)|].
    destruct (emit_invoice svc _ _ _ _ _ _) as [resp|msg|]; try exact He.
    destruct (is_successful resp); [reflexivity|exact He].
  - rewrite session_of_pair.
    exact (id_wf_same_id _ _ (same_id_request_data _ s1) He).
Qed.

Lemma reachable_id_wf (s : UserSession) :
  reachable s -> id_wf (emission_data s) = true.
Proof.
  induction 1 as [ph now|s s' Hr IH Hstep]; [reflexivity|].
  destruct Hstep as [svc message|svc now| |s' He].
  - now apply id_wf_process_message.
  - now apply id_wf_execute_emission.
  - reflexivity.
  - now rewrite He.
Qed.

(** A call that names a document names a well-formed one. *)
Definition call_ok (c : call) : bool :=
  match c with
  | CheckClient _ doc => dni_shaped doc || ruc_shaped doc
  | EmitInvoice _ _ _ (Some ty) (Some num) _ => id_shaped ty num
  | EmitInvoice _ _ _ _ _ _ => false
  | _ => true
  end.

Lemma id_wf_number (e : EmissionData) (doc : pystr) :
  id_wf e = true -> id_number e = Some doc ->
  dni_shaped doc || ruc_shaped doc = true.
Proof.
  unfold id_wf. intros H Hn. rewrite Hn in H.
  destruct (id_type e) as [ty|]; [|discriminate].
  unfold id_shaped in H. apply orb_true_iff in H as [H|H];
    apply andb_true_iff in H as [_ ->]; [reflexivity|apply orb_true_r].
Qed.

Lemma verdict_call_ok (svc : Service) (o : outcome) :
  verdict svc o -> id_wf (emission_data (session_of o)) = true ->
  forallb call_ok (calls_of o) = true.
Proof.
  intros [->|(doc & -> & Hn & _)] He; [reflexivity|].
  cbn [forallb call_ok]. rewrite (id_wf_number _ doc He Hn). reflexivity.
Qed.

Lemma execute_emission_call_ok (svc : Service) (now : Z) (s : UserSession) :
  id_wf (emission_data s) = true ->
  forallb call_ok (calls_of (execute_emission svc now s)) = true.
Proof.
  intros He. apply id_wf_backfill in He. unfold execute_emission. cbv zeta.
  set (s1 := backfill s) in *. clearbody s1.
  destruct (get_missing_fields (emission_data s1)) as [|f fs] eqn:Hmiss.
  - destruct (negb _).
    + unfold _validate_and_continue. cbv zeta.
      destruct (id_number (emission_data s1)) as [[|c n]|] eqn:Hid;
        try reflexivity.
      pose proof (id_wf_number _ _ He Hid) as Hok.
      destruct (check_client svc (phone s1) (c :: n)) as [[|] result];
        [destruct (has_items _); [rewrite calls_of_pair|]|];
        cbn [calls_of snd forallb call_ok]; rewrite Hok; reflexivity.
    + assert (Hcalls : forall r s', 
                forallb call_ok
                  (calls_of (r, s',
                     [EmitInvoice (client_data s1)
                        (document_type (emission_data s1))
                        (currency (emission_data s1))
                        (id_type (emission_data s1))
                        (id_number (emission_data s1))
                        (items (emission_data s1))])) = true).
      { intros r s'. cbn [calls_of snd forallb call_ok].
        unfold get_missing_fields in Hmiss. unfold id_wf in He.
        destruct (id_type (emission_data s1)) as [ty|],
                 (id_number (emission_data s1)) as [num|]; try discriminate.
        - now rewrite He.
        - destruct (negb (truthy (document_type (emission_data s1))));
            discriminate. }
      destruct (emit_invoice svc _ _ _ _ _ _) as [resp|msg|]; try apply Hcalls.
      destruct (is_successful resp); apply Hcalls.
  - rewrite calls_of_pair. reflexivity.
Qed.

(** What the review shows was checked: a validated client, an ID number
    and at least one item. *)
Definition reviewable (e : EmissionData) : bool :=
  client_validated e && truthy (id_number e) && has_items e.

(** The handler run did not open the review, or opened it on reviewable
    data. *)
Definition opens_review (s : UserSession) (o : outcome) : Prop :=
  awaiting_confirmation s = false ->
  awaiting_confirmation (session_of o) = true ->
  reviewable (emission_data (session_of o)) = true.

Lemma opens_review_flag (s s1 : UserSession) (o : outcome) :
  awaiting_confirmation s1 = awaiting_confirmation s ->
  opens_review s1 o -> opens_review s o.
Proof. unfold opens_review. now intros ->. Qed.

Lemma opens_review_unchanged (s : UserSession) (o : outcome) :
  awaiting_confirmation (session_of o) = awaiting_confirmation s ->
  opens_review s o.
Proof. unfold opens_review. intros -> H. rewrite H. discriminate. Qed.

Lemma opens_review_validate (svc : Service) (s : UserSession) :
  opens_review s (_validate_and_continue svc s).
Proof.
  unfold _validate_and_continue. cbv zeta.
  destruct (id_number (emission_data s)) as [[|c n]|] eqn:Hid;
    try (apply opens_review_unchanged; reflexivity).
  destruct (check_client svc (phone s) (c :: n)) as [[|] result];
    [|apply opens_review_unchanged; reflexivity].
  destruct (has_items _) eqn:Hit; [|apply opens_review_unchanged; reflexivity].
  intros _ _. rewrite session_of_pair, generate_summary_session.
  unfold reviewable. fields. rewrite Hid. exact Hit.
Qed.

Lemma opens_review_summary (s : UserSession) (c : list call) :
  client_validated (emission_data s) = true ->
  get_missing_fields (emission_data s) = [] ->
  opens_review s (let '(r, s') := _generate_summary s in (r, s', c)).
Proof.
  intros Hv Hm _ _. rewrite session_of_pair, generate_summary_session.
  apply no_missing_fields in Hm. unfold reviewable. fields. rewrite Hv.
  destruct (truthy (document_type (emission_data s))),
    (truthy (id_type (emission_data s))),
    (truthy (id_number (emission_data s))), (has_items (emission_data s));
    try discriminate. reflexivity.
Qed.

Lemma request_rest_awaits (missing : list field) (s : UserSession) :
  awaiting_confirmation s = false ->
  awaiting_confirmation (snd (request_rest missing s)) = true -> missing = [].
Proof.
  intros Hs. destruct missing as [|f l]; [reflexivity|].
  unfold request_rest. cbv zeta.
  destruct (field_in identificacion_cliente _);
    [cbn [snd]; rewrite Hs; discriminate|].
  destruct (field_in productos _); [|cbn [snd]; rewrite Hs; discriminate].
  destruct (_ && _); cbn [snd]; rewrite Hs; discriminate.
Qed.

Lemma request_data_awaits (missing : list field) (s : UserSession) :
  awaiting_confirmation s = false ->
  awaiting_confirmation (snd (_request_data missing s)) = true ->
  missing = [] \/ missing = [tipo_documento].
Proof.
  intros Hs. unfold _request_data. cbv zeta.
  destruct (field_in tipo_documento missing) eqn:Hin.
  - destruct (opt_is _ "1").
    + intros H. apply request_rest_awaits in H; [|exact Hs]. right.
      destruct missing as [|f l]; [discriminate|].
      cbn [remove_first] in H. destruct f; cbn [field_eqb] in H;
        try discriminate. now subst l.
    + destruct (opt_is _ "6"); cbn [snd]; rewrite Hs; discriminate.
  - intros H. left. exact (request_rest_awaits missing s Hs H).
Qed.

Lemma reviewable_request_data (missing : list field) (s : UserSession) :
  reviewable (emission_data (snd (_request_data missing s)))
  = reviewable (emission_data s).
Proof.
  unfold _request_data. cbv zeta.
  destruct (field_in tipo_documento missing).
  - destruct (opt_is _ "1").
    + destruct (request_rest_session (remove_first tipo_documento missing)
                  (with_emission
                     (set_document_type (Some (u "03")) (emission_data s)) s))
        as [_ ->].
      reflexivity.
    + destruct (opt_is _ "6"); reflexivity.
  - destruct (request_rest_session missing s) as [_ ->]. reflexivity.
Qed.

Lemma opens_review_request_data (s : UserSession) (c : list call) :
  (truthy (id_number (emission_data s)) && has_items (emission_data s) = true ->
   client_validated (emission_data s) = true) ->
  get_missing_fields (emission_data s) <> [] ->
  opens_review s
    (let '(r, s') := _request_data (get_missing_fields (emission_data s)) s in
     (r, s', c)).
Proof.
  intros Hval Hne Hs Ha. rewrite session_of_pair in *.
  rewrite reviewable_request_data.
  destruct (request_data_awaits _ s Hs Ha) as [Hm|Hm]; [now destruct Hne|].
  unfold get_missing_fields in Hm. unfold reviewable.
  destruct (truthy (document_type (emission_data s))),
    (truthy (id_type (emission_data s))),
    (truthy (id_number (emission_data s))), (has_items (emission_data s));
    try discriminate Hm.
  now rewrite (Hval eq_refl).
Qed.

Lemma opens_review_check_missing (svc : Service) (message : pystr) (x : Extracted)
    (s : UserSession) :
  opens_review s (check_missing svc message x s).
Proof.
  unfold check_missing. cbv zeta.
  destruct (flag_apply_pending_price message s) as [_ Hf].
  apply (opens_review_flag s (apply_pending_price message s) _ Hf).
  set (s1 := apply_pending_price message s). clearbody s1.
  destruct (_is_initial_request _ _ _);
    [apply opens_review_unchanged; reflexivity|].
  destruct (truthy (id_number (emission_data s1))
            && negb (client_validated (emission_data s1))
            && _) eqn:Hguard; [apply opens_review_validate|].
  assert (Hval : truthy (id_number (emission_data s1))
                 && has_items (emission_data s1) = true ->
                 client_validated (emission_data s1) = true).
  { intros H. apply andb_true_iff in H as [Hn Hi].
    rewrite Hn, Hi in Hguard. cbn [andb orb] in Hguard.
    rewrite andb_true_r in Hguard. now apply negb_false_iff in Hguard. }
  clear Hguard.
  destruct (get_missing_fields (emission_data s1)) as [|f fs] eqn:Hmiss.
  { destruct (client_validated _) eqn:Hv;
      [now apply opens_review_summary|apply opens_review_validate]. }
  destruct (_ && field_in identificacion_cliente _);
    [apply opens_review_unchanged; reflexivity|].
  destruct (_ && field_in productos _);
    [apply opens_review_unchanged; reflexivity|].
  rewrite <- Hmiss. apply opens_review_request_data; [exact Hval|].
  now rewrite Hmiss.
Qed.

Lemma opens_review_reconfirmation (svc : Service) (message : pystr)
    (s : UserSession) :
  opens_review s (_handle_client_reconfirmation svc message s).
Proof.
  unfold _handle_client_reconfirmation. cbv zeta.
  destruct (_is_cancellation _); [intros _ H; discriminate H|].
  destruct (_extract_document_number message) as [[ty num]|];
    [|apply opens_review_unchanged; reflexivity].
  eapply opens_review_flag; [|apply opens_review_validate]. reflexivity.
Qed.

Lemma opens_review_process_message (svc : Service) (message : pystr)
    (s : UserSession) :
  opens_review s (process_message svc message s).
Proof.
  unfold process_message. cbv zeta.
  destruct (_is_cancellation _); [intros _ H; discriminate H|].
  destruct (awaiting_client_reconfirmation s);
    [apply opens_review_reconfirmation|].
  set (confirms := str_mem _ _). clearbody confirms.
  set (s1 := if confirms then backfill s else s).
  assert (Hf1 : awaiting_confirmation s1 = awaiting_confirmation s).
  { subst s1. destruct confirms; [|reflexivity]. apply flag_backfill. }
  clearbody s1. apply (opens_review_flag s s1 _ Hf1).
  destruct (get_missing_fields (emission_data s1)) as [|f fs] eqn:Hmiss.
  - destruct confirms; cbn [andb].
    + destruct (client_validated _) eqn:Hv; cbn [negb];
        [now apply opens_review_summary|apply opens_review_validate].
    + destruct (str_mem _ _); [apply opens_review_unchanged; reflexivity|].
      destruct (str_mem _ _); [apply opens_review_unchanged; reflexivity|].
      set (x := extract_all message s1). clearbody x.
      pose proof (opens_review_check_missing svc message x (update_session s1 x))
        as Hrest.
      apply (opens_review_flag s1 (update_session s1 x) _ eq_refl).
      destruct (x_items_sin_precio x) as [|item pend]; [exact Hrest|].
      destruct (x_items x) as [|i its]; [|exact Hrest].
      apply opens_review_unchanged; reflexivity.
  - rewrite andb_false_r.
    destruct (str_mem _ _); [apply opens_review_unchanged; reflexivity|].
    destruct (str_mem _ _); [apply opens_review_unchanged; reflexivity|].
    set (x := extract_all message s1). clearbody x.
    pose proof (opens_review_check_missing svc message x (update_session s1 x))
      as Hrest.
    apply (opens_review_flag s1 (update_session s1 x) _ eq_refl).
    destruct (x_items_sin_precio x) as [|item pend]; [exact Hrest|].
    destruct (x_items x) as [|i its]; [|exact Hrest].
    apply opens_review_unchanged; reflexivity.
Qed.

(** The part of a session the emission handler has no business with: who
    the caller is, the cached context, the browsing context, the history of
    messages, the clock stamps. *)
Definition outside (s : UserSession) :=
  (phone s, user_name s, client_data s, authenticated s, terms_accepted s,
   conversation_context s, search_results s, context s, messages s,
   created_at s, last_activity s).

Definition kept (s s' : UserSession) : Prop :=
  outside s' = outside s /\ session_emissions s' = session_emissions s.

Lemma kept_trans (s s1 s2 : UserSession) : kept s s1 -> kept s1 s2 -> kept s s2.
Proof. intros [A B] [C D]. split; congruence. Qed.

Lemma kept_backfill (s : UserSession) : kept s (backfill s).
Proof. unfold backfill. destruct (negb _); split; reflexivity. Qed.

Lemma kept_apply_pending_price (message : pystr) (s : UserSession) :
  kept s (apply_pending_price message s).
Proof.
  unfold apply_pending_price. destruct (pending_items s); [split; reflexivity|].
  destruct (_extract_price message); split; reflexivity.
Qed.

Lemma kept_validate (svc : Service) (s : UserSession) :
  kept s (session_of (_validate_and_continue svc s)).
Proof.
  unfold _validate_and_continue. cbv zeta.
  destruct (id_number (emission_data s)) as [[|c n]|]; try (split; reflexivity).
  destruct (check_client svc (phone s) (c :: n)) as [[|] result];
    [|split; reflexivity].
  destruct (has_items _); [rewrite session_of_pair|]; split; reflexivity.
Qed.

Lemma kept_request_rest (missing : list field) (s : UserSession) :
  kept s (snd (request_rest missing s)).
Proof.
  unfold request_rest. cbv zeta. destruct missing; [split; reflexivity|].
  destruct (field_in identificacion_cliente _); [split; reflexivity|].
  destruct (field_in productos _); [|split; reflexivity].
  destruct (_ && _); split; reflexivity.
Qed.

Lemma kept_request_data (missing : list field) (s : UserSession) :
  kept s (snd (_request_data missing s)).
Proof.
  unfold _request_data. cbv zeta.
  destruct (field_in tipo_documento missing); [|apply kept_request_rest].
  destruct (opt_is _ "1").
  - eapply kept_trans; [|apply kept_request_rest]. split; reflexivity.
  - destruct (opt_is _ "6"); split; reflexivity.
Qed.

Lemma kept_check_missing (svc : Service) (message : pystr) (x : Extracted)
    (s : UserSession) :
  kept s (session_of (check_missing svc message x s)).
Proof.
  unfold check_missing. cbv zeta.
  apply (kept_trans s (apply_pending_price message s));
    [apply kept_apply_pending_price|].
  set (s1 := apply_pending_price message s). clearbody s1.
  destruct (_is_initial_request _ _ _); [split; reflexivity|].
  destruct (_ && _); [apply kept_validate|].
  destruct (match get_missing_fields (emission_data s1) with
            | [] => true | _ => false end).
  { destruct (client_validated _); [|apply kept_validate].
    rewrite session_of_pair. split; reflexivity. }
  destruct (_ && _); [split; reflexivity|].
  destruct (_ && _); [split; reflexivity|].
  rewrite session_of_pair. apply kept_request_data.
Qed.

Lemma kept_process_message (svc : Service) (message : pystr) (s : UserSession) :
  kept s (session_of (process_message svc message s)).
Proof.
  unfold process_message. cbv zeta.
  destruct (_is_cancellation _); [split; reflexivity|].
  destruct (awaiting_client_reconfirmation s).
  { unfold _handle_client_reconfirmation. cbv zeta.
    destruct (_is_cancellation _); [split; reflexivity|].
    destruct (_extract_document_number message) as [[ty num]|];
      [|split; reflexivity].
    eapply kept_trans; [|apply kept_validate]. split; reflexivity. }
  set (confirms := str_mem _ _). clearbody confirms.
  set (s1 := if confirms then backfill s else s).
  assert (H1 : kept s s1).
  { subst s1. destruct confirms; [apply kept_backfill|split; reflexivity]. }
  clearbody s1. apply (kept_trans s s1 _ H1).
  destruct (confirms && _).
  { destruct (negb _); [apply kept_validate|].
    rewrite session_of_pair. split; reflexivity. }
  destruct (str_mem _ _); [split; reflexivity|].
  destruct (str_mem _ _); [split; reflexivity|].
  set (x := extract_all message s1). clearbody x.
  apply (kept_trans s1 (update_session s1 x)); [split; reflexivity|].
  pose proof (kept_check_missing svc message x (update_session s1 x)) as Hrest.
  destruct (x_items_sin_precio x) as [|item pend]; [exact Hrest|].
  destruct (x_items x) as [|i its]; [|exact Hrest].
  split; reflexivity.
Qed.

(** [execute_emission] keeps the same part, and adds a record to the
    emissions of the session exactly when the store endpoint accepted. *)
Lemma kept_execute_emission (svc : Service) (now : Z) (s : UserSession) :
  let o := execute_emission svc now s in
  let e := emission_data (backfill s) in
  outside (session_of o) = outside s
  /\ (session_emissions (session_of o) = session_emissions s
      \/ exists resp,
           emit_invoice svc (client_data s) (document_type e) (currency e)
             (id_type e) (id_number e) (items e) = Emitted resp
           /\ is_successful resp = true
           /\ session_emissions (session_of o)
              = session_emissions s
                ++ [{| timestamp := now;
                       rec_document_type :=
                         if opt_is (document_type e) "01"
                         then u "Factura" else u "Boleta";
                       serie_numero := get_full_number resp;
                       client_id := id_number e;
                       total := calculate_total e;
                       rec_currency := currency e;
                       pdf_url := get_pdf_url resp;
                       items_count := length (items e) |}]).
Proof.
  cbv zeta. destruct (kept_backfill s) as [Ho He].
  unfold execute_emission. cbv zeta.
  replace (client_data s) with (client_data (backfill s))
    by (unfold backfill; destruct (negb _); reflexivity).
  set (s1 := backfill s) in *. clearbody s1. rewrite <- Ho, <- He.
  destruct (get_missing_fields (emission_data s1)) as [|f fs].
  - destruct (negb _).
    { destruct (kept_validate svc s1) as [A B]. split; [exact A|now left]. }
    destruct (emit_invoice svc _ _ _ _ _ _) as [resp|msg|] eqn:Hemit;
      try (split; [reflexivity|left; reflexivity]).
    destruct (is_successful resp) eqn:Hok;
      [|split; [reflexivity|left; reflexivity]].
    split; [reflexivity|]. right. exists resp.
    split; [reflexivity|]. split; [exact Hok|].
    unfold record_emission. fields. unfold opt_is.
    destruct (document_type (emission_data s1)); reflexivity.
  - rewrite session_of_pair. destruct (kept_request_data (f :: fs) s1) as [A B].
    split; [exact A|now left].
Qed.

(** ** When the service is taken to know a client *)

Lemma first_long_string_spec (r : record) (value : pystr) :
  first_long_string r = Some value ->
  exists k, In (k, VStr value) r /\ str_eqb k (u "00") = false
            /\ 2 < length value.
Proof.
  induction r as [|[k v] r IH]; cbn [first_long_string]; [discriminate|].
  destruct v as [s|shown].
  - destruct (negb (str_eqb k (u "00")) && Nat.ltb 2 (length s)) eqn:E.
    + intros H. injection H as <-. apply andb_true_iff in E as [E1 E2].
      exists k. split; [now left|]. split; [now apply negb_true_iff|].
      now apply Nat.ltb_lt.
    + intros H. destruct (IH H) as (k' & Hin & Hk & Hl).
      exists k'. split; [now right|now split].
  - intros H. destruct (IH H) as (k' & Hin & Hk & Hl).
    exists k'. split; [now right|now split].
Qed.

Lemma first_long_string_none (r : record) :
  first_long_string r = None ->
  forall k value, In (k, VStr value) r -> str_eqb k (u "00") = false ->
                  length value <= 2.
Proof.
  induction r as [|[k v] r IH]; cbn [first_long_string]; [intros _ ? ? []|].
  destruct v as [s|shown].
  - destruct (negb (str_eqb k (u "00")) && Nat.ltb 2 (length s)) eqn:E;
      [discriminate|].
    intros H k' value [Heq|Hin] Hk; [|now apply (IH H k')].
    injection Heq as -> ->. rewrite Hk in E. cbn [negb andb] in E.
    now apply Nat.ltb_ge.
  - intros H k' value [Heq|Hin] Hk; [discriminate|now apply (IH H k')].
Qed.

Lemma check_client_found_iff (svc : Service) (ph doc name : pystr) :
  check_client svc ph doc = (true, name) <->
  exists r,
    post_check_client svc (clean_phone ph) doc = Returned (JObj r)
    /\ ((exists v, lookup (u "01") r = Some v /\ name = text_of v)
        \/ (lookup (u "01") r = None /\ lookup (u "00") r = None
            /\ first_long_string r = Some name)).
Proof.
  unfold check_client. split.
  - destruct (post_check_client svc (clean_phone ph) doc) as [e|[r|l|sh]];
      try discriminate.
    destruct (lookup (u "01") r) as [v|] eqn:H1.
    + intros H. injection H as <-. exists r. split; [reflexivity|].
      left. now exists v.
    + destruct (lookup (u "00") r) as [m|] eqn:H0; [discriminate|].
      destruct (first_long_string r) as [value|] eqn:Hf; [|discriminate].
      intros H. injection H as <-. exists r. split; [reflexivity|].
      right. now repeat split.
  - intros (r & -> & [(v & -> & ->)|(-> & -> & ->)]); reflexivity.
Qed.

(** ** What a load of the context reports *)

Lemma as_records_none (l : list jelem) :
  as_records l = None -> exists shown, In (EOther shown) l.
Proof.
  induction l as [|[r|sh] l IH]; cbn [as_records]; [discriminate| |].
  - destruct (as_records l); [discriminate|].
    intros _. destruct (IH eq_refl) as [sh Hin]. exists sh. now right.
  - intros _. exists sh. now left.
Qed.

Lemma list_or_empty_in (r : response) (x : jelem) :
  In x (list_or_empty r) -> exists l, r = Returned (JArr l) /\ In x l.
Proof.
  destruct r as [e|[o|l|sh]]; cbn [list_or_empty]; try (intros []).
  intros H. now exists l.
Qed.

Definition uses_cache (now : Z) (s : UserSession) (force : bool) : bool :=
  negb force && is_loaded (context s) && negb (is_stale now 60 (context s)).

Lemma load_user_context_down (svc : Service) (now later : Z) (s : UserSession)
    (force : bool) (e1 e2 e3 : pystr) :
  uses_cache now s force = false ->
  post_product_list svc (split_first (code "@") (phone s)) = Raised e1 ->
  post_client_list svc (split_first (code "@") (phone s)) = Raised e2 ->
  post_history svc (split_first (code "@") (phone s)) = Raised e3 ->
  load_user_context svc now later s force
  = (true,
     with_context {| clients := []; products := []; history := [];
                     loaded_at := Some later |} s,
     [GetProducts (phone s); GetClients (phone s); GetHistory (phone s)]).
Proof.
  intros Hc H1 H2 H3. unfold load_user_context, uses_cache in *. rewrite Hc.
  unfold get_products, get_clients, get_history. rewrite H1, H2, H3. reflexivity.
Qed.

Lemma load_user_context_false (svc : Service) (now later : Z) (s : UserSession)
    (force : bool) :
  fst (fst (load_user_context svc now later s force)) = false ->
  uses_cache now s force = false
  /\ context (snd (fst (load_user_context svc now later s force)))
     = {| clients := []; products := []; history := []; loaded_at := Some later |}
  /\ exists l shown,
       In (EOther shown) l
       /\ (post_product_list svc (split_first (code "@") (phone s))
             = Returned (JArr l)
           \/ post_client_list svc (split_first (code "@") (phone s))
             = Returned (JArr l)
           \/ post_history svc (split_first (code "@") (phone s))
             = Returned (JArr l)).
Proof.
  unfold load_user_context, uses_cache.
  destruct (negb force && is_loaded (context s)
            && negb (is_stale now 60 (context s))); [discriminate|].
  cbv zeta. unfold get_products, get_clients, get_history.
  destruct (as_records (list_or_empty (post_client_list svc _))) as [cs|] eqn:Hc.
  - destruct (as_records (list_or_empty (post_product_list svc _)))
      as [ps|] eqn:Hp.
    + destruct (as_records (list_or_empty (post_history svc _)))
        as [hs|] eqn:Hh; [discriminate|].
      intros _. split; [reflexivity|]. split; [reflexivity|].
      apply as_records_none in Hh as [sh Hin].
      apply list_or_empty_in in Hin as (l & Hr & Hin).
      exists l, sh. split; [exact Hin|]. right. right. exact Hr.
    + intros _. split; [reflexivity|]. split; [reflexivity|].
      apply as_records_none in Hp as [sh Hin].
      apply list_or_empty_in in Hin as (l & Hr & Hin).
      exists l, sh. split; [exact Hin|]. left. exact Hr.
  - intros _. split; [reflexivity|]. split; [reflexivity|].
    apply as_records_none in Hc as [sh Hin].
    apply list_or_empty_in in Hin as (l & Hr & Hin).
    exists l, sh. split; [exact Hin|]. right. left. exact Hr.
Qed.

(** ** What the extractor hands over *)

(** A line the extractor accepts: a description, a price with a digit
    that is not zero, a quantity of at most four characters. *)
Definition item_ok (i : InvoiceItem) : bool :=
  nonempty (descripcion i) && price_positive (precio i)
  && Nat.leb (length (cantidad i)) 4.

Lemma add_candidate_ok (cands : list InvoiceItem) :
  forallb (fun c => Nat.leb (length (cantidad c)) 4) cands = true ->
  forall st, forallb item_ok (fst st) = true ->
             forallb item_ok (fst (fold_left add_candidate cands st)) = true.
Proof.
  induction cands as [|c cands IH]; intros Hc st Hst; cbn [fold_left];
    [exact Hst|].
  cbn [forallb] in Hc. apply andb_true_iff in Hc as [Hq Hc].
  apply (IH Hc). destruct st as [its seen]. unfold add_candidate, add_item.
  destruct (negb _ && nonempty (descripcion c) && price_positive (precio c))
    eqn:Hok; [|exact Hst].
  apply andb_true_iff in Hok as [Hok Hp]. apply andb_true_iff in Hok as [_ Hd].
  cbn [fst] in *. rewrite forallb_app, Hst. cbn [forallb andb].
  unfold item_ok. cbn [descripcion precio cantidad]. now rewrite Hd, Hp, Hq.
Qed.

Lemma parsed_candidates_short (t : pystr) :
  forallb (fun c => Nat.leb (length (cantidad c)) 4) (parsed_candidates t) = true.
Proof.
  assert (Hc : forall ms,
            forallb (fun c => Nat.leb (length (cantidad c)) 4)
              (flat_map (candidate_counted t) ms) = true).
  { induction ms as [|m ms IH]; [reflexivity|]. cbn [flat_map].
    rewrite forallb_app, IH, andb_true_r. unfold candidate_counted.
    destruct (Nat.leb 5 (length (group_str t m 1))) eqn:E; [reflexivity|].
    cbn [forallb cantidad]. rewrite andb_true_r.
    apply Nat.leb_gt in E. apply Nat.leb_le. lia. }
  assert (Hs : forall ms,
            forallb (fun c => Nat.leb (length (cantidad c)) 4)
              (flat_map (candidate_single t) ms) = true).
  { induction ms as [|m ms IH]; [reflexivity|]. cbn [flat_map].
    rewrite forallb_app, IH, andb_true_r. unfold candidate_single.
    destruct (str_mem _ keywords3); reflexivity. }
  unfold parsed_candidates. now rewrite !forallb_app, !Hc, Hs.
Qed.

Lemma extract_items_ok (message : pystr) (exclude_number : option pystr) :
  forallb item_ok (fst (_extract_items message exclude_number)) = true.
Proof.
  rewrite extract_items_priced, priced_items_candidates.
  apply add_candidate_ok; [apply parsed_candidates_short|reflexivity].
Qed.

Lemma extract_items_exclusive (message : pystr) (exclude_number : option pystr) :
  fst (_extract_items message exclude_number) = []
  \/ snd (_extract_items message exclude_number) = [].
Proof.
  unfold _extract_items. cbv zeta.
  destruct (fst (priced_items _)); [now left|now right].
Qed.

Lemma sin_precio_ok (t : pystr) (ms : list rmatch) :
  forall st,
    forallb (fun p => negb (str_mem (lower (p_descripcion p)) keywords_sin_precio)
                      && negb (is_some (p_precio p))) (fst st) = true ->
    forallb (fun p => negb (str_mem (lower (p_descripcion p)) keywords_sin_precio)
                      && negb (is_some (p_precio p)))
      (fst (fold_left (step_sin_precio t) ms st)) = true.
Proof.
  induction ms as [|m ms IH]; intros st Hst; cbn [fold_left]; [exact Hst|].
  apply IH. destruct st as [its seen]. unfold step_sin_precio.
  destruct (str_mem (lower (strip (group_str t m 2))) keywords_sin_precio)
    eqn:Hk; [exact Hst|].
  cbv zeta. destruct (negb (str_mem _ seen)); [|exact Hst].
  cbn [fst] in *. rewrite forallb_app, Hst. cbn [forallb p_descripcion p_precio].
  now rewrite Hk.
Qed.

(** ** What the classifier can answer *)

Lemma classify_cases (message : pystr) (s : UserSession) (i : IntentType) (c : Z) :
  classify message s = (i, c) ->
  (50 <= c <= 95)%Z
  /\ (i = CONFIRMATION ->
      awaiting_confirmation s = true /\ is_confirmation (strip message) = true)
  /\ (i = CANCEL ->
      is_cancellation (strip message) = true
      /\ (awaiting_confirmation s = true \/ _has_active_emission s = true))
  /\ (i = GREETING -> length (strip message) < 25)
  /\ (i = UNKNOWN -> c = 50%Z /\ contains (u "?") (strip message) = false)
  /\ (c = 50%Z -> i = UNKNOWN)
  /\ (i = EMIT_INVOICE -> c = 85%Z \/ c = 75%Z).
Proof.
  intros H. unfold classify in H. cbv zeta in H.
  unfold is_confirmation, is_cancellation.
  repeat match type of H with
         | (if ?b then _ else _) = _ => destruct b eqn:?E
         end;
    injection H as <- <-;
    (split; [lia|]);
    repeat match goal with
           | |- _ /\ _ => split
           | |- _ -> _ => intros ?H; try discriminate
           end;
    repeat match goal with
           | E : _ && _ = true |- _ => apply andb_true_iff in E as [? ?]
           end;
    try assumption; try reflexivity; try (now left); try (now right);
    try (apply Nat.ltb_lt; assumption).
Qed.

(** ** Plain texts *)

(** Python's [\d], [int] and [float] take every decimal digit of Unicode,
    the fullwidth and the Arabic-Indic ones among them, where [is_digit]
    takes 0 to 9. Below U+0660, and in the blocks of punctuation, symbols
    and pictographs (U+2000 to U+2BFF, U+FE00 to U+FE0F, U+1F000 to
    U+1FAFF), 0 to 9 are the only decimal digits: on a text of such
    characters the code and [is_digit] read the same digits. *)
Definition plain_char (c : N) : bool :=
  (c <? 0x660)%N
  || ((0x2000 <=? c) && (c <? 0x2C00))%N
  || ((0xFE00 <=? c) && (c <=? 0xFE0F))%N
  || ((0x1F000 <=? c) && (c <? 0x1FB00))%N.

Definition ascii_digits (t : pystr) : bool := forallb plain_char t.

(** No run of digits in [t], the first continuing a run of [cur], is
    longer than [n]. *)
Fixpoint runs_within (n cur : nat) (t : pystr) : bool :=
  match t with
  | [] => true
  | c :: t' =>
    if is_digit c then Nat.leb (S cur) n && runs_within n (S cur) t'
    else runs_within n 0 t'
  end.

(** A numeral of at most thirteen digits before the point and two after is
    below 2^44, where binary64 is finer than a thousandth:
    [f"{float(p):.2f}"] then prints the numeral itself with two decimals,
    which is what [format_2f] gives. *)
Definition short_numbers (t : pystr) : bool := runs_within 13 0 t.

Definition plain (t : pystr) : bool := ascii_digits t && short_numbers t.

(** Every message of the conversation satisfies [P]. *)
Definition texts_ok (P : pystr -> bool) (s : UserSession) : bool :=
  forallb (fun m => P (content m)) (messages s).

(** The states the agent reaches when the texts it reads satisfy [P]: the
    utterance handed to [process_message], and the conversation at the
    time [process_message] or [execute_emission] looks into it. *)
Inductive step_on (P : pystr -> bool) (s : UserSession) : UserSession -> Prop :=
| on_process svc message :
    P message = true -> texts_ok P s = true ->
    step_on P s (session_of (process_message svc message s))
| on_execute svc now :
    texts_ok P s = true ->
    step_on P s (session_of (execute_emission svc now s))
| on_reset : step_on P s (reset_emission s)
| on_other s' : emission_data s' = emission_data s -> step_on P s s'.

Inductive reachable_on (P : pystr -> bool) : UserSession -> Prop :=
| on_new ph now : reachable_on P (UserSession_new ph now)
| on_step s s' : reachable_on P s -> step_on P s s' -> reachable_on P s'.

Lemma step_on_step (P : pystr -> bool) (s s' : UserSession) :
  step_on P s s' -> step s s'.
Proof.
  intros [svc message _ _|svc now _| |s'' He].
  - apply step_process.
  - apply step_execute.
  - apply step_reset.
  - now apply step_other.
Qed.

Lemma reachable_on_reachable (P : pystr -> bool) (s : UserSession) :
  reachable_on P s -> reachable s.
Proof.
  induction 1 as [ph now|s s' _ IH Hstep]; [apply reach_new|].
  apply (reach_step s); [exact IH|]. exact (step_on_step P s s' Hstep).
Qed.

Lemma fresh_reachable_on (P : pystr -> bool) : reachable_on P fresh.
Proof.
  apply (on_step P (UserSession_new (u "51999888777") 0)).
  - apply on_new.
  - apply on_other. reflexivity.
Qed.

Lemma not_found_turn_on (P : pystr -> bool) :
  P (u "Boleta 11111111, 1 libro a 40") = true -> reachable_on P not_found_turn.
Proof.
  intros HP. apply (on_step P fresh); [apply fresh_reachable_on|].
  apply (on_process P fresh svc_missing (u "Boleta 11111111, 1 libro a 40"));
    [exact HP|reflexivity].
Qed.

(** ** Document numbers *)

(** On a text whose only decimal digits are 0 to 9, the two readers of
    document numbers return a DNI (type 1) of eight digits or a RUC
    (type 6) of eleven digits that starts with 10 or 20; a DNI read by
    [_extract_document_number] is at least 1000000. *)
Theorem document_numbers_have_a_shape (message : pystr) :
  ascii_digits message = true ->
  (forall ty num, _extract_id message = Some (ty, num) -> id_shaped ty num = true)
  /\ (forall ty num,
        _extract_document_number message = Some (ty, num) ->
        id_shaped ty num = true
        /\ (ty = u "1" -> (1000000 <=? int_of_digits num)%N = true)).
Proof.
  intros Hplain.
  split; [intros ty num; apply extract_id_shaped|].
  intros ty num H. split; [now apply (extract_document_number_shaped message)|].
  revert H. unfold _extract_document_number. cbv zeta.
  set (cleaned := re_sub _ _ _ _). clearbody cleaned.
  destruct (re_search false _ cleaned) as [m|] eqn:E1.
  { intros H. injection H as <- _. intros Hty. discriminate Hty. }
  clear E1.
  destruct (re_search false _ cleaned) as [m|]; [|discriminate].
  destruct (_ <=? _)%N eqn:Hbig; [|discriminate].
  intros H _. injection H as _ <-. exact Hbig.
Qed.

Lemma document_numbers_have_a_shape_witness :
  ascii_digits (u "factura para RUC 20161541991") = true
  /\ id_shaped (u "6") (u "20161541991") = true
  /\ ascii_digits (u "1 2 3 4 5 6 7 8 ✅") = true
  /\ id_shaped (u "1") (u "12345678") = true.
Proof.
  split; [vm_compute; reflexivity|]. split.
  - refine (proj1 (document_numbers_have_a_shape
                     (u "factura para RUC 20161541991") _)
              (u "6") (u "20161541991") _); vm_compute; reflexivity.
  - split; [vm_compute; reflexivity|].
    refine (proj1 (proj2 (document_numbers_have_a_shape
                            (u "1 2 3 4 5 6 7 8 ✅") _)
                     (u "1") (u "12345678") _)); vm_compute; reflexivity.
Defined.

(** In every state the agent reaches on texts whose only decimal digits
    are 0 to 9, the stored ID is absent, type and number, or is a DNI or
    RUC of the right shape; so every [check_client] and every
    [emit_invoice] the emission agent then makes on such texts names such
    a document. *)
Theorem stored_document_is_well_formed (s : UserSession) :
  reachable_on ascii_digits s ->
  id_wf (emission_data s) = true
  /\ (forall svc message,
        ascii_digits message = true -> texts_ok ascii_digits s = true ->
        forallb call_ok (calls_of (process_message svc message s)) = true)
  /\ (forall svc now,
        texts_ok ascii_digits s = true ->
        forallb call_ok (calls_of (execute_emission svc now s)) = true).
Proof.
  intros Hr. apply reachable_on_reachable in Hr.
  pose proof (reachable_id_wf s Hr) as He.
  split; [exact He|]. split.
  - intros svc message Hplain Htexts. apply (verdict_call_ok svc).
    + apply verdict_process_message.
    + now apply id_wf_process_message.
  - intros svc now Htexts. now apply execute_emission_call_ok.
Qed.

Lemma stored_document_is_well_formed_witness :
  id_wf (emission_data not_found_turn) = true
  /\ forallb call_ok
       (calls_of (process_message svc_missing (u "87654321") not_found_turn))
     = true.
Proof.
  assert (Hr : reachable_on ascii_digits not_found_turn).
  { apply not_found_turn_on. vm_compute. reflexivity. }
  destruct (stored_document_is_well_formed not_found_turn Hr) as [H1 [H2 _]].
  split; [exact H1|]. apply H2; vm_compute; reflexivity.
Defined.

(** ** One question to the service per turn *)

(** [process_message] asks the service at most once, and then only whether
    the holder of the ID number it leaves stored is a client: it never
    issues and never loads lists. A client that is found is left validated
    under the name the service gave; one that is not leaves the session
    unvalidated and waiting for another document. *)
Theorem one_question_per_turn
    (svc : Service) (message : pystr) (s : UserSession) :
  verdict svc (process_message svc message s).
Proof. apply verdict_process_message. Qed.

(** ** The review *)

(** When [process_message] opens the review (sets [awaiting_confirmation]
    that was not set), the emission has a client the service confirmed, an
    ID number and at least one item. *)
Theorem review_needs_a_validated_client
    (svc : Service) (message : pystr) (s : UserSession) :
  awaiting_confirmation s = false ->
  awaiting_confirmation (session_of (process_message svc message s)) = true ->
  reviewable (emission_data (session_of (process_message svc message s))) = true.
Proof. apply opens_review_process_message. Qed.

Lemma review_needs_a_validated_client_witness :
  reviewable
    (emission_data
       (session_of (process_message (svc_found "JUAN PEREZ" accepted)
                      (u "Boleta DNI 12345678, 2 camisas a 50") fresh))) = true.
Proof.
  apply (review_needs_a_validated_client (svc_found "JUAN PEREZ" accepted)
           (u "Boleta DNI 12345678, 2 camisas a 50") fresh);
    vm_compute; reflexivity.
Defined.

(** ** What the emission agent leaves alone *)

(** [process_message] and [execute_emission] do not touch the identity of
    the caller, the cached context, the browsing context, the messages or
    the clock stamps. [process_message] never records an emission;
    [execute_emission] records one, at the end of the list, exactly when the
    store endpoint accepted, with the number, the client, the total and the
    count of what was issued. *)
Theorem emission_handler_keeps_the_rest
    (svc : Service) (now : Z) (message : pystr) (s : UserSession) :
  kept s (session_of (process_message svc message s))
  /\ outside (session_of (execute_emission svc now s)) = outside s
  /\ (session_emissions (session_of (execute_emission svc now s))
      = session_emissions s
      \/ exists resp,
           emit_invoice svc (client_data s)
             (document_type (emission_data (backfill s)))
             (currency (emission_data (backfill s)))
             (id_type (emission_data (backfill s)))
             (id_number (emission_data (backfill s)))
             (items (emission_data (backfill s))) = Emitted resp
           /\ is_successful resp = true
           /\ session_emissions (session_of (execute_emission svc now s))
              = session_emissions s
                ++ [{| timestamp := now;
                       rec_document_type :=
                         if opt_is (document_type (emission_data (backfill s))) "01"
                         then u "Factura" else u "Boleta";
                       serie_numero := get_full_number resp;
                       client_id := id_number (emission_data (backfill s));
                       total := calculate_total (emission_data (backfill s));
                       rec_currency := currency (emission_data (backfill s));
                       pdf_url := get_pdf_url resp;
                       items_count :=
                         length (items (emission_data (backfill s))) |}]).
Proof.
  split; [apply kept_process_message|]. exact (kept_execute_emission svc now s).
Qed.

(** ** When the service is taken to know a client *)

(** [check_client] answers found exactly when the body is an object that
    has the key 01, whatever else it has, or has neither 01 nor 00 but some
    string longer than two characters as a value; the name is the value of
    01, or the first such string. *)
Theorem client_found_exactly_when (svc : Service) (ph doc name : pystr) :
  (check_client svc ph doc = (true, name) <->
   exists r,
     post_check_client svc (clean_phone ph) doc = Returned (JObj r)
     /\ ((exists v, lookup (u "01") r = Some v /\ name = text_of v)
         \/ (lookup (u "01") r = None /\ lookup (u "00") r = None
             /\ first_long_string r = Some name)))
  /\ (forall r, first_long_string r = Some name ->
        exists k, In (k, VStr name) r /\ str_eqb k (u "00") = false
                  /\ 2 < length name).
Proof.
  split; [apply check_client_found_iff|].
  intros r. apply first_long_string_spec.
Qed.

(** A body that only reports a failure counts as a client. *)
Definition svc_failing : Service :=
  {| post_check_client :=
       fun _ _ => Returned (JObj [(u "error", VStr (u "Internal failure"))]);
     post_product_list := fun _ => Returned (JArr []);
     post_client_list := fun _ => Returned (JArr []);
     post_history := fun _ => Returned (JArr []);
     emit_invoice := no_emit;
     exception_text := fun _ => [] |}.

Lemma client_found_exactly_when_witness :
  check_client svc_failing (u "51999888777") (u "12345678")
  = (true, u "Internal failure").
Proof.
  apply (proj1 (client_found_exactly_when svc_failing (u "51999888777")
                  (u "12345678") (u "Internal failure"))).
  exists [(u "error", VStr (u "Internal failure"))].
  split; [reflexivity|]. right. split; [reflexivity|]. split; reflexivity.
Defined.

(** ** What a load of the context reports *)

(** When the cache is not used and the three list requests all fail,
    [load_user_context] still returns [True], with an empty context that is
    stamped. It returns [False] only when one of the bodies is a list with
    an element that is not an object, and then too the context is empty and
    stamped. *)
Theorem context_load_reports
    (svc : Service) (now later : Z) (s : UserSession) (force : bool) :
  (forall e1 e2 e3,
     uses_cache now s force = false ->
     post_product_list svc (split_first (code "@") (phone s)) = Raised e1 ->
     post_client_list svc (split_first (code "@") (phone s)) = Raised e2 ->
     post_history svc (split_first (code "@") (phone s)) = Raised e3 ->
     load_user_context svc now later s force
     = (true,
        with_context {| clients := []; products := []; history := [];
                        loaded_at := Some later |} s,
        [GetProducts (phone s); GetClients (phone s); GetHistory (phone s)]))
  /\ (fst (fst (load_user_context svc now later s force)) = false ->
      uses_cache now s force = false
      /\ context (snd (fst (load_user_context svc now later s force)))
         = {| clients := []; products := []; history := [];
              loaded_at := Some later |}
      /\ exists l shown,
           In (EOther shown) l
           /\ (post_product_list svc (split_first (code "@") (phone s))
                 = Returned (JArr l)
               \/ post_client_list svc (split_first (code "@") (phone s))
                 = Returned (JArr l)
               \/ post_history svc (split_first (code "@") (phone s))
                 = Returned (JArr l))).
Proof.
  split.
  - intros e1 e2 e3. apply load_user_context_down.
  - apply load_user_context_false.
Qed.

Lemma context_load_reports_witness :
  load_user_context svc_down 0 1 fresh false
  = (true,
     with_context {| clients := []; products := []; history := [];
                     loaded_at := Some 1%Z |} fresh,
     [GetProducts (u "51999888777"); GetClients (u "51999888777");
      GetHistory (u "51999888777")]).
Proof.
  apply (proj1 (context_load_reports svc_down 0 1 fresh false)
           (u "Timeout") (u "Timeout") (u "Timeout")); reflexivity.
Defined.

(** ** What the extractor hands over *)

(** On a text whose only decimal digits are 0 to 9, [extract_all] gives a document kind that is absent,
    01 or 03; the currency PEN or USD; an ID that is absent or well formed;
    priced items that each have a description, a price with a digit other
    than zero and a quantity of at most four characters; and items without
    price only when there is no priced item, none of them a keyword. *)
Theorem extractor_output_is_clean (message : pystr) (s : UserSession) :
  ascii_digits message = true ->
  (x_document_type (extract_all message s) = None
   \/ x_document_type (extract_all message s) = Some (u "01")
   \/ x_document_type (extract_all message s) = Some (u "03"))
  /\ (x_currency (extract_all message s) = Some (u "PEN")
      \/ x_currency (extract_all message s) = Some (u "USD"))
  /\ extracted_id_wf (extract_all message s) = true
  /\ forallb item_ok (x_items (extract_all message s)) = true
  /\ (x_items (extract_all message s) = []
      \/ x_items_sin_precio (extract_all message s) = [])
  /\ forallb (fun p => negb (str_mem (lower (p_descripcion p)) keywords_sin_precio)
                       && negb (is_some (p_precio p)))
       (x_items_sin_precio (extract_all message s)) = true.
Proof.
  intros Hplain.
  split; [|split; [|split; [apply extract_all_id_wf|]]].
  - unfold extract_all. cbv zeta.
    destruct (_extract_items message _) as [its pend]. cbn [x_document_type].
    destruct (matches false _ (lower message)).
    + destruct (_extract_id message) as [[ty num]|]; [|right; now left].
      cbn [truthy negb andb]. right. now left.
    + destruct (matches false _ (lower message)).
      * destruct (_extract_id message) as [[ty num]|]; [|right; now right].
        cbn [truthy negb andb]. right. now right.
      * destruct (_extract_id message) as [[ty num]|]; [|now left].
        cbn [truthy negb andb]. destruct (str_eqb ty (u "1"));
          [right; now right|now left].
  - rewrite extracted_currency. destruct (names_dollars _); [now right|now left].
  - assert (Hi : x_items (extract_all message s)
                 = fst (_extract_items message
                          (x_id_number (extract_all message s)))
                 /\ x_items_sin_precio (extract_all message s)
                    = snd (_extract_items message
                             (x_id_number (extract_all message s)))).
    { unfold extract_all. cbv zeta.
      destruct (_extract_items message _) as [its pend] eqn:E.
      cbn [x_items x_items_sin_precio x_id_number]. rewrite ?E. now split. }
    destruct Hi as [-> ->].
    set (ex := x_id_number (extract_all message s)). clearbody ex.
    split; [apply extract_items_ok|]. split; [apply extract_items_exclusive|].
    unfold _extract_items. cbv zeta. cbn [snd].
    destruct (fst (priced_items _)); [|reflexivity].
    apply sin_precio_ok. reflexivity.
Qed.

Lemma extractor_output_is_clean_witness :
  ascii_digits (u "Factura RUC 20161541991, 2 laptops a 2500 ✅") = true
  /\ extracted_id_wf
       (extract_all (u "Factura RUC 20161541991, 2 laptops a 2500 ✅") fresh)
     = true
  /\ x_items (extract_all (u "Factura RUC 20161541991, 2 laptops a 2500 ✅") fresh)
     = [{| cantidad := u "2"; descripcion := u "laptops"; precio := u "2500" |}].
Proof.
  split; [vm_compute; reflexivity|]. split; [|vm_compute; reflexivity].
  refine (proj1 (proj2 (proj2 (extractor_output_is_clean
                                 (u "Factura RUC 20161541991, 2 laptops a 2500 ✅")
                                 fresh _)))).
  vm_compute. reflexivity.
Defined.

(** ** What the classifier can answer *)

(** The confidence lies between 0.50 and 0.95. The classifier answers
    CONFIRMATION only while a confirmation is awaited and the text is an
    affirmation; CANCEL only for a negation, while a confirmation is awaited
    or an emission is under way; GREETING only for a text shorter than 25
    characters; UNKNOWN exactly with confidence 0.50, and then the text has
    no question mark; EMIT_INVOICE with 0.85 or 0.75. *)
Theorem classifier_answers (message : pystr) (s : UserSession) :
  (50 <= snd (classify message s) <= 95)%Z
  /\ (fst (classify message s) = CONFIRMATION ->
      awaiting_confirmation s = true /\ is_confirmation (strip message) = true)
  /\ (fst (classify message s) = CANCEL ->
      is_cancellation (strip message) = true
      /\ (awaiting_confirmation s = true
          \/ IntentClassifier._has_active_emission s = true))
  /\ (fst (classify message s) = GREETING -> length (strip message) < 25)
  /\ (fst (classify message s) = UNKNOWN ->
      snd (classify message s) = 50%Z
      /\ contains (u "?") (strip message) = false)
  /\ (snd (classify message s) = 50%Z -> fst (classify message s) = UNKNOWN)
  /\ (fst (classify message s) = EMIT_INVOICE ->
      snd (classify message s) = 85%Z \/ snd (classify message s) = 75%Z).
Proof.
  destruct (classify message s) as [i c] eqn:E. cbn [fst snd].
  exact (classify_cases message s i c E).
Qed.

(* ================================================================= *)
(** * The orchestrator *)

(* ================================================================= *)
(** ** services/session_manager.py: the session store *)

Module SessionStore.

(** [identify_client]: it returns the caller's account, raises
    [TinRedAPIError(msg)], or raises something else. *)
Inductive identify_outcome :=
| Identified (client : ClientIdentification)
| IdentifyApiError (msg : pystr)
| IdentifyCrashed.

(** The dict [_sessions]: the entry of a key is the first pair that has
    it. *)
Definition store := list (pystr * UserSession).

Fixpoint store_get (k : pystr) (st : store) : option UserSession :=
  match st with
  | [] => None
  | (k', v) :: st' => if str_eqb k k' then Some v else store_get k st'
  end.

Definition store_set (k : pystr) (v : UserSession) (st : store) : store :=
  (k, v) :: st.

Definition with_last_activity (t : Z) (s : UserSession) : UserSession :=
  {| phone := phone s; user_name := user_name s; client_data := client_data s;
     authenticated := authenticated s; terms_accepted := terms_accepted s;
     emission_data := emission_data s;
     awaiting_confirmation := awaiting_confirmation s;
     awaiting_client_reconfirmation := awaiting_client_reconfirmation s;
     pending_items := pending_items s;
     conversation_context := conversation_context s;
     search_results := search_results s; selected_product := selected_product s;
     context := context s; messages := messages s;
     session_emissions := session_emissions s;
     created_at := created_at s; last_activity := t |}.

Definition with_terms_accepted (b : bool) (s : UserSession) : UserSession :=
  {| phone := phone s; user_name := user_name s; client_data := client_data s;
     authenticated := authenticated s; terms_accepted := b;
     emission_data := emission_data s;
     awaiting_confirmation := awaiting_confirmation s;
     awaiting_client_reconfirmation := awaiting_client_reconfirmation s;
     pending_items := pending_items s;
     conversation_context := conversation_context s;
     search_results := search_results s; selected_product := selected_product s;
     context := context s; messages := messages s;
     session_emissions := session_emissions s;
     created_at := created_at s; last_activity := last_activity s |}.

(** The four assignments of [authenticate_user] after [identify_client]
    returned. *)
Definition with_identity (client : ClientIdentification) (s : UserSession)
  : UserSession :=
  {| phone := phone s; user_name := Nombre client; client_data := Some client;
     authenticated := true; terms_accepted := false;
     emission_data := emission_data s;
     awaiting_confirmation := awaiting_confirmation s;
     awaiting_client_reconfirmation := awaiting_client_reconfirmation s;
     pending_items := pending_items s;
     conversation_context := conversation_context s;
     search_results := search_results s; selected_product := selected_product s;
     context := context s; messages := messages s;
     session_emissions := session_emissions s;
     created_at := created_at s; last_activity := last_activity s |}.

(** [UserSession(phone=...)]: the two stamps are two readings of the
    clock, [created_at] first. *)
Definition created (ph : pystr) (t1 t2 : Z) : UserSession :=
  with_last_activity t2 (UserSession_new ph t1).

(** [settings.SESSION_TTL_HOURS], and [timedelta(hours=...)] in
    microseconds. *)
Definition SESSION_TTL_HOURS : Z := 24.

Definition session_ttl : Z := SESSION_TTL_HOURS * 3600 * 1000000.

(** [get_session]; [clock] gives the readings of [datetime.now()] from
    the one this call makes first. The result is the session, the store
    and the number of readings made. *)
Definition get_session (clock : nat -> Z) (phone : pystr) (sessions : store)
  : UserSession * store * nat :=
  let clean_phone := strip (split_first (code "@") phone) in
  match store_get clean_phone sessions with
  | None =>
    let session := created clean_phone (clock 0) (clock 1) in
    (session, store_set clean_phone session sessions, 2)
  | Some session =>
    let age := (clock 0%nat - last_activity session)%Z in
    if (session_ttl <? age)%Z then
      let renewed := created clean_phone (clock 1) (clock 2) in
      (renewed, store_set clean_phone renewed sessions, 3)
    else (session, sessions, 1)
  end.

(** [authenticate_user]: the error text or [None], the session, and
    whether [identify_client] was called. *)
Definition authenticate_user (identify_client : pystr -> identify_outcome)
    (session : UserSession) : option pystr * UserSession * bool :=
  if authenticated session then (None, session, false)
  else
    match identify_client (phone session) with
    | Identified client => (None, with_identity client session, true)
    | IdentifyApiError e => (Some e, session, true)
    | IdentifyCrashed => (Some (u "Error al verificar tu cuenta"), session, true)
    end.

End SessionStore.
Export SessionStore.

(* ================================================================= *)
(** ** agents/orchestrator.py *)

Module Orchestrator.

(** [transcribe_audio]: the text heard, [AudioTranscriptionError(msg)], or
    another exception. *)
Inductive transcription :=
| Transcribed (text : pystr)
| AudioError (msg : pystr)
| AudioCrashed.

(** What the orchestrator works with: the issuing service, the
    identification of the caller, the transcription, the conversation agent
    (each handler gives its reply, or [None] when it raised, and the session
    as it left it), the text of [f"{x:.2f}"] for an amount, and the
    readings of the clock in the order the session manager, the
    orchestrator and the emission agent make them. *)
Record Env := {
  service : Service;
  identify_client : pystr -> identify_outcome;
  transcribe_audio : pystr -> pystr -> transcription;
  handle_greeting : UserSession -> option pystr * UserSession;
  handle_query : pystr -> IntentType -> UserSession -> option pystr * UserSession;
  format_2f_of : amount -> pystr;
  clock : nat -> Z
}.

(** What a run leaves behind: the calls made on the collaborators and the
    intent logged after the classification. *)
Inductive event :=
| Identify (phone : pystr)
| Request (c : call)
| Intent (i : IntentType) (confidence : Z)
| Greeting
| Query (message : pystr) (i : IntentType).

Record World := {
  sessions : store;
  ticks : nat;
  trace : list event
}.

Definition tick (n : nat) (w : World) : World :=
  {| sessions := sessions w; ticks := n + ticks w; trace := trace w |}.

Definition log (ev : list event) (w : World) : World :=
  {| sessions := sessions w; ticks := ticks w; trace := trace w ++ ev |}.

Definition put (k : pystr) (s : UserSession) (w : World) : World :=
  {| sessions := store_set k s (sessions w); ticks := ticks w; trace := trace w |}.

(** The reading of the clock that comes [n] readings from now. *)
Definition reading (env : Env) (w : World) (n : nat) : Z := clock env (n + ticks w).

(** The text of a reply. *)
Fixpoint render (env : Env) (r : reply) : pystr :=
  match r with
  | Plain s => s
  | Fmt s a rest => s ++ format_2f_of env a ++ render env rest
  end.

(** [str(n)] *)
Fixpoint digits_of (fuel n : nat) (acc : pystr) : pystr :=
  match fuel with
  | O => acc
  | S f =>
    let acc' := (48 + N.of_nat (n mod 10))%N :: acc in
    if Nat.ltb n 10 then acc' else digits_of f (n / 10) acc'
  end.

Definition str_of_nat (n : nat) : pystr := digits_of (S n) n [].

(** [load_user_context(session)] as the orchestrator calls it: [is_stale]
    reads the clock when a context is loaded; a load reads it for the
    stamp, and once more when the lists do not validate, since the empty
    context stored then takes a stamp of its own. *)
Definition load_context (env : Env) (session : UserSession) (w : World)
  : UserSession * World :=
  let stale_reads := if is_loaded (context session) then 1 else 0 in
  let load later :=
    load_user_context (service env) (reading env w 0) later session false in
  let '(loaded, _, calls) := load (reading env w stale_reads) in
  let stamp_reads :=
    match calls with [] => 0 | _ => if loaded then 1 else 2 end in
  let '(_, session', _) := load (reading env w (stale_reads + stamp_reads - 1)) in
  (session', tick (stale_reads + stamp_reads) (log (map Request calls) w)).

(** [session.add_message(role, content)]: one reading for the stamp of the
    message, one for [last_activity]. *)
Definition add_message_now (env : Env) (who : Role) (text : pystr)
    (session : UserSession) (w : World) : UserSession * World :=
  (with_last_activity (reading env w 1)
     (add_message (reading env w 0) who text None session),
   tick 2 w).

(** [session.last_activity = datetime.now()] *)
Definition touch (env : Env) (session : UserSession) (w : World)
  : UserSession * World :=
  (with_last_activity (reading env w 0) session, tick 1 w).

Definition _has_active_emission (session : UserSession) : bool :=
  let emission := emission_data session in
  truthy (document_type emission) || truthy (id_number emission)
  || has_items emission.

Definition _message_has_emission_data (message : pystr) : bool :=
  let msg_lower := lower message in
  existsb (fun w => contains w msg_lower)
    (map u ["factura"; "boleta"; "emitir"; "emite"]%string)
  || matches false (rx "\b\d{8}\b") message
  || matches false (rx "\b[12]0\d{9}\b") message
  || matches false (rx "\d+\s+\w+\s+(a|@|por)\s+\d+") msg_lower.

Definition _looks_like_emission (message : pystr) (session : UserSession) : bool :=
  let msg_lower := lower message in
  existsb (fun w => contains w msg_lower) (map u ["confirmo"; "si"; "sí"; "ok"]%string)
  && existsb
       (fun msg =>
          match role msg with
          | assistant =>
            existsb (fun w => contains w (lower (content msg)))
              (map u ["boleta"; "factura"; "emitir"; "confirmas"]%string)
          | user => false
          end)
       (last_n 3 (messages session)).

(** The emission agent handles the message: its reply as text, the
    session, the calls it made. *)
Definition emission_turn (env : Env) (message : pystr) (session : UserSession)
    (w : World) : option pystr * UserSession * World :=
  let '(r, session, calls) := process_message (service env) message session in
  (Some (render env r), session, log (map Request calls) w).

Definition MENU (session : UserSession) : pystr :=
  u "¿En qué te ayudo, " ++ shown (user_name session) ++ u "?

📄 Emitir Factura
🧾 Emitir Boleta
📦 Ver productos
📊 Historial".

(** [_route] *)
Definition _route (env : Env) (message : pystr) (intent : IntentType)
    (session : UserSession) (w : World) : option pystr * UserSession * World :=
  match intent with
  | EMIT_INVOICE => emission_turn env message session w
  | GREETING =>
    let '(r, session) := handle_greeting env session in (r, session, log [Greeting] w)
  | CANCEL =>
    (Some (u "❌ Cancelado.

📄 Factura | 🧾 Boleta | 📊 Historial"), reset_emission session, w)
  | QUERY_PRODUCTS | QUERY_CLIENTS | QUERY_HISTORY | GENERAL_QUESTION =>
    let '(r, session) := handle_query env message intent session in
    (r, session, log [Query message intent] w)
  | _ =>
    if _looks_like_emission message session
    then emission_turn env message session w
    else (Some (MENU session), session, w)
  end.

(** The end of a handled turn: the reply is added to the history and the
    activity stamped; an exception of the handler leaves before that. *)
Definition answered (env : Env) (o : option pystr * UserSession * World)
  : option pystr * UserSession * World :=
  let '(r, session, w) := o in
  match r with
  | Some response =>
    let '(session, w) := add_message_now env assistant response session w in
    let '(session, w) := touch env session w in
    (Some response, session, w)
  | None => (None, session, w)
  end.

(** Steps 6 to 9 of [handle_message]. *)
Definition dispatch (env : Env) (message : pystr) (session : UserSession)
    (w : World) : option pystr * UserSession * World :=
  if _has_active_emission session
  then answered env (emission_turn env message session w)
  else if _message_has_emission_data message
  then answered env (emission_turn env message session w)
  else
    let '(intent, conf) := classify message session in
    answered env (_route env message intent session (log [Intent intent conf] w)).

Definition WELCOME (session : UserSession) (products_count : nat) : pystr :=
  u "¡Hola " ++ shown (user_name session) ++ u "! 👋

Soy Jack, tu asistente de facturación de TinRed.

Tengo " ++ str_of_nat products_count ++ u " productos en tu cuenta.

Para continuar, acepta nuestros términos y políticas:
📋 https://www.tinred.pe/terminos.html
🔒 https://www.tinred.pe/privacidad.html
🛡️ https://www.tinred.pe/seguridad_informacion.html
📜 https://www.tinred.pe/declaracion_seguridad.html

¿Aceptas los términos? Responde " ++ [34%N] ++ u "Sí" ++ [34%N] ++ u ".".

Definition TERMS_ACCEPTED (session : UserSession) : pystr :=
  u "✅ ¡Términos aceptados!

¿Qué necesitas, " ++ shown (user_name session) ++ u "?

📄 Emitir Factura
🧾 Emitir Boleta
📦 Ver productos
📊 Historial".

(** [handle_message] from the session on: steps 1 to 9. *)
Definition serve (env : Env) (message : pystr) (session : UserSession) (w : World)
  : option pystr * UserSession * World :=
  if negb (authenticated session) then
    let '(error, session, asked) := authenticate_user (identify_client env) session in
    let w := if asked then log [Identify (phone session)] w else w in
    if truthy error
    then (Some (u "❌ No encontré tu número en TinRed.
📧 soporte@tinred.pe"), session, w)
    else
      let '(session, w) := load_context env session w in
      let products_count := length (products (context session)) in
      (Some (WELCOME session products_count), session, w)
  else if negb (terms_accepted session) then
    if is_confirmation message
    then (Some (TERMS_ACCEPTED session), with_terms_accepted true session, w)
    else if is_cancellation message
    then (Some (u "Sin aceptar términos no puedo ayudarte. 👋"), session, w)
    else (Some (u "Necesito que aceptes los términos. ¿Aceptas? Sí/No"), session, w)
  else
    let '(session, w) :=
      if negb (is_loaded (context session)) then load_context env session w
      else (session, w) in
    let '(session, w) := add_message_now env user message session w in
    if awaiting_client_reconfirmation session
    then answered env (emission_turn env message session w)
    else if awaiting_confirmation session && is_confirmation message then
      let session := with_awaiting_confirmation false session in
      let '(r, session', calls) :=
        execute_emission (service env) (reading env w 0) session in
      let recorded := length (session_emissions session')
                      - length (session_emissions session) in
      let w := tick recorded (log (map Request calls) w) in
      let response := render env r in
      let '(session', w) := add_message_now env assistant response session' w in
      (Some response, session', w)
    else if awaiting_confirmation session && is_cancellation message then
      (Some (u "❌ Cancelado.

¿Qué más necesitas?"),
       reset_emission (with_awaiting_confirmation false session), w)
    else dispatch env message session w.

(** [handle_message]: the reply, or [None] when an exception leaves the
    handler. The session is an object of the store, so what the handler did
    to it stays there. *)
Definition handle_message (env : Env) (phone message : pystr)
    (file_base64 mime_type : option pystr) (w : World) : option pystr * World :=
  let heard :=
    match file_base64, mime_type with
    | Some (b :: bs), Some (c :: cs) =>
      if startswith (u "audio") (c :: cs)
      then Some (transcribe_audio env (b :: bs) (c :: cs)) else None
    | _, _ => None
    end in
  match heard with
  | Some (AudioError e) => (Some (u "🎤 " ++ e), w)
  | Some AudioCrashed => (None, w)
  | _ =>
    let message :=
      match heard with Some (Transcribed text) => text | _ => message end in
    if negb (nonempty message) || negb (nonempty (strip message))
    then (Some (u "No recibí ningún mensaje. ¿En qué puedo ayudarte?"), w)
    else
      let message := strip message in
      let '(session, sessions', reads) :=
        get_session (fun n => reading env w n) phone (sessions w) in
      let w := tick reads {| sessions := sessions'; ticks := ticks w;
                             trace := trace w |} in
      let '(r, session, w) := serve env message session w in
      (r, put (strip (split_first (code "@") phone)) session w)
  end.

End Orchestrator.
Export Orchestrator.

(** ** The orchestrator: who reaches the agents *)

(** [strip] strips once and for all. *)
Definition clean_head (t : pystr) : bool :=
  match t with c :: _ => negb (is_space c) | [] => true end.

Lemma lstrip_clean (t : pystr) : clean_head (lstrip t) = true.
Proof.
  induction t as [|c t IH]; [reflexivity|]. cbn [lstrip].
  destruct (is_space c) eqn:E; [exact IH|]. cbn [clean_head]. now rewrite E.
Qed.

Lemma lstrip_id (t : pystr) : clean_head t = true -> lstrip t = t.
Proof.
  destruct t as [|c t]; [reflexivity|]. cbn [clean_head lstrip].
  now destruct (is_space c).
Qed.

Lemma lstrip_suffix (t : pystr) : exists sp, t = sp ++ lstrip t.
Proof.
  induction t as [|c t [sp IH]]; [now exists []|]. cbn [lstrip].
  destruct (is_space c); [|now exists []].
  exists (c :: sp). cbn [app]. now rewrite <- IH.
Qed.

Lemma strip_clean (t : pystr) :
  clean_head (strip t) = true /\ clean_head (rev (strip t)) = true.
Proof.
  unfold strip. rewrite rev_involutive. split; [|apply lstrip_clean].
  pose proof (lstrip_clean t) as Hl. set (l := lstrip t) in *. clearbody l.
  destruct (lstrip_suffix (rev l)) as [sp Hsp].
  pose proof (lstrip_clean (rev l)) as Hm. set (m := lstrip (rev l)) in *.
  clearbody m. assert (El : l = rev m ++ rev sp).
  { rewrite <- (rev_involutive l), Hsp, rev_app_distr. reflexivity. }
  destruct (rev m) as [|c r] eqn:Er; [reflexivity|].
  rewrite El in Hl. exact Hl.
Qed.

Lemma strip_idempotent (t : pystr) : strip (strip t) = strip t.
Proof.
  destruct (strip_clean t) as [H1 H2]. set (x := strip t) in *. clearbody x.
  unfold strip. rewrite (lstrip_id x H1), (lstrip_id (rev x) H2).
  apply rev_involutive.
Qed.

(** The events that stand for work of an agent: a question to the service
    about a client, an issuance, a classification, a call of the
    conversation agent. Identifying the caller and loading the lists are
    not among them. *)
Definition gated (e : event) : bool :=
  match e with
  | Identify _ => false
  | Request (GetProducts _) | Request (GetClients _) | Request (GetHistory _) => false
  | _ => true
  end.

Definition issues (e : event) : bool :=
  match e with Request c => is_emit c | _ => false end.

(** An intent the router has a use for. *)
Definition routable (e : event) : bool :=
  match e with
  | Intent CONFIRMATION _ | Intent CANCEL _ => false
  | _ => true
  end.

(** The standing of a session: who may use it and what it waits for. *)
Definition standing (s : UserSession) :=
  (authenticated s, terms_accepted s, awaiting_confirmation s,
   awaiting_client_reconfirmation s, emission_data s).

(** [w'] is [w] with the same store and the events [evs] added. *)
Definition adds (w w' : World) (evs : list event) : Prop :=
  sessions w' = sessions w /\ trace w' = trace w ++ evs.

Lemma adds_nil (w : World) : adds w w [].
Proof. split; [reflexivity|now rewrite app_nil_r]. Qed.

Lemma adds_trans (w w1 w2 : World) (a b : list event) :
  adds w w1 a -> adds w1 w2 b -> adds w w2 (a ++ b).
Proof.
  intros [S1 T1] [S2 T2]. split; [congruence|].
  now rewrite T2, T1, app_assoc.
Qed.

Lemma adds_tick (n : nat) (w w' : World) (evs : list event) :
  adds w w' evs -> adds w (tick n w') evs.
Proof. intros H. exact H. Qed.

Lemma adds_log (w : World) (evs : list event) : adds w (log evs w) evs.
Proof. split; reflexivity. Qed.

Definition is_load (c : call) : bool :=
  match c with GetProducts _ | GetClients _ | GetHistory _ => true | _ => false end.

Lemma load_context_adds (env : Env) (s : UserSession) (w : World) :
  standing (fst (load_context env s w)) = standing s
  /\ exists calls,
       adds w (snd (load_context env s w)) (map Request calls)
       /\ forallb is_load calls = true.
Proof.
  unfold load_context. cbv zeta.
  set (reads := if is_loaded (context s) then 1 else 0). clearbody reads.
  unfold load_user_context.
  destruct (negb false && is_loaded (context s) && negb (is_stale _ 60 (context s))).
  - split; [reflexivity|]. exists []. split; [|reflexivity].
    apply adds_tick, adds_log.
  - cbv zeta.
    destruct (as_records (get_clients (service env) (phone s))),
      (as_records (get_products (service env) (phone s))),
      (as_records (get_history (service env) (phone s)));
      (split; [reflexivity|]);
      exists [GetProducts (phone s); GetClients (phone s); GetHistory (phone s)];
      (split; [apply adds_tick, adds_log|reflexivity]).
Qed.

Lemma add_message_now_adds (env : Env) (who : Role) (text : pystr)
    (s : UserSession) (w : World) :
  standing (fst (add_message_now env who text s w)) = standing s
  /\ adds w (snd (add_message_now env who text s w)) [].
Proof. split; [reflexivity|]. exact (adds_tick 2 w w [] (adds_nil w)). Qed.

(** The events of a run of the emission agent on a message. *)
Definition asks (evs : list event) : Prop :=
  evs = [] \/ exists ph doc, evs = [Request (CheckClient ph doc)].

Lemma emission_turn_adds (env : Env) (message : pystr) (s : UserSession)
    (w : World) :
  exists evs, adds w (snd (emission_turn env message s w)) evs /\ asks evs.
Proof.
  unfold emission_turn.
  pose proof (verdict_process_message (service env) message s) as Hv.
  destruct (process_message (service env) message s) as [[r s'] calls].
  unfold verdict in Hv. cbn [calls_of session_of fst snd] in Hv.
  exists (map Request calls). split; [apply adds_log|].
  destruct Hv as [->|(doc & -> & _)]; [now left|].
  right. now exists (phone s'), doc.
Qed.

Lemma answered_adds (env : Env) (o : option pystr * UserSession * World)
    (w : World) (evs : list event) :
  adds w (snd o) evs -> adds w (snd (answered env o)) evs.
Proof.
  destruct o as [[[response|] s] w1]; intros H; exact H.
Qed.

Lemma route_adds (env : Env) (message : pystr) (i : IntentType)
    (s : UserSession) (w : World) :
  exists evs,
    adds w (snd (_route env message i s w)) evs
    /\ existsb issues evs = false /\ forallb routable evs = true.
Proof.
  assert (Hturn : exists evs,
            adds w (snd (emission_turn env message s w)) evs
            /\ existsb issues evs = false /\ forallb routable evs = true).
  { destruct (emission_turn_adds env message s w) as (evs & Ha & Hq).
    exists evs. split; [exact Ha|].
    destruct Hq as [->|(ph & doc & ->)]; split; reflexivity. }
  assert (Hquery : forall j, exists evs,
            adds w (snd (let '(r, s') := handle_query env message j s in
                         (r, s', log [Query message j] w))) evs
            /\ existsb issues evs = false /\ forallb routable evs = true).
  { intros j. destruct (handle_query env message j s) as [r s'].
    exists [Query message j]. split; [apply adds_log|split; reflexivity]. }
  assert (Hrest : exists evs,
            adds w (snd (if _looks_like_emission message s
                         then emission_turn env message s w
                         else (Some (MENU s), s, w))) evs
            /\ existsb issues evs = false /\ forallb routable evs = true).
  { destruct (_looks_like_emission message s); [exact Hturn|].
    exists []. split; [apply adds_nil|split; reflexivity]. }
  destruct i; cbn [_route]; try exact Hturn; try apply Hquery; try exact Hrest.
  - exists []. split; [apply adds_nil|split; reflexivity].
  - destruct (handle_greeting env s) as [r s'].
    exists [Greeting]. split; [apply adds_log|split; reflexivity].
Qed.

Lemma dispatch_adds (env : Env) (message : pystr) (s : UserSession) (w : World) :
  strip message = message ->
  (awaiting_confirmation s = true ->
   is_confirmation message = false /\ is_cancellation message = false) ->
  exists evs,
    adds w (snd (dispatch env message s w)) evs
    /\ existsb issues evs = false /\ forallb routable evs = true.
Proof.
  intros Hstrip Hwait.
  assert (Hturn : exists evs,
            adds w (snd (answered env (emission_turn env message s w))) evs
            /\ existsb issues evs = false /\ forallb routable evs = true).
  { destruct (emission_turn_adds env message s w) as (evs & Ha & Hq).
    exists evs. split; [now apply answered_adds|].
    destruct Hq as [->|(ph & doc & ->)]; split; reflexivity. }
  unfold dispatch. destruct (_has_active_emission s) eqn:Hact; [exact Hturn|].
  destruct (_message_has_emission_data message); [exact Hturn|].
  destruct (classify message s) as [i c] eqn:Hc.
  destruct (route_adds env message i s (log [Intent i c] w))
    as (evs & Ha & Hi & Hr).
  exists (Intent i c :: evs). split.
  - apply answered_adds.
    exact (adds_trans w _ _ [Intent i c] evs (adds_log w _) Ha).
  - split; [exact Hi|]. cbn [forallb]. rewrite Hr, andb_true_r.
    destruct (classify_cases message s i c Hc) as (_ & Hconf & Hcancel & _).
    rewrite Hstrip in Hconf, Hcancel.
    destruct i; try reflexivity.
    + destruct (Hconf eq_refl) as [Hw Hyes].
      destruct (Hwait Hw) as [Hno _]. rewrite Hyes in Hno. discriminate Hno.
    + destruct (Hcancel eq_refl) as [Hyes [Hw|Ha']].
      * destruct (Hwait Hw) as [_ Hno]. rewrite Hyes in Hno. discriminate Hno.
      * unfold _has_active_emission in Hact.
        unfold IntentClassifier._has_active_emission in Ha'.
        rewrite Ha' in Hact. discriminate Hact.
Qed.

Lemma loads_prefix (calls : list call) (b : list event) :
  forallb is_load calls = true ->
  existsb gated (map Request calls ++ b) = existsb gated b
  /\ existsb issues (map Request calls ++ b) = existsb issues b
  /\ filter issues (map Request calls ++ b) = filter issues b
  /\ forallb routable (map Request calls ++ b) = forallb routable b.
Proof.
  induction calls as [|c calls IH]; intros H; [repeat split|].
  cbn [forallb] in H. apply andb_true_iff in H as [Hc H].
  destruct (IH H) as (I1 & I2 & I3 & I4).
  destruct c; try discriminate Hc; cbn; now rewrite ?I1, ?I2, ?I3, ?I4.
Qed.

Lemma requests_routable (calls : list call) :
  forallb routable (map Request calls) = true.
Proof. induction calls as [|c calls IH]; [reflexivity|exact IH]. Qed.

Lemma execute_emission_calls (svc : Service) (now : Z) (s : UserSession) :
  length (calls_of (execute_emission svc now s)) <= 1.
Proof.
  unfold execute_emission. cbv zeta.
  destruct (get_missing_fields (emission_data (backfill s))).
  - destruct (negb _).
    + unfold _validate_and_continue. cbv zeta.
      destruct (id_number (emission_data (backfill s))) as [[|c n]|];
        try (cbn; lia).
      destruct (check_client svc _ _) as [[|] result];
        [destruct (has_items _); [rewrite calls_of_pair|]|]; cbn; lia.
    + destruct (emit_invoice svc _ _ _ _ _ _) as [resp|msg|]; try (cbn; lia).
      destruct (is_successful resp); cbn; lia.
  - rewrite calls_of_pair. cbn. lia.
Qed.

Lemma filter_issues_requests (calls : list call) :
  length (filter issues (map Request calls)) <= length calls.
Proof.
  induction calls as [|c calls IH]; [cbn; lia|]. cbn [map filter issues].
  destruct (is_emit c); cbn [length]; lia.
Qed.

Lemma filter_none {A : Type} (f : A -> bool) (l : list A) :
  existsb f l = false -> filter f l = [].
Proof.
  induction l as [|x l IH]; [reflexivity|]. cbn [existsb filter].
  destruct (f x); [discriminate|]. exact IH.
Qed.

(** What a turn adds to the trace, from the session on. *)
Lemma serve_adds (env : Env) (message : pystr) (s : UserSession) (w : World) :
  strip message = message ->
  exists evs,
    adds w (snd (serve env message s w)) evs
    /\ (existsb gated evs = true ->
        authenticated s = true /\ terms_accepted s = true)
    /\ (existsb issues evs = true ->
        awaiting_confirmation s = true
        /\ awaiting_client_reconfirmation s = false
        /\ is_confirmation message = true)
    /\ length (filter issues evs) <= 1
    /\ forallb routable evs = true.
Proof.
  intros Hstrip. unfold serve.
  destruct (authenticated s) eqn:Hauth; cbn [negb].
  2:{ (* the caller is not identified yet *)
    unfold authenticate_user. rewrite Hauth.
    destruct (identify_client env (phone s)) as [client|e|].
    - cbn [truthy].
      destruct (load_context_adds env (with_identity client s)
                  (log [Identify (phone (with_identity client s))] w))
        as (_ & calls & Ha & Hl).
      destruct (load_context env (with_identity client s) _) as [s1 w1].
      cbn [snd] in *.
      exists ([Identify (phone (with_identity client s))] ++ map Request calls).
      split; [exact (adds_trans w _ _ _ _ (adds_log w _) Ha)|].
      destruct (loads_prefix calls [] Hl) as (G & I & F & R).
      rewrite app_nil_r in G, I, F, R.
      cbn [app existsb gated issues filter forallb routable orb andb].
      rewrite G, I, F, R. repeat split; try discriminate. cbn. lia.
    - destruct (truthy (Some e)).
      + exists [Identify (phone s)]. split; [apply adds_log|].
        repeat split; try discriminate. cbn. lia.
      + destruct (load_context_adds env s (log [Identify (phone s)] w))
          as (_ & calls & Ha & Hl).
        destruct (load_context env s _) as [s1 w1]. cbn [snd] in *.
        exists ([Identify (phone s)] ++ map Request calls).
        split; [exact (adds_trans w _ _ _ _ (adds_log w _) Ha)|].
        destruct (loads_prefix calls [] Hl) as (G & I & F & R).
        rewrite app_nil_r in G, I, F, R.
        cbn [app existsb gated issues filter forallb routable orb andb].
        rewrite G, I, F, R. repeat split; try discriminate. cbn. lia.
    - exists [Identify (phone s)]. split; [apply adds_log|].
      repeat split; try discriminate. cbn. lia. }
  destruct (terms_accepted s) eqn:Hterms; cbn [negb].
  2:{ (* the terms are not accepted yet *)
    exists []. split.
    - destruct (is_confirmation message); [apply adds_nil|].
      destruct (is_cancellation message); apply adds_nil.
    - repeat split; try discriminate. cbn. lia. }
  (* the context, then the message *)
  assert (Hload : exists s1 w1 calls,
            (if negb (is_loaded (context s)) then load_context env s w
             else (s, w)) = (s1, w1)
            /\ standing s1 = standing s
            /\ adds w w1 (map Request calls) /\ forallb is_load calls = true).
  { destruct (negb (is_loaded (context s))).
    - destruct (load_context_adds env s w) as (Hs & calls & Ha & Hl).
      destruct (load_context env s w) as [s1 w1]. now exists s1, w1, calls.
    - exists s, w, []. split; [reflexivity|]. split; [reflexivity|].
      split; [apply adds_nil|reflexivity]. }
  destruct Hload as (s1 & w1 & calls & -> & Hs1 & Ha1 & Hl).
  destruct (add_message_now_adds env user message s1 w1) as (Hs2 & Ha2).
  destruct (add_message_now env user message s1 w1) as [s2 w2].
  cbn [fst snd] in Hs2, Ha2. rewrite Hs1 in Hs2. clear Hs1.
  assert (Hw2 : adds w w2 (map Request calls)).
  { rewrite <- (app_nil_r (map Request calls)).
    exact (adds_trans w w1 w2 _ _ Ha1 Ha2). }
  clear Ha1 Ha2 w1 s1.
  unfold standing in Hs2. injection Hs2 as _ _ Hconf Hreconf Hdata.
  assert (Hfinish : forall (o : option pystr * UserSession * World) b,
            adds w2 (snd o) b ->
            (existsb issues b = true ->
             awaiting_confirmation s = true
             /\ awaiting_client_reconfirmation s = false
             /\ is_confirmation message = true) ->
            length (filter issues b) <= 1 ->
            forallb routable b = true ->
            exists evs,
              adds w (snd o) evs
              /\ (existsb gated evs = true -> true = true /\ true = true)
              /\ (existsb issues evs = true ->
                  awaiting_confirmation s = true
                  /\ awaiting_client_reconfirmation s = false
                  /\ is_confirmation message = true)
              /\ length (filter issues evs) <= 1
              /\ forallb routable evs = true).
  { intros o b Hb Hi Hf Hr. exists (map Request calls ++ b).
    split; [exact (adds_trans w w2 _ _ _ Hw2 Hb)|].
    destruct (loads_prefix calls b Hl) as (G & I & F & R).
    rewrite I, F, R. split; [intros _; now split|].
    split; [exact Hi|]. split; [exact Hf|exact Hr]. }
  destruct (awaiting_client_reconfirmation s2) eqn:Hre.
  { (* a document is awaited *)
    destruct (emission_turn_adds env message s2 w2) as (b & Hb & Hq).
    apply (Hfinish _ b (answered_adds env _ w2 b Hb));
      destruct Hq as [->|(ph & doc & ->)]; try discriminate;
      try reflexivity; cbn; lia. }
  destruct (awaiting_confirmation s2) eqn:Hco; cbn [andb].
  - destruct (is_confirmation message) eqn:Hyes.
    + (* the review is confirmed *)
      pose proof (execute_emission_calls (service env) (reading env w2 0)
                    (with_awaiting_confirmation false s2)) as Hlen.
      destruct (execute_emission (service env) (reading env w2 0)
                  (with_awaiting_confirmation false s2)) as [[r s3] cs].
      cbn [calls_of snd] in Hlen. cbv zeta.
      apply (Hfinish _ (map Request cs)).
      * cbn [snd add_message_now]. apply adds_tick, adds_tick, adds_log.
      * intros _. rewrite <- Hconf, <- Hreconf. now repeat split.
      * pose proof (filter_issues_requests cs). lia.
      * apply requests_routable.
    + destruct (is_cancellation message) eqn:Hno.
      * apply (Hfinish _ []); [apply adds_nil|discriminate|cbn; lia|reflexivity].
      * destruct (dispatch_adds env message s2 w2 Hstrip) as (b & Hb & Hi & Hr);
          [intros _; now split|].
        apply (Hfinish _ b Hb); [now rewrite Hi|
          rewrite (filter_none issues b Hi); cbn; lia|exact Hr].
  - destruct (dispatch_adds env message s2 w2 Hstrip) as (b & Hb & Hi & Hr);
      [intros Hx; rewrite Hco in Hx; discriminate Hx|].
    apply (Hfinish _ b Hb); [now rewrite Hi|
      rewrite (filter_none issues b Hi); cbn; lia|exact Hr].
Qed.

(** The session [handle_message] gets for the caller, and the message it
    works on: the one typed, or the one heard, stripped. *)
Definition caller (env : Env) (phone : pystr) (w : World) : UserSession :=
  fst (fst (get_session (fun n => reading env w n) phone (sessions w))).

Definition worked_on (env : Env) (message : pystr)
    (file_base64 mime_type : option pystr) : pystr :=
  strip
    match file_base64, mime_type with
    | Some (b :: bs), Some (c :: cs) =>
      if startswith (u "audio") (c :: cs) then
        match transcribe_audio env (b :: bs) (c :: cs) with
        | Transcribed text => text
        | _ => message
        end
      else message
    | _, _ => message
    end.

Lemma handle_message_adds (env : Env) (phone message : pystr)
    (file_base64 mime_type : option pystr) (w : World) :
  exists evs,
    trace (snd (handle_message env phone message file_base64 mime_type w))
    = trace w ++ evs
    /\ (existsb gated evs = true ->
        authenticated (caller env phone w) = true
        /\ terms_accepted (caller env phone w) = true)
    /\ (existsb issues evs = true ->
        awaiting_confirmation (caller env phone w) = true
        /\ awaiting_client_reconfirmation (caller env phone w) = false
        /\ is_confirmation (worked_on env message file_base64 mime_type) = true)
    /\ length (filter issues evs) <= 1
    /\ forallb routable evs = true.
Proof.
  assert (Hnone : forall r : option pystr,
            exists evs,
              trace (snd (r, w)) = trace w ++ evs
              /\ (existsb gated evs = true ->
                  authenticated (caller env phone w) = true
                  /\ terms_accepted (caller env phone w) = true)
              /\ (existsb issues evs = true ->
                  awaiting_confirmation (caller env phone w) = true
                  /\ awaiting_client_reconfirmation (caller env phone w) = false
                  /\ is_confirmation
                       (worked_on env message file_base64 mime_type) = true)
              /\ length (filter issues evs) <= 1
              /\ forallb routable evs = true).
  { intros r. exists []. split; [cbn [snd]; now rewrite app_nil_r|].
    repeat split; try discriminate. cbn. lia. }
  assert (Hsome : forall said : pystr,
            worked_on env message file_base64 mime_type = strip said ->
            exists evs,
              trace
                (snd
                   (if negb (nonempty said) || negb (nonempty (strip said))
                    then (Some (u "No recibí ningún mensaje. ¿En qué puedo ayudarte?"), w)
                    else
                      let '(session, sessions', reads) :=
                        get_session (fun n => reading env w n) phone (sessions w) in
                      let w0 := tick reads {| sessions := sessions';
                                              ticks := ticks w;
                                              trace := trace w |} in
                      let '(r, session0, w1) := serve env (strip said) session w0 in
                      (r, put (strip (split_first (code "@") phone)) session0 w1)))
              = trace w ++ evs
              /\ (existsb gated evs = true ->
                  authenticated (caller env phone w) = true
                  /\ terms_accepted (caller env phone w) = true)
              /\ (existsb issues evs = true ->
                  awaiting_confirmation (caller env phone w) = true
                  /\ awaiting_client_reconfirmation (caller env phone w) = false
                  /\ is_confirmation
                       (worked_on env message file_base64 mime_type) = true)
              /\ length (filter issues evs) <= 1
              /\ forallb routable evs = true).
  { intros said Hsaid. destruct (negb (nonempty said) || _); [apply Hnone|].
    unfold caller. rewrite Hsaid.
    destruct (get_session _ phone (sessions w)) as [[s0 st] reads].
    cbn [fst]. cbv zeta.
    destruct (serve_adds env (strip said) s0
                (tick reads {| sessions := st; ticks := ticks w;
                               trace := trace w |})
                (strip_idempotent said))
      as (evs & [_ Ht] & Hg & Hi & Hf & Hr).
    destruct (serve env (strip said) s0 _) as [[r s1] w1].
    cbn [snd put trace tick] in *. exists evs.
    split; [exact Ht|]. split; [exact Hg|]. split; [exact Hi|].
    split; [exact Hf|exact Hr]. }
  unfold handle_message. cbv zeta. unfold worked_on in *.
  destruct file_base64 as [[|b bs]|]; try (apply Hsome; reflexivity).
  destruct mime_type as [[|c cs]|]; try (apply Hsome; reflexivity).
  destruct (startswith (u "audio") (c :: cs)); [|apply Hsome; reflexivity].
  destruct (transcribe_audio env (b :: bs) (c :: cs)) as [text| |];
    [apply Hsome; reflexivity|apply Hnone|apply Hnone].
Qed.

Lemma issues_gated (evs : list event) :
  existsb issues evs = true -> existsb gated evs = true.
Proof.
  induction evs as [|e evs IH]; [discriminate|]. cbn [existsb].
  intros H. apply orb_true_iff in H as [H|H].
  - destruct e as [ph|c|i conf| |m i]; try discriminate H.
    destruct c; try discriminate H. reflexivity.
  - rewrite (IH H). apply orb_true_r.
Qed.

(** A caller the service identifies as [merchant]; every document is the
    client JUAN PEREZ; the store endpoint accepts; the clock ticks once per
    reading. *)
Definition env_demo : Env :=
  {| service := svc_found "JUAN PEREZ" accepted;
     identify_client := fun _ => Identified merchant;
     transcribe_audio := fun _ _ => AudioError (u "No pude procesar el audio");
     handle_greeting := fun s => (Some (u "¡Hola!"), s);
     handle_query := fun _ _ s => (Some (u "Tus productos"), s);
     format_2f_of := fun _ => u "7500.00";
     clock := fun n => Z.of_nat n |}.

(** The store holds the caller's session, the review open. *)
Definition in_review : World :=
  {| sessions := [(u "51999888777", with_awaiting_confirmation true reviewing)];
     ticks := 0; trace := [] |}.

(** ** Who reaches the agents *)

(** Whatever arrives, a turn only adds events to the trace, and it asks
    about a client, issues, classifies or calls the conversation agent only
    for a caller whose session is authenticated and has the terms accepted:
    before that the only calls identify the caller and load the lists. *)
Theorem agents_serve_only_accepted_callers
    (env : Env) (phone message : pystr) (file_base64 mime_type : option pystr)
    (w : World) :
  exists evs,
    trace (snd (handle_message env phone message file_base64 mime_type w))
    = trace w ++ evs
    /\ (existsb gated evs = true ->
        authenticated (caller env phone w) = true
        /\ terms_accepted (caller env phone w) = true).
Proof.
  destruct (handle_message_adds env phone message file_base64 mime_type w)
    as (evs & Ht & Hg & _).
  exists evs. split; [exact Ht|exact Hg].
Qed.

(** ** Issuing takes a confirmed review *)

(** A turn calls the store endpoint at most once, and only when the
    caller's session is authenticated with the terms accepted, waits for the
    confirmation of a review and not for a document, and the message, typed
    or heard, is an affirmation. *)
Theorem issuance_needs_a_confirmed_review
    (env : Env) (phone message : pystr) (file_base64 mime_type : option pystr)
    (w : World) :
  exists evs,
    trace (snd (handle_message env phone message file_base64 mime_type w))
    = trace w ++ evs
    /\ length (filter issues evs) <= 1
    /\ (existsb issues evs = true ->
        authenticated (caller env phone w) = true
        /\ terms_accepted (caller env phone w) = true
        /\ awaiting_confirmation (caller env phone w) = true
        /\ awaiting_client_reconfirmation (caller env phone w) = false
        /\ is_confirmation (worked_on env message file_base64 mime_type) = true).
Proof.
  destruct (handle_message_adds env phone message file_base64 mime_type w)
    as (evs & Ht & Hg & Hi & Hf & _).
  exists evs. split; [exact Ht|]. split; [exact Hf|].
  intros H. destruct (Hg (issues_gated evs H)) as [Ha Hterms].
  destruct (Hi H) as (Hc & Hr & Hy).
  split; [exact Ha|]. split; [exact Hterms|]. split; [exact Hc|].
  split; [exact Hr|exact Hy].
Qed.

Lemma issuance_needs_a_confirmed_review_witness :
  awaiting_confirmation (caller env_demo (u "51999888777@c.us") in_review) = true
  /\ is_confirmation (worked_on env_demo (u " sí ") None None) = true.
Proof.
  destruct (issuance_needs_a_confirmed_review env_demo (u "51999888777@c.us")
              (u " sí ") None None in_review) as (evs & Ht & _ & Hi).
  vm_compute in Ht. subst evs.
  destruct (Hi eq_refl) as (_ & _ & Hc & _ & Hy). split; [exact Hc|exact Hy].
Defined.

(** ** Intents the router never meets *)

(** When [handle_message] comes to classify, no emission is under way and
    a pending confirmation was neither affirmed nor denied; so the intent it
    logs and routes is never CONFIRMATION and never CANCEL. *)
Theorem router_never_meets_confirmation_or_cancel
    (env : Env) (phone message : pystr) (file_base64 mime_type : option pystr)
    (w : World) :
  exists evs,
    trace (snd (handle_message env phone message file_base64 mime_type w))
    = trace w ++ evs
    /\ forall i confidence,
         In (Intent i confidence) evs -> i <> CONFIRMATION /\ i <> CANCEL.
Proof.
  destruct (handle_message_adds env phone message file_base64 mime_type w)
    as (evs & Ht & _ & _ & _ & Hr).
  exists evs. split; [exact Ht|]. intros i c Hin.
  rewrite forallb_forall in Hr. specialize (Hr _ Hin).
  destruct i; try discriminate Hr; split; discriminate.
Qed.

(** ** The life of a session *)

(** [get_session] keys the store by the part of the phone before the at
    sign, stripped. A caller without an entry gets a new session; one
    whose last activity is more than 24 hours old gets a new session in
    place of the old one, whatever that held; otherwise the stored session
    is used. A turn of a caller whose session expired therefore reaches no
    agent. *)
Theorem expired_sessions_start_over (env : Env) (phone : pystr) (w : World) :
  (store_get (strip (split_first (code "@") phone)) (sessions w) = None ->
   caller env phone w
   = created (strip (split_first (code "@") phone))
       (reading env w 0) (reading env w 1))
  /\ (forall s,
        store_get (strip (split_first (code "@") phone)) (sessions w) = Some s ->
        ((session_ttl < reading env w 0 - last_activity s)%Z ->
         caller env phone w
         = created (strip (split_first (code "@") phone))
             (reading env w 1) (reading env w 2))
        /\ ((reading env w 0 - last_activity s <= session_ttl)%Z ->
            caller env phone w = s)
        /\ ((session_ttl < reading env w 0 - last_activity s)%Z ->
            forall message file_base64 mime_type,
            exists evs,
              trace (snd (handle_message env phone message file_base64
                            mime_type w))
              = trace w ++ evs
              /\ existsb gated evs = false)).
Proof.
  split.
  - intros H. unfold caller, get_session. cbv zeta. now rewrite H.
  - intros s H.
    assert (Hold : (session_ttl < reading env w 0 - last_activity s)%Z ->
                   caller env phone w
                   = created (strip (split_first (code "@") phone))
                       (reading env w 1) (reading env w 2)).
    { intros Hage. unfold caller, get_session. cbv zeta. rewrite H.
      apply Z.ltb_lt in Hage. now rewrite Hage. }
    split; [exact Hold|]. split.
    + intros Hage. unfold caller, get_session. cbv zeta. rewrite H.
      apply Z.ltb_ge in Hage. now rewrite Hage.
    + intros Hage message fb mt.
      destruct (handle_message_adds env phone message fb mt w)
        as (evs & Ht & Hg & _).
      exists evs. split; [exact Ht|].
      destruct (existsb gated evs); [|reflexivity].
      destruct (Hg eq_refl) as [Ha _]. rewrite (Hold Hage) in Ha.
      discriminate Ha.
Qed.

(** The review was opened a day and a second ago. *)
Definition day_after : Env :=
  {| service := svc_found "JUAN PEREZ" accepted;
     identify_client := fun _ => Identified merchant;
     transcribe_audio := fun _ _ => AudioError (u "No pude procesar el audio");
     handle_greeting := fun s => (Some (u "¡Hola!"), s);
     handle_query := fun _ _ s => (Some (u "Tus productos"), s);
     format_2f_of := fun _ => u "7500.00";
     clock := fun n => (86401000000 + Z.of_nat n)%Z |}.

Lemma expired_sessions_start_over_witness :
  emission_data (caller day_after (u "51999888777@c.us") in_review)
  = EmissionData_new
  /\ authenticated (caller day_after (u "51999888777@c.us") in_review) = false.
Proof.
  destruct (expired_sessions_start_over day_after (u "51999888777@c.us")
              in_review) as [_ H].
  destruct (H (with_awaiting_confirmation true reviewing) eq_refl)
    as [Hold _].
  rewrite Hold; [split; reflexivity|]. vm_compute. reflexivity.
Defined.

(** * Prices and the currency *)

(** ** Prices *)

(** A price as the agent stores it: digits, then nothing or a point and
    one or two digits. *)
Definition decimal (p : pystr) : bool :=
  let '(whole, r) := take_digits p in
  nonempty whole
  && match r with
     | [] => true
     | c :: f =>
       (c =? 46)%N && forallb is_digit f
       && Nat.leb 1 (length f) && Nat.leb (length f) 2
     end.

Lemma take_digits_app (ds r : pystr) :
  forallb is_digit ds = true ->
  match r with [] => true | c :: _ => negb (is_digit c) end = true ->
  take_digits (ds ++ r) = (ds, r).
Proof.
  intros Hd Hr. induction ds as [|d ds IH]; cbn [app].
  - destruct r as [|c r]; [reflexivity|]. cbn [take_digits].
    apply negb_true_iff in Hr. now rewrite Hr.
  - cbn [forallb] in Hd. apply andb_true_iff in Hd as [Hd Hds].
    cbn [take_digits]. rewrite Hd, (IH Hds). reflexivity.
Qed.

Lemma decimal_parts (ds f : pystr) :
  nonempty ds = true -> forallb is_digit ds = true ->
  forallb is_digit f = true -> 1 <= length f <= 2 ->
  decimal (ds ++ 46%N :: f) = true /\ decimal ds = true.
Proof.
  intros Hne Hd Hf Hl. unfold decimal. split.
  - rewrite (take_digits_app ds (46%N :: f) Hd eq_refl).
    rewrite Hne, Hf. cbn [andb N.eqb Pos.eqb].
    destruct Hl as [H1 H2]. apply Nat.leb_le in H1, H2. now rewrite H1, H2.
  - rewrite <- (app_nil_r ds) at 1. rewrite (take_digits_app ds [] Hd eq_refl).
    now rewrite Hne.
Qed.

(** [t.replace(",", ".")] *)
Definition point (c : N) : N := if (c =? 44)%N then 46%N else c.

Lemma replace_comma_fuel (fuel : nat) (t : pystr) :
  length t <= fuel -> replace_fuel fuel (u ",") (u ".") t = map point t.
Proof.
  revert t. induction fuel as [|fuel IH]; intros t Hl.
  - destruct t; [reflexivity|cbn in Hl; lia].
  - destruct t as [|c t]; [reflexivity|]. cbn [replace_fuel].
    change (u ",") with [44%N]. change (u ".") with [46%N].
    cbn [startswith length skipn map app]. unfold point at 1.
    rewrite N.eqb_sym.
    destruct (c =? 44)%N; cbn [andb]; rewrite IH by (cbn in Hl; lia);
      reflexivity.
Qed.

Lemma replace_comma (t : pystr) : replace (u ",") (u ".") t = map point t.
Proof.
  unfold replace. change (u ",") with [44%N] at 1.
  apply replace_comma_fuel. lia.
Qed.

Lemma point_digits (ds : pystr) :
  forallb is_digit ds = true -> map point ds = ds.
Proof.
  induction ds as [|d ds IH]; [reflexivity|]. cbn [forallb map].
  intros H. apply andb_true_iff in H as [Hd Hds]. rewrite (IH Hds).
  unfold point. destruct (d =? 44)%N eqn:E; [|reflexivity].
  apply N.eqb_eq in E. subst d. discriminate Hd.
Qed.

(** Case variants of the characters below the letters are themselves. *)
Lemma lower_char_low (c x : N) : (x < 65)%N -> lower_char c = x -> c = x.
Proof.
  unfold lower_char, in_range. intros Hx.
  destruct (65 <=? c)%N eqn:E1; destruct (c <=? 90)%N eqn:E2; cbn [andb];
    try (apply N.leb_le in E1); try (apply N.leb_le in E2);
    try (intros H; lia);
    destruct (192 <=? c)%N eqn:E3; destruct (c <=? 222)%N eqn:E4;
    destruct (c =? 215)%N; cbn [andb negb];
    try (apply N.leb_le in E3); try (apply N.leb_le in E4);
    intros H; lia.
Qed.

Lemma upper_simple_low (c x : N) : (x < 65)%N -> upper_simple c = x -> c = x.
Proof.
  unfold upper_simple, in_range. intros Hx.
  destruct (97 <=? c)%N eqn:E1; destruct (c <=? 122)%N eqn:E2; cbn [andb];
    try (apply N.leb_le in E1); try (apply N.leb_le in E2);
    try (intros H; lia);
    destruct (c =? 181)%N; try (intros H; lia);
    destruct (c =? 255)%N; try (intros H; lia);
    destruct (224 <=? c)%N eqn:E3; destruct (c <=? 254)%N eqn:E4;
    destruct (c =? 247)%N; cbn [andb negb];
    try (apply N.leb_le in E3); try (apply N.leb_le in E4);
    intros H; lia.
Qed.

Lemma is_digit_low (c : N) : is_digit c = true -> (c < 65)%N.
Proof.
  unfold is_digit, in_range. intros H. apply andb_true_iff in H as [_ H].
  apply N.leb_le in H. lia.
Qed.

Lemma class_digit (ic : bool) (c : N) :
  class_accepts ic false [IDigit] c = true -> is_digit c = true.
Proof.
  unfold class_accepts. cbn [existsb item_accepts xorb].
  rewrite !orb_false_r. destruct ic; [|trivial].
  intros H. apply orb_true_iff in H as [H|H];
    [apply orb_true_iff in H as [H|H]; [exact H|]|].
  - pose proof (lower_char_low c _ (is_digit_low _ H) eq_refl) as E.
    now rewrite <- E in H.
  - pose proof (upper_simple_low c _ (is_digit_low _ H) eq_refl) as E.
    now rewrite <- E in H.
Qed.

Lemma class_separator (ic : bool) (c : N) :
  class_accepts ic false [IChar 46; IChar 44] c = true -> point c = 46%N.
Proof.
  assert (Hhit : forall x, (x =? 46)%N || ((x =? 44)%N || false) = true ->
                           x = 46%N \/ x = 44%N).
  { intros x H. apply orb_true_iff in H as [H|H]; [left; now apply N.eqb_eq|].
    rewrite orb_false_r in H. right. now apply N.eqb_eq. }
  assert (Hpoint : c = 46%N \/ c = 44%N -> point c = 46%N).
  { intros [-> | ->]; reflexivity. }
  unfold class_accepts. cbn [existsb item_accepts xorb].
  destruct ic; [|intros H; apply Hpoint, Hhit, H].
  intros H. apply orb_true_iff in H as [H|H];
    [apply orb_true_iff in H as [H|H]; [apply Hpoint, Hhit, H|]|].
  - apply Hhit in H. apply Hpoint.
    destruct H as [H|H]; [left|right];
      (apply lower_char_low; [lia|exact H]).
  - apply Hhit in H. apply Hpoint.
    destruct H as [H|H]; [left|right];
      (apply upper_simple_low; [lia|exact H]).
Qed.

Lemma forallb_digits (ic : bool) (w : pystr) :
  forallb (class_accepts ic false [IDigit]) w = true -> forallb is_digit w = true.
Proof.
  induction w as [|c w IH]; [reflexivity|]. cbn [forallb]. intros H.
  apply andb_true_iff in H as [Hc Hw]. now rewrite (class_digit ic c Hc), IH.
Qed.

Lemma run_rep_cls_inv ic neg items lo hi g s w s' :
  run ic (Rep (Cls neg items) lo hi g) s w s' ->
  lo <= length w
  /\ (forall h, hi = Some h -> length w <= lo + (h - lo))
  /\ forallb (class_accepts ic neg items) w = true.
Proof.
  intros H. inversion H as [| | | | | | | | |a lo' hi' g' k s0 w0 s0' Hlo Hhi Hit| |];
    subst.
  apply iter_cls in Hit as [Hl Hf]. subst k.
  split; [exact Hlo|]. split; [exact Hhi|exact Hf].
Qed.

Lemma run_optional_inv ic a g s w s' :
  run ic (Rep a 0 (Some 1) g) s w s' -> w = [] \/ run ic a s w s'.
Proof.
  intros H. inversion H as [| | | | | | | | |a' lo' hi' g' k s0 w0 s0' Hlo Hhi Hit| |];
    subst.
  specialize (Hhi 1 eq_refl).
  inversion Hit as [s1|n s1 w1 s2 w2 s3 H1 H2]; subst; [now left|].
  right. inversion H2 as [s4|n' s4 w3 s5 w4 s6 H3 H4]; subst; [|lia].
  now rewrite app_nil_r.
Qed.

(** [\d+(?:[.,]\d{1,2})?] *)
Definition price_re : re :=
  Cat (Rep (Cls false [IDigit]) 1 None true)
    (Rep (Cat (Cls false [IChar 46; IChar 44])
            (Rep (Cls false [IDigit]) 1 (Some 2) true)) 0 (Some 1) true).

Lemma nonempty_length (t : pystr) : 1 <= length t -> nonempty t = true.
Proof. destruct t; [cbn; lia|reflexivity]. Qed.

Lemma run_price (ic : bool) s w s' :
  run ic price_re s w s' -> decimal (map point w) = true.
Proof.
  intros H. apply run_cat_inv in H as (ds & s1 & rest & -> & H1 & H2).
  apply run_rep_cls_inv in H1 as (Hl & _ & Hd). apply forallb_digits in Hd.
  rewrite map_app, (point_digits ds Hd).
  apply run_optional_inv in H2 as [->|H2].
  - cbn [map]. rewrite app_nil_r.
    apply (decimal_parts ds [48%N]); [now apply nonempty_length|exact Hd| |];
      [reflexivity|cbn; lia].
  - apply run_cat_inv in H2 as (sep & s2 & f & -> & H2 & H3).
    apply run_cls_inv in H2 as (c & -> & Hc & _).
    apply run_rep_cls_inv in H3 as (Hf1 & Hf2 & Hf). apply forallb_digits in Hf.
    specialize (Hf2 2 eq_refl). cbn [app map].
    rewrite (class_separator ic c Hc), (point_digits f Hf).
    apply (decimal_parts ds f); [now apply nonempty_length|exact Hd|exact Hf|lia].
Qed.

(** [\d+] *)
Lemma run_digits (ic : bool) s w s' :
  run ic (Rep (Cls false [IDigit]) 1 None true) s w s' ->
  nonempty w = true /\ forallb is_digit w = true.
Proof.
  intros H. apply run_rep_cls_inv in H as (Hl & _ & Hd).
  split; [now apply nonempty_length|now apply (forallb_digits ic)].
Qed.

(** [ends_with n g r]: the sequence [r] ends in the group [n], made of
    [g], and at most a part that sets no group. *)
Inductive ends_with (n : nat) (g : re) : re -> Prop :=
| ends_group : ends_with n g (Group n g)
| ends_here suf : capless suf = true -> ends_with n g (Cat (Group n g) suf)
| ends_cat p r : ends_with n g r -> ends_with n g (Cat p r).

Lemma ends_with_run ic t (n : nat) (g r : re) :
  ends_with n g r ->
  forall s0 w s', on_text t s0 -> run ic r s0 w s' ->
  exists s1 s2 a b rest,
    m_caps s' = (n, (a, b)) :: rest /\ run ic g s1 (substr t a b) s2.
Proof.
  induction 1 as [|suf Hsuf|p r Hf IH]; intros s0 w s' Hs Hr.
  - apply run_group_inv in Hr as (s1' & Hg & ->). cbn [set_cap m_caps].
    exists s0, s1', (m_pos s0), (m_pos s1'), (m_caps s1').
    split; [reflexivity|].
    destruct (on_text_run ic g t s0 s1' w Hs Hg) as [_ ->]. exact Hg.
  - apply run_cat_inv in Hr as (w1 & s1 & w2 & -> & H1 & H2).
    apply run_group_inv in H1 as (s1' & Hg & ->).
    rewrite (capless_run ic suf Hsuf _ _ _ H2). cbn [set_cap m_caps].
    exists s0, s1', (m_pos s0), (m_pos s1'), (m_caps s1').
    split; [reflexivity|].
    destruct (on_text_run ic g t s0 s1' w1 Hs Hg) as [_ ->]. exact Hg.
  - apply run_cat_inv in Hr as (w1 & s1 & w2 & -> & H1 & H2).
    destruct (on_text_run ic p t s0 s1 w1 Hs H1) as [Hs1 _].
    exact (IH s1 w2 s' Hs1 H2).
Qed.

Lemma ends_with_match ic t (n : nat) (g r : re) (m : rmatch) :
  ends_with (S n) g r -> match_of ic r t m ->
  exists s1 s2, run ic g s1 (group_str t m (S n)) s2.
Proof.
  intros Hf (s0 & w & Hs & _ & _ & Hr & _ & Hcaps).
  destruct (ends_with_run ic t (S n) g r Hf s0 w _ Hs Hr)
    as (s1 & s2 & a & b & rest & Hc & Hg).
  rewrite Hc in Hcaps. unfold group_str, group. rewrite Hcaps.
  cbn [cap_lookup]. rewrite Nat.eqb_refl. now exists s1, s2.
Qed.

Ltac ends :=
  repeat first [apply ends_group | apply ends_here; reflexivity | apply ends_cat].

Definition price_ok (i : InvoiceItem) : bool := decimal (precio i).

Lemma take_digits_digits (p : pystr) :
  forallb is_digit (fst (take_digits p)) = true.
Proof.
  induction p as [|c p IH]; [reflexivity|]. cbn [take_digits].
  destruct (is_digit c) eqn:E; [|reflexivity].
  destruct (take_digits p) as [d r]. cbn [fst forallb] in *. now rewrite E, IH.
Qed.

Lemma drop_zeros_digits (t : pystr) :
  nonempty t = true -> forallb is_digit t = true ->
  nonempty (drop_zeros t) = true /\ forallb is_digit (drop_zeros t) = true.
Proof.
  induction t as [|c t IH]; [discriminate|]. intros _ Hd.
  cbn [forallb] in Hd. apply andb_true_iff in Hd as [Hc Ht].
  destruct t as [|c' t']; [cbn; now rewrite Hc|].
  cbn [drop_zeros]. destruct (c =? 48)%N.
  - apply IH; [reflexivity|exact Ht].
  - split; [reflexivity|]. cbn [forallb] in *. now rewrite Hc, Ht.
Qed.

Lemma format_2f_decimal (p : pystr) :
  decimal p = true -> decimal (format_2f p) = true.
Proof.
  unfold decimal, format_2f. pose proof (take_digits_digits p) as Hw.
  destruct (take_digits p) as [whole r]. cbn [fst] in Hw.
  intros H. apply andb_true_iff in H as [Hne Hr].
  destruct (drop_zeros_digits whole Hne Hw) as [Hne' Hw'].
  set (frac := match r with _ :: f => fst (take_digits f) | [] => [] end).
  assert (Hfrac : forallb is_digit frac = true).
  { subst frac. destruct r as [|c f]; [reflexivity|apply take_digits_digits]. }
  clearbody frac.
  assert (Hxy : forallb is_digit (firstn 2 (frac ++ [48; 48]%N)) = true
                /\ length (firstn 2 (frac ++ [48; 48]%N)) = 2).
  { destruct frac as [|a [|b frac]]; cbn [app firstn forallb length] in *;
      [now split| |].
    - apply andb_true_iff in Hfrac as [-> _]. now split.
    - apply andb_true_iff in Hfrac as [-> Hfrac].
      apply andb_true_iff in Hfrac as [-> _]. now split. }
  destruct Hxy as [Hxy Hlen]. change (u ".") with [46%N]. cbn [app].
  rewrite (take_digits_app (drop_zeros whole) (46%N :: _) Hw' eq_refl).
  rewrite Hne', Hxy, Hlen. reflexivity.
Qed.

Lemma candidates_decimal (t : pystr) :
  forall c, In c (parsed_candidates t) -> price_ok c = true.
Proof.
  assert (Hcounted : forall r ms,
            ends_with 3 price_re r ->
            (forall m, In m ms -> match_of true r t m) ->
            forall c, In c (flat_map (candidate_counted t) ms) ->
                      price_ok c = true).
  { intros r ms Hr Hms c Hc. apply in_flat_map in Hc as (m & Hm & Hc).
    unfold candidate_counted in Hc.
    destruct (Nat.leb 5 _); [destruct Hc|]. destruct Hc as [<-|[]].
    unfold price_ok. cbn [precio]. rewrite replace_comma.
    destruct (ends_with_match true t 2 price_re r m Hr (Hms m Hm))
      as (s1 & s2 & Hrun).
    exact (run_price true _ _ _ Hrun). }
  intros c Hc. unfold parsed_candidates in Hc.
  apply in_app_or in Hc as [Hc|Hc]; [|apply in_app_or in Hc as [Hc|Hc]].
  - apply (Hcounted pattern1 (re_finditer true pattern1 t)); [| |exact Hc].
    + unfold pattern1. ends.
    + intros m. apply re_finditer_sound.
  - apply (Hcounted pattern2 (re_finditer true pattern2 t)); [| |exact Hc].
    + unfold pattern2. ends.
    + intros m. apply re_finditer_sound.
  - apply in_flat_map in Hc as (m & Hm & Hc). unfold candidate_single in Hc.
    destruct (str_mem _ keywords3); [destruct Hc|]. destruct Hc as [<-|[]].
    unfold price_ok. cbn [precio]. rewrite replace_comma.
    apply re_finditer_sound in Hm.
    destruct (ends_with_match true t 1 price_re pattern3 m) as (s1 & s2 & Hrun);
      [unfold pattern3; ends|exact Hm|].
    exact (run_price true _ _ _ Hrun).
Qed.

Lemma extract_items_decimal (message : pystr) (exclude_number : option pystr) :
  forallb price_ok (fst (_extract_items message exclude_number)) = true.
Proof.
  rewrite extract_items_priced, priced_items_candidates.
  set (t := normalize message exclude_number). clearbody t.
  destruct (add_fold (parsed_candidates t) [] (NoDup_nil _))
    as (added & Heq & Hsub & _).
  change (map item_key []) with (@nil key) in Heq. rewrite Heq.
  cbn [fst app]. apply forallb_forall. intros c Hc.
  apply (candidates_decimal t). exact (subseq_In _ _ c Hsub Hc).
Qed.

Lemma extract_price_decimal (message p : pystr) :
  _extract_price message = Some p -> decimal p = true.
Proof.
  unfold _extract_price.
  destruct (re_search false _ message) as [m|] eqn:E; [|discriminate].
  intros H. injection H as <-. apply format_2f_decimal.
  rewrite replace_comma_fuel by lia. apply re_search_sound in E.
  destruct (ends_with_match false message 0 price_re (Group 1 price_re) m)
    as (s1 & s2 & Hrun); [ends|exact E|].
  exact (run_price false _ _ _ Hrun).
Qed.

Lemma conversation_items_decimal (content : pystr) :
  forallb price_ok (conversation_items content) = true.
Proof.
  unfold conversation_items. cbv zeta. apply forallb_forall. intros i Hi.
  apply in_map_iff in Hi as (m & <- & Hm). apply re_finditer_sound in Hm.
  unfold price_ok. cbn [precio]. apply format_2f_decimal.
  eapply (ends_with_match false (lower content) 2
            (Rep (Cls false [IDigit]) 1 None true)) in Hm; [|ends].
  destruct Hm as (s1 & s2 & Hrun).
  apply run_digits in Hrun as [Hne Hd].
  apply (decimal_parts _ [48%N] Hne Hd); [reflexivity|cbn; lia].
Qed.

Definition prices_ok (e : EmissionData) : bool := forallb price_ok (items e).

Lemma prices_same (e e' : EmissionData) :
  items e' = items e -> prices_ok e = true -> prices_ok e' = true.
Proof. unfold prices_ok. now intros ->. Qed.

Lemma extract_all_items (message : pystr) (s : UserSession) :
  forallb price_ok (x_items (extract_all message s)) = true.
Proof.
  unfold extract_all. cbv zeta.
  pose proof (extract_items_decimal message
                (option_map snd (_extract_id message))) as H.
  destruct (_extract_items message _) as [its pend]. exact H.
Qed.

Lemma prices_update_emission (e : EmissionData) (x : Extracted) :
  forallb price_ok (x_items x) = true -> prices_ok e = true ->
  prices_ok (update_emission e x) = true.
Proof.
  intros Hx He. rewrite update_emission_fields. unfold prices_ok. cbn [items].
  destruct (merge_items_spec (items e) (x_items x)) as (added & -> & Hsub & _).
  rewrite forallb_app. unfold prices_ok in He. rewrite He. cbn [andb].
  apply forallb_forall. intros i Hi. rewrite forallb_forall in Hx.
  apply Hx. exact (subseq_In _ _ i Hsub Hi).
Qed.

Lemma prices_extract_from_message (e : EmissionData) (m : ConversationMessage) :
  prices_ok e = true -> prices_ok (extract_from_message e m) = true.
Proof.
  unfold extract_from_message. cbv zeta.
  set (e1 := if negb (truthy (document_type e)) then _ else e).
  assert (H1 : items e1 = items e).
  { subst e1. destruct (negb _); [|reflexivity].
    destruct (contains _ _); [reflexivity|]. now destruct (contains _ _). }
  clearbody e1.
  set (e2 := if negb (truthy (id_number e1)) then _ else e1).
  assert (H2 : items e2 = items e1).
  { subst e2. destruct (negb _); [|reflexivity].
    now destruct (re_search _ _ _). }
  clearbody e2.
  set (e3 := if negb (truthy (id_number e2)) then _ else e2).
  assert (H3 : items e3 = items e2).
  { subst e3. destruct (negb _); [|reflexivity].
    destruct (re_search _ _ _); [|reflexivity]. now destruct (_ <=? _)%N. }
  clearbody e3. intros He.
  assert (He3 : prices_ok e3 = true).
  { unfold prices_ok in *. now rewrite H3, H2, H1. }
  destruct (negb (has_items e3)); [|exact He3].
  unfold prices_ok in *. cbn [set_items items].
  now rewrite forallb_app, He3, conversation_items_decimal.
Qed.

Lemma prices_backfill (s : UserSession) :
  prices_ok (emission_data s) = true ->
  prices_ok (emission_data (backfill s)) = true.
Proof.
  unfold backfill. destruct (negb _); [|trivial].
  unfold _extract_from_conversation. cbv zeta. fields.
  generalize (emission_data s) as e.
  induction (last_n 10 (messages s)) as [|m l IH]; intros e He;
    cbn [fold_left].
  - destruct (_ && _); exact He.
  - apply IH. now apply prices_extract_from_message.
Qed.

Lemma prices_apply_pending_price (message : pystr) (s : UserSession) :
  prices_ok (emission_data s) = true ->
  prices_ok (emission_data (apply_pending_price message s)) = true.
Proof.
  intros He. unfold apply_pending_price.
  destruct (pending_items s) as [|p ps]; [exact He|].
  destruct (_extract_price message) as [precio|] eqn:E; [|exact He].
  unfold prices_ok in *. fields. rewrite forallb_app, He. cbn [andb].
  apply forallb_forall. intros i Hi. apply in_map_iff in Hi as (q & <- & _).
  unfold price_ok. cbn [Schemas.precio].
  exact (extract_price_decimal message precio E).
Qed.

Lemma items_validate (svc : Service) (s : UserSession) :
  items (emission_data (session_of (_validate_and_continue svc s)))
  = items (emission_data s).
Proof.
  unfold _validate_and_continue. cbv zeta.
  destruct (id_number (emission_data s)) as [[|c n]|]; try reflexivity.
  destruct (check_client svc (phone s) (c :: n)) as [[|] result];
    [|reflexivity].
  destruct (has_items _); [rewrite session_of_pair|]; reflexivity.
Qed.

Lemma items_request_data (missing : list field) (s : UserSession) :
  items (emission_data (snd (_request_data missing s)))
  = items (emission_data s).
Proof.
  unfold _request_data. cbv zeta.
  destruct (field_in tipo_documento missing).
  - destruct (opt_is _ "1").
    + destruct (request_rest_session (remove_first tipo_documento missing)
                  (with_emission
                     (set_document_type (Some (u "03")) (emission_data s)) s))
        as [_ ->].
      reflexivity.
    + destruct (opt_is _ "6"); reflexivity.
  - destruct (request_rest_session missing s) as [_ ->]. reflexivity.
Qed.

Lemma prices_check_missing (svc : Service) (message : pystr) (x : Extracted)
    (s : UserSession) :
  prices_ok (emission_data s) = true ->
  prices_ok (emission_data (session_of (check_missing svc message x s))) = true.
Proof.
  intros He. apply (prices_apply_pending_price message) in He.
  unfold check_missing. cbv zeta.
  set (s1 := apply_pending_price message s) in *. clearbody s1.
  assert (Hval : prices_ok (emission_data
                              (session_of (_validate_and_continue svc s1)))
                 = true)
    by exact (prices_same _ _ (items_validate svc s1) He).
  destruct (_is_initial_request _ _ _); [exact He|].
  destruct (_ && _); [exact Hval|].
  destruct (match get_missing_fields (emission_data s1) with
            | [] => true | _ => false end).
  { destruct (client_validated _); [|exact Hval].
    rewrite session_of_pair. exact He. }
  destruct (_ && field_in identificacion_cliente _); [exact He|].
  destruct (_ && field_in productos _); [exact He|].
  rewrite session_of_pair.
  exact (prices_same _ _ (items_request_data _ s1) He).
Qed.

Lemma prices_process_message (svc : Service) (message : pystr) (s : UserSession) :
  prices_ok (emission_data s) = true ->
  prices_ok (emission_data (session_of (process_message svc message s))) = true.
Proof.
  intros He. unfold process_message. cbv zeta.
  destruct (_is_cancellation _); [reflexivity|].
  destruct (awaiting_client_reconfirmation s).
  { unfold _handle_client_reconfirmation. cbv zeta.
    destruct (_is_cancellation _); [reflexivity|].
    destruct (_extract_document_number message) as [[ty num]|]; [|exact He].
    apply (prices_same _ _ (items_validate svc _)). exact He. }
  set (confirms := str_mem _ _). clearbody confirms.
  set (s1 := if confirms then backfill s else s).
  assert (He1 : prices_ok (emission_data s1) = true).
  { subst s1. destruct confirms; [now apply prices_backfill|exact He]. }
  clearbody s1.
  destruct (confirms && _).
  { destruct (negb _).
    - exact (prices_same _ _ (items_validate svc s1) He1).
    - rewrite session_of_pair. exact He1. }
  destruct (str_mem _ _); [exact He1|].
  destruct (str_mem _ _); [exact He1|].
  assert (He2 : prices_ok (emission_data
                             (update_session s1 (extract_all message s1)))
                = true).
  { apply prices_update_emission; [apply extract_all_items|exact He1]. }
  set (x := extract_all message s1) in *. clearbody x.
  pose proof (prices_check_missing svc message x (update_session s1 x) He2)
    as Hrest.
  destruct (x_items_sin_precio x) as [|item pend]; [exact Hrest|].
  destruct (x_items x) as [|i its]; [|exact Hrest].
  exact He2.
Qed.

Lemma prices_execute_emission (svc : Service) (now : Z) (s : UserSession) :
  prices_ok (emission_data s) = true ->
  prices_ok (emission_data (session_of (execute_emission svc now s))) = true.
Proof.
  intros He. apply prices_backfill in He. unfold execute_emission. cbv zeta.
  set (s1 := backfill s) in *. clearbody s1.
  destruct (get_missing_fields (emission_data s1)) as [|f fs].
  - destruct (negb _);
      [exact (prices_same _ _ (items_validate svc s1) He)|].
    destruct (emit_invoice svc _ _ _ _ _ _) as [resp|msg|]; try exact He.
    destruct (is_successful resp); [reflexivity|exact He].
  - rewrite session_of_pair.
    exact (prices_same _ _ (items_request_data _ s1) He).
Qed.

Lemma reachable_prices (s : UserSession) :
  reachable s -> prices_ok (emission_data s) = true.
Proof.
  induction 1 as [ph now|s s' Hr IH Hstep]; [reflexivity|].
  destruct Hstep as [svc message|svc now| |s' He].
  - now apply prices_process_message.
  - now apply prices_execute_emission.
  - reflexivity.
  - now rewrite He.
Qed.

(** On texts whose only decimal digits are 0 to 9, every price the
    extractor gives is digits, then nothing or a point and one or two
    digits. When moreover no number of the text has more than thirteen
    digits, so is every price read from a message, and every price of an
    item in a state the agent reaches on such texts: a text [float] reads,
    so the review and the issuance can format it. *)
Theorem prices_are_numerals :
  (forall message s,
     ascii_digits message = true ->
     forallb price_ok (x_items (extract_all message s)) = true)
  /\ (forall message p,
        plain message = true ->
        _extract_price message = Some p -> decimal p = true)
  /\ (forall s, reachable_on plain s -> prices_ok (emission_data s) = true).
Proof.
  split; [intros message s Hplain; apply extract_all_items|].
  split; [intros message p Hplain; apply extract_price_decimal|].
  intros s Hr. apply reachable_prices. exact (reachable_on_reachable plain s Hr).
Qed.

Lemma prices_are_numerals_witness :
  plain (u "a 12,5 cada uno") = true
  /\ _extract_price (u "a 12,5 cada uno") = Some (u "12.50")
  /\ decimal (u "12.50") = true
  /\ prices_ok (emission_data not_found_turn) = true.
Proof.
  destruct prices_are_numerals as (_ & Hprice & Hreach).
  split; [vm_compute; reflexivity|]. split; [vm_compute; reflexivity|]. split.
  - apply (Hprice (u "a 12,5 cada uno")); vm_compute; reflexivity.
  - apply Hreach. apply not_found_turn_on. vm_compute. reflexivity.
Defined.

(** ** The currency *)

Definition currency_ok (e : EmissionData) : bool :=
  opt_is (currency e) "PEN" || opt_is (currency e) "USD".

Lemma currency_same (e e' : EmissionData) :
  currency e' = currency e -> currency_ok e = true -> currency_ok e' = true.
Proof. unfold currency_ok. now intros ->. Qed.

Lemma currency_update (e : EmissionData) (message : pystr) (s : UserSession) :
  currency_ok (update_emission e (extract_all message s)) = true.
Proof.
  rewrite update_emission_fields. unfold currency_ok. cbn [currency].
  rewrite extracted_currency. destruct (names_dollars _); reflexivity.
Qed.

Lemma currency_validate (svc : Service) (s : UserSession) :
  currency (emission_data (session_of (_validate_and_continue svc s)))
  = currency (emission_data s).
Proof.
  unfold _validate_and_continue. cbv zeta.
  destruct (id_number (emission_data s)) as [[|c n]|]; try reflexivity.
  destruct (check_client svc (phone s) (c :: n)) as [[|] result];
    [|reflexivity].
  destruct (has_items _); [rewrite session_of_pair|]; reflexivity.
Qed.

Lemma currency_request_data (missing : list field) (s : UserSession) :
  currency (emission_data (snd (_request_data missing s)))
  = currency (emission_data s).
Proof.
  unfold _request_data. cbv zeta.
  destruct (field_in tipo_documento missing).
  - destruct (opt_is _ "1").
    + destruct (request_rest_session (remove_first tipo_documento missing)
                  (with_emission
                     (set_document_type (Some (u "03")) (emission_data s)) s))
        as [_ ->].
      reflexivity.
    + destruct (opt_is _ "6"); reflexivity.
  - destruct (request_rest_session missing s) as [_ ->]. reflexivity.
Qed.

Lemma currency_apply_pending_price (message : pystr) (s : UserSession) :
  currency (emission_data (apply_pending_price message s))
  = currency (emission_data s).
Proof.
  unfold apply_pending_price. destruct (pending_items s); [reflexivity|].
  now destruct (_extract_price message).
Qed.

Lemma currency_check_missing (svc : Service) (message : pystr) (x : Extracted)
    (s : UserSession) :
  currency (emission_data (session_of (check_missing svc message x s)))
  = currency (emission_data s).
Proof.
  unfold check_missing. cbv zeta.
  rewrite <- (currency_apply_pending_price message s).
  set (s1 := apply_pending_price message s). clearbody s1.
  destruct (_is_initial_request _ _ _); [reflexivity|].
  destruct (_ && _); [apply currency_validate|].
  destruct (match get_missing_fields (emission_data s1) with
            | [] => true | _ => false end).
  { destruct (client_validated _); [|apply currency_validate].
    now rewrite session_of_pair. }
  destruct (_ && field_in identificacion_cliente _); [reflexivity|].
  destruct (_ && field_in productos _); [reflexivity|].
  rewrite session_of_pair. apply currency_request_data.
Qed.

Lemma currency_process_message (svc : Service) (message : pystr)
    (s : UserSession) :
  currency_ok (emission_data s) = true ->
  currency_ok (emission_data (session_of (process_message svc message s))) = true.
Proof.
  intros He. unfold process_message. cbv zeta.
  destruct (_is_cancellation _); [reflexivity|].
  destruct (awaiting_client_reconfirmation s).
  { unfold _handle_client_reconfirmation. cbv zeta.
    destruct (_is_cancellation _); [reflexivity|].
    destruct (_extract_document_number message) as [[ty num]|]; [|exact He].
    apply (currency_same _ _ (currency_validate svc _)). exact He. }
  set (confirms := str_mem _ _). clearbody confirms.
  set (s1 := if confirms then backfill s else s).
  assert (He1 : currency_ok (emission_data s1) = true).
  { subst s1. destruct confirms; [|exact He].
    destruct (backfill_keeps_rest s) as (_ & Hc & _).
    exact (currency_same _ _ Hc He). }
  clearbody s1.
  destruct (confirms && _).
  { destruct (negb _).
    - exact (currency_same _ _ (currency_validate svc s1) He1).
    - rewrite session_of_pair. exact He1. }
  destruct (str_mem _ _); [exact He1|].
  destruct (str_mem _ _); [exact He1|].
  pose proof (currency_update (emission_data s1) message s1) as He2.
  set (x := extract_all message s1) in *. clearbody x.
  pose proof (currency_check_missing svc message x (update_session s1 x))
    as Hrest.
  destruct (x_items_sin_precio x) as [|item pend];
    [exact (currency_same _ _ Hrest He2)|].
  destruct (x_items x) as [|i its]; [|exact (currency_same _ _ Hrest He2)].
  exact He2.
Qed.

Lemma currency_execute_emission (svc : Service) (now : Z) (s : UserSession) :
  currency_ok (emission_data s) = true ->
  currency_ok (emission_data (session_of (execute_emission svc now s))) = true.
Proof.
  intros He. destruct (backfill_keeps_rest s) as (_ & Hc & _).
  apply (currency_same _ _ Hc) in He. unfold execute_emission. cbv zeta.
  set (s1 := backfill s) in *. clearbody s1.
  destruct (get_missing_fields (emission_data s1)) as [|f fs].
  - destruct (negb _);
      [exact (currency_same _ _ (currency_validate svc s1) He)|].
    destruct (emit_invoice svc _ _ _ _ _ _) as [resp|msg|]; try exact He.
    destruct (is_successful resp); [reflexivity|exact He].
  - rewrite session_of_pair.
    exact (currency_same _ _ (currency_request_data _ s1) He).
Qed.

Lemma reachable_currency (s : UserSession) :
  reachable s -> currency_ok (emission_data s) = true.
Proof.
  induction 1 as [ph now|s s' Hr IH Hstep]; [reflexivity|].
  destruct Hstep as [svc message|svc now| |s' He].
  - now apply currency_process_message.
  - now apply currency_execute_emission.
  - reflexivity.
  - now rewrite He.
Qed.

(** The currency of an issuance. *)
Definition call_currency_ok (c : call) : bool :=
  match c with
  | EmitInvoice _ _ cur _ _ _ => opt_is cur "PEN" || opt_is cur "USD"
  | _ => true
  end.

(** In every state the agent reaches the currency is PEN or USD, so
    [is_complete] holds exactly when [get_missing_fields] is empty, and an
    issuance carries one of the two currencies, although it is passed
    without a check. *)
Theorem currency_is_always_set (s : UserSession) :
  reachable s ->
  currency_ok (emission_data s) = true
  /\ (is_complete (emission_data s) = true
      <-> get_missing_fields (emission_data s) = [])
  /\ (forall svc now,
        forallb call_currency_ok (calls_of (execute_emission svc now s)) = true).
Proof.
  intros Hr. pose proof (reachable_currency s Hr) as He.
  split; [exact He|]. split.
  - assert (Hcur : truthy (currency (emission_data s)) = true).
    { unfold currency_ok, opt_is in He.
      destruct (currency (emission_data s)) as [[|c cs]|]; try discriminate He.
      reflexivity. }
    rewrite no_missing_fields. unfold is_complete, has_items. rewrite Hcur.
    destruct (truthy (document_type (emission_data s))),
      (truthy (id_type (emission_data s))),
      (truthy (id_number (emission_data s))),
      (items (emission_data s)); cbn; split; intros H; try reflexivity;
      try discriminate H.
  - intros svc now. destruct (backfill_keeps_rest s) as (_ & Hc & _).
    unfold execute_emission. cbv zeta.
    destruct (get_missing_fields (emission_data (backfill s))).
    + destruct (negb _).
      * unfold _validate_and_continue. cbv zeta.
        destruct (id_number (emission_data (backfill s))) as [[|c n]|];
          try reflexivity.
        destruct (check_client svc _ _) as [[|] result];
          [destruct (has_items _); [rewrite calls_of_pair|]|]; reflexivity.
      * assert (Hcall : forall r s',
                  forallb call_currency_ok
                    (calls_of (r, s',
                       [EmitInvoice (client_data (backfill s))
                          (document_type (emission_data (backfill s)))
                          (currency (emission_data (backfill s)))
                          (id_type (emission_data (backfill s)))
                          (id_number (emission_data (backfill s)))
                          (items (emission_data (backfill s)))])) = true).
        { intros r s'. cbn [calls_of snd forallb call_currency_ok].
          rewrite Hc. unfold currency_ok in He. now rewrite He. }
        destruct (emit_invoice svc _ _ _ _ _ _) as [resp|msg|]; try apply Hcall.
        destruct (is_successful resp); apply Hcall.
    + rewrite calls_of_pair. reflexivity.
Qed.

Lemma currency_is_always_set_witness :
  currency_ok (emission_data not_found_turn) = true.
Proof.
  assert (Hr : reachable not_found_turn).
  { apply (reach_step fresh); [apply fresh_reachable|].
    apply (step_process fresh svc_missing (u "Boleta 11111111, 1 libro a 40")). }
  destruct (currency_is_always_set not_found_turn Hr) as (He & _).
  exact He.
Defined.
